(** * tablereader: typed table extraction

    A shallow embedding of [tablereader/parser.py], [tablereader/csv.py] and
    [tablereader/xls.py], with the properties of the specification settled on
    it.

    Conventions of the embedding.

    - A Python [str] is a Rocq [string], read as the UTF-8 bytes of the text;
      [Utf8.chars] gives its characters.  [str.strip], [str.lower], the
      class [\s] of [re.sub] and the whitespace and the digits that [float]
      accepts follow the Unicode character database, whose tables are in
      [Unicode], and so do the classes [\s] and [\d] of the patterns of
      [datetime.strptime] in the text that is parsed.  The formats of
      [datetime.strptime] are ASCII texts, with the directives of the
      candidate lists of [parse_iterator].
    - A Python exception is a constructor of [exn]; code that may raise
      returns a [result].
    - A generator is the list of values it yields together with the exception
      that ends it, when there is one ([stream]).
    - A Python [float] is a binary64 primitive float; [float(str)] rounds the
      decimal to nearest-even through the specification floats of the
      library. *)

From Stdlib Require Import ZArith List Bool Ascii String Lia.
From Stdlib Require Import Floats.PrimFloat Floats.SpecFloat Floats.FloatOps.
From Stdlib Require Import DecimalString.
Import ListNotations.

#[local] Set Warnings "-inexact-float".

Open Scope string_scope.
Open Scope Z_scope.

(** ** Python exceptions and results *)

Inductive exn : Type :=
| ValueError
| TypeError
| IndexError
| KeyError
| ReError.

Inductive result (A : Type) : Type :=
| Ok (a : A)
| Raise (e : exn).

Arguments Ok {A} a.
Arguments Raise {A} e.

Definition bind {A B : Type} (r : result A) (k : A -> result B) : result B :=
  match r with
  | Ok a => k a
  | Raise e => Raise e
  end.

Notation "'let*' x ':=' r 'in' k" := (bind r (fun x => k))
  (at level 10, x name, r at level 100, k at level 200).

(** ** Unicode

    The tables of the Unicode character database (version 14.0, the one of
    CPython 3.11) that [str.strip], [str.lower], [float], [int] and the
    classes [\s] and [\d] consult, by code point. *)

Module Unicode.

(** The code points [c] for which [chr(c).isspace()] holds: the characters
    that [str.strip] removes and that the class [\s] of [re] matches. *)
Definition whitespace : list N :=
  [ 9; 10; 11; 12; 13; 28; 29; 30; 31; 32; 133; 160; 5760; 8192; 8193; 8194; 8195; 8196;
    8197; 8198; 8199; 8200; 8201; 8202; 8232; 8233; 8239; 8287; 12288 ]%N.

(** The code points that [str.lower] changes, each with the code point it
    gives; U+0130, which gives two code points, is not in the table. *)
Definition lowercase : list (N * N) :=
  [ (65,97); (66,98); (67,99); (68,100); (69,101); (70,102); (71,103); (72,104);
    (73,105); (74,106); (75,107); (76,108); (77,109); (78,110); (79,111); (80,112);
    (81,113); (82,114); (83,115); (84,116); (85,117); (86,118); (87,119); (88,120);
    (89,121); (90,122); (192,224); (193,225); (194,226); (195,227); (196,228);
    (197,229); (198,230); (199,231); (200,232); (201,233); (202,234); (203,235);
    (204,236); (205,237); (206,238); (207,239); (208,240); (209,241); (210,242);
    (211,243); (212,244); (213,245); (214,246); (216,248); (217,249); (218,250);
    (219,251); (220,252); (221,253); (222,254); (256,257); (258,259); (260,261);
    (262,263); (264,265); (266,267); (268,269); (270,271); (272,273); (274,275);
    (276,277); (278,279); (280,281); (282,283); (284,285); (286,287); (288,289);
    (290,291); (292,293); (294,295); (296,297); (298,299); (300,301); (302,303);
    (306,307); (308,309); (310,311); (313,314); (315,316); (317,318); (319,320);
    (321,322); (323,324); (325,326); (327,328); (330,331); (332,333); (334,335);
    (336,337); (338,339); (340,341); (342,343); (344,345); (346,347); (348,349);
    (350,351); (352,353); (354,355); (356,357); (358,359); (360,361); (362,363);
    (364,365); (366,367); (368,369); (370,371); (372,373); (374,375); (376,255);
    (377,378); (379,380); (381,382); (385,595); (386,387); (388,389); (390,596);
    (391,392); (393,598); (394,599); (395,396); (398,477); (399,601); (400,603);
    (401,402); (403,608); (404,611); (406,617); (407,616); (408,409); (412,623);
    (413,626); (415,629); (416,417); (418,419); (420,421); (422,640); (423,424);
    (425,643); (428,429); (430,648); (431,432); (433,650); (434,651); (435,436);
    (437,438); (439,658); (440,441); (444,445); (452,454); (453,454); (455,457);
    (456,457); (458,460); (459,460); (461,462); (463,464); (465,466); (467,468);
    (469,470); (471,472); (473,474); (475,476); (478,479); (480,481); (482,483);
    (484,485); (486,487); (488,489); (490,491); (492,493); (494,495); (497,499);
    (498,499); (500,501); (502,405); (503,447); (504,505); (506,507); (508,509);
    (510,511); (512,513); (514,515); (516,517); (518,519); (520,521); (522,523);
    (524,525); (526,527); (528,529); (530,531); (532,533); (534,535); (536,537);
    (538,539); (540,541); (542,543); (544,414); (546,547); (548,549); (550,551);
    (552,553); (554,555); (556,557); (558,559); (560,561); (562,563); (570,11365);
    (571,572); (573,410); (574,11366); (577,578); (579,384); (580,649); (581,652);
    (582,583); (584,585); (586,587); (588,589); (590,591); (880,881); (882,883);
    (886,887); (895,1011); (902,940); (904,941); (905,942); (906,943); (908,972);
    (910,973); (911,974); (913,945); (914,946); (915,947); (916,948); (917,949);
    (918,950); (919,951); (920,952); (921,953); (922,954); (923,955); (924,956);
    (925,957); (926,958); (927,959); (928,960); (929,961); (931,963); (932,964);
    (933,965); (934,966); (935,967); (936,968); (937,969); (938,970); (939,971);
    (975,983); (984,985); (986,987); (988,989); (990,991); (992,993); (994,995);
    (996,997); (998,999); (1000,1001); (1002,1003); (1004,1005); (1006,1007);
    (1012,952); (1015,1016); (1017,1010); (1018,1019); (1021,891); (1022,892);
    (1023,893); (1024,1104); (1025,1105); (1026,1106); (1027,1107); (1028,1108);
    (1029,1109); (1030,1110); (1031,1111); (1032,1112); (1033,1113); (1034,1114);
    (1035,1115); (1036,1116); (1037,1117); (1038,1118); (1039,1119); (1040,1072);
    (1041,1073); (1042,1074); (1043,1075); (1044,1076); (1045,1077); (1046,1078);
    (1047,1079); (1048,1080); (1049,1081); (1050,1082); (1051,1083); (1052,1084);
    (1053,1085); (1054,1086); (1055,1087); (1056,1088); (1057,1089); (1058,1090);
    (1059,1091); (1060,1092); (1061,1093); (1062,1094); (1063,1095); (1064,1096);
    (1065,1097); (1066,1098); (1067,1099); (1068,1100); (1069,1101); (1070,1102);
    (1071,1103); (1120,1121); (1122,1123); (1124,1125); (1126,1127); (1128,1129);
    (1130,1131); (1132,1133); (1134,1135); (1136,1137); (1138,1139); (1140,1141);
    (1142,1143); (1144,1145); (1146,1147); (1148,1149); (1150,1151); (1152,1153);
    (1162,1163); (1164,1165); (1166,1167); (1168,1169); (1170,1171); (1172,1173);
    (1174,1175); (1176,1177); (1178,1179); (1180,1181); (1182,1183); (1184,1185);
    (1186,1187); (1188,1189); (1190,1191); (1192,1193); (1194,1195); (1196,1197);
    (1198,1199); (1200,1201); (1202,1203); (1204,1205); (1206,1207); (1208,1209);
    (1210,1211); (1212,1213); (1214,1215); (1216,1231); (1217,1218); (1219,1220);
    (1221,1222); (1223,1224); (1225,1226); (1227,1228); (1229,1230); (1232,1233);
    (1234,1235); (1236,1237); (1238,1239); (1240,1241); (1242,1243); (1244,1245);
    (1246,1247); (1248,1249); (1250,1251); (1252,1253); (1254,1255); (1256,1257);
    (1258,1259); (1260,1261); (1262,1263); (1264,1265); (1266,1267); (1268,1269);
    (1270,1271); (1272,1273); (1274,1275); (1276,1277); (1278,1279); (1280,1281);
    (1282,1283); (1284,1285); (1286,1287); (1288,1289); (1290,1291); (1292,1293);
    (1294,1295); (1296,1297); (1298,1299); (1300,1301); (1302,1303); (1304,1305);
    (1306,1307); (1308,1309); (1310,1311); (1312,1313); (1314,1315); (1316,1317);
    (1318,1319); (1320,1321); (1322,1323); (1324,1325); (1326,1327); (1329,1377);
    (1330,1378); (1331,1379); (1332,1380); (1333,1381); (1334,1382); (1335,1383);
    (1336,1384); (1337,1385); (1338,1386); (1339,1387); (1340,1388); (1341,1389);
    (1342,1390); (1343,1391); (1344,1392); (1345,1393); (1346,1394); (1347,1395);
    (1348,1396); (1349,1397); (1350,1398); (1351,1399); (1352,1400); (1353,1401);
    (1354,1402); (1355,1403); (1356,1404); (1357,1405); (1358,1406); (1359,1407);
    (1360,1408); (1361,1409); (1362,1410); (1363,1411); (1364,1412); (1365,1413);
    (1366,1414); (4256,11520); (4257,11521); (4258,11522); (4259,11523); (4260,11524);
    (4261,11525); (4262,11526); (4263,11527); (4264,11528); (4265,11529); (4266,11530);
    (4267,11531); (4268,11532); (4269,11533); (4270,11534); (4271,11535); (4272,11536);
    (4273,11537); (4274,11538); (4275,11539); (4276,11540); (4277,11541); (4278,11542);
    (4279,11543); (4280,11544); (4281,11545); (4282,11546); (4283,11547); (4284,11548);
    (4285,11549); (4286,11550); (4287,11551); (4288,11552); (4289,11553); (4290,11554);
    (4291,11555); (4292,11556); (4293,11557); (4295,11559); (4301,11565); (5024,43888);
    (5025,43889); (5026,43890); (5027,43891); (5028,43892); (5029,43893); (5030,43894);
    (5031,43895); (5032,43896); (5033,43897); (5034,43898); (5035,43899); (5036,43900);
    (5037,43901); (5038,43902); (5039,43903); (5040,43904); (5041,43905); (5042,43906);
    (5043,43907); (5044,43908); (5045,43909); (5046,43910); (5047,43911); (5048,43912);
    (5049,43913); (5050,43914); (5051,43915); (5052,43916); (5053,43917); (5054,43918);
    (5055,43919); (5056,43920); (5057,43921); (5058,43922); (5059,43923); (5060,43924);
    (5061,43925); (5062,43926); (5063,43927); (5064,43928); (5065,43929); (5066,43930);
    (5067,43931); (5068,43932); (5069,43933); (5070,43934); (5071,43935); (5072,43936);
    (5073,43937); (5074,43938); (5075,43939); (5076,43940); (5077,43941); (5078,43942);
    (5079,43943); (5080,43944); (5081,43945); (5082,43946); (5083,43947); (5084,43948);
    (5085,43949); (5086,43950); (5087,43951); (5088,43952); (5089,43953); (5090,43954);
    (5091,43955); (5092,43956); (5093,43957); (5094,43958); (5095,43959); (5096,43960);
    (5097,43961); (5098,43962); (5099,43963); (5100,43964); (5101,43965); (5102,43966);
    (5103,43967); (5104,5112); (5105,5113); (5106,5114); (5107,5115); (5108,5116);
    (5109,5117); (7312,4304); (7313,4305); (7314,4306); (7315,4307); (7316,4308);
    (7317,4309); (7318,4310); (7319,4311); (7320,4312); (7321,4313); (7322,4314);
    (7323,4315); (7324,4316); (7325,4317); (7326,4318); (7327,4319); (7328,4320);
    (7329,4321); (7330,4322); (7331,4323); (7332,4324); (7333,4325); (7334,4326);
    (7335,4327); (7336,4328); (7337,4329); (7338,4330); (7339,4331); (7340,4332);
    (7341,4333); (7342,4334); (7343,4335); (7344,4336); (7345,4337); (7346,4338);
    (7347,4339); (7348,4340); (7349,4341); (7350,4342); (7351,4343); (7352,4344);
    (7353,4345); (7354,4346); (7357,4349); (7358,4350); (7359,4351); (7680,7681);
    (7682,7683); (7684,7685); (7686,7687); (7688,7689); (7690,7691); (7692,7693);
    (7694,7695); (7696,7697); (7698,7699); (7700,7701); (7702,7703); (7704,7705);
    (7706,7707); (7708,7709); (7710,7711); (7712,7713); (7714,7715); (7716,7717);
    (7718,7719); (7720,7721); (7722,7723); (7724,7725); (7726,7727); (7728,7729);
    (7730,7731); (7732,7733); (7734,7735); (7736,7737); (7738,7739); (7740,7741);
    (7742,7743); (7744,7745); (7746,7747); (7748,7749); (7750,7751); (7752,7753);
    (7754,7755); (7756,7757); (7758,7759); (7760,7761); (7762,7763); (7764,7765);
    (7766,7767); (7768,7769); (7770,7771); (7772,7773); (7774,7775); (7776,7777);
    (7778,7779); (7780,7781); (7782,7783); (7784,7785); (7786,7787); (7788,7789);
    (7790,7791); (7792,7793); (7794,7795); (7796,7797); (7798,7799); (7800,7801);
    (7802,7803); (7804,7805); (7806,7807); (7808,7809); (7810,7811); (7812,7813);
    (7814,7815); (7816,7817); (7818,7819); (7820,7821); (7822,7823); (7824,7825);
    (7826,7827); (7828,7829); (7838,223); (7840,7841); (7842,7843); (7844,7845);
    (7846,7847); (7848,7849); (7850,7851); (7852,7853); (7854,7855); (7856,7857);
    (7858,7859); (7860,7861); (7862,7863); (7864,7865); (7866,7867); (7868,7869);
    (7870,7871); (7872,7873); (7874,7875); (7876,7877); (7878,7879); (7880,7881);
    (7882,7883); (7884,7885); (7886,7887); (7888,7889); (7890,7891); (7892,7893);
    (7894,7895); (7896,7897); (7898,7899); (7900,7901); (7902,7903); (7904,7905);
    (7906,7907); (7908,7909); (7910,7911); (7912,7913); (7914,7915); (7916,7917);
    (7918,7919); (7920,7921); (7922,7923); (7924,7925); (7926,7927); (7928,7929);
    (7930,7931); (7932,7933); (7934,7935); (7944,7936); (7945,7937); (7946,7938);
    (7947,7939); (7948,7940); (7949,7941); (7950,7942); (7951,7943); (7960,7952);
    (7961,7953); (7962,7954); (7963,7955); (7964,7956); (7965,7957); (7976,7968);
    (7977,7969); (7978,7970); (7979,7971); (7980,7972); (7981,7973); (7982,7974);
    (7983,7975); (7992,7984); (7993,7985); (7994,7986); (7995,7987); (7996,7988);
    (7997,7989); (7998,7990); (7999,7991); (8008,8000); (8009,8001); (8010,8002);
    (8011,8003); (8012,8004); (8013,8005); (8025,8017); (8027,8019); (8029,8021);
    (8031,8023); (8040,8032); (8041,8033); (8042,8034); (8043,8035); (8044,8036);
    (8045,8037); (8046,8038); (8047,8039); (8072,8064); (8073,8065); (8074,8066);
    (8075,8067); (8076,8068); (8077,8069); (8078,8070); (8079,8071); (8088,8080);
    (8089,8081); (8090,8082); (8091,8083); (8092,8084); (8093,8085); (8094,8086);
    (8095,8087); (8104,8096); (8105,8097); (8106,8098); (8107,8099); (8108,8100);
    (8109,8101); (8110,8102); (8111,8103); (8120,8112); (8121,8113); (8122,8048);
    (8123,8049); (8124,8115); (8136,8050); (8137,8051); (8138,8052); (8139,8053);
    (8140,8131); (8152,8144); (8153,8145); (8154,8054); (8155,8055); (8168,8160);
    (8169,8161); (8170,8058); (8171,8059); (8172,8165); (8184,8056); (8185,8057);
    (8186,8060); (8187,8061); (8188,8179); (8486,969); (8490,107); (8491,229);
    (8498,8526); (8544,8560); (8545,8561); (8546,8562); (8547,8563); (8548,8564);
    (8549,8565); (8550,8566); (8551,8567); (8552,8568); (8553,8569); (8554,8570);
    (8555,8571); (8556,8572); (8557,8573); (8558,8574); (8559,8575); (8579,8580);
    (9398,9424); (9399,9425); (9400,9426); (9401,9427); (9402,9428); (9403,9429);
    (9404,9430); (9405,9431); (9406,9432); (9407,9433); (9408,9434); (9409,9435);
    (9410,9436); (9411,9437); (9412,9438); (9413,9439); (9414,9440); (9415,9441);
    (9416,9442); (9417,9443); (9418,9444); (9419,9445); (9420,9446); (9421,9447);
    (9422,9448); (9423,9449); (11264,11312); (11265,11313); (11266,11314);
    (11267,11315); (11268,11316); (11269,11317); (11270,11318); (11271,11319);
    (11272,11320); (11273,11321); (11274,11322); (11275,11323); (11276,11324);
    (11277,11325); (11278,11326); (11279,11327); (11280,11328); (11281,11329);
    (11282,11330); (11283,11331); (11284,11332); (11285,11333); (11286,11334);
    (11287,11335); (11288,11336); (11289,11337); (11290,11338); (11291,11339);
    (11292,11340); (11293,11341); (11294,11342); (11295,11343); (11296,11344);
    (11297,11345); (11298,11346); (11299,11347); (11300,11348); (11301,11349);
    (11302,11350); (11303,11351); (11304,11352); (11305,11353); (11306,11354);
    (11307,11355); (11308,11356); (11309,11357); (11310,11358); (11311,11359);
    (11360,11361); (11362,619); (11363,7549); (11364,637); (11367,11368); (11369,11370);
    (11371,11372); (11373,593); (11374,625); (11375,592); (11376,594); (11378,11379);
    (11381,11382); (11390,575); (11391,576); (11392,11393); (11394,11395);
    (11396,11397); (11398,11399); (11400,11401); (11402,11403); (11404,11405);
    (11406,11407); (11408,11409); (11410,11411); (11412,11413); (11414,11415);
    (11416,11417); (11418,11419); (11420,11421); (11422,11423); (11424,11425);
    (11426,11427); (11428,11429); (11430,11431); (11432,11433); (11434,11435);
    (11436,11437); (11438,11439); (11440,11441); (11442,11443); (11444,11445);
    (11446,11447); (11448,11449); (11450,11451); (11452,11453); (11454,11455);
    (11456,11457); (11458,11459); (11460,11461); (11462,11463); (11464,11465);
    (11466,11467); (11468,11469); (11470,11471); (11472,11473); (11474,11475);
    (11476,11477); (11478,11479); (11480,11481); (11482,11483); (11484,11485);
    (11486,11487); (11488,11489); (11490,11491); (11499,11500); (11501,11502);
    (11506,11507); (42560,42561); (42562,42563); (42564,42565); (42566,42567);
    (42568,42569); (42570,42571); (42572,42573); (42574,42575); (42576,42577);
    (42578,42579); (42580,42581); (42582,42583); (42584,42585); (42586,42587);
    (42588,42589); (42590,42591); (42592,42593); (42594,42595); (42596,42597);
    (42598,42599); (42600,42601); (42602,42603); (42604,42605); (42624,42625);
    (42626,42627); (42628,42629); (42630,42631); (42632,42633); (42634,42635);
    (42636,42637); (42638,42639); (42640,42641); (42642,42643); (42644,42645);
    (42646,42647); (42648,42649); (42650,42651); (42786,42787); (42788,42789);
    (42790,42791); (42792,42793); (42794,42795); (42796,42797); (42798,42799);
    (42802,42803); (42804,42805); (42806,42807); (42808,42809); (42810,42811);
    (42812,42813); (42814,42815); (42816,42817); (42818,42819); (42820,42821);
    (42822,42823); (42824,42825); (42826,42827); (42828,42829); (42830,42831);
    (42832,42833); (42834,42835); (42836,42837); (42838,42839); (42840,42841);
    (42842,42843); (42844,42845); (42846,42847); (42848,42849); (42850,42851);
    (42852,42853); (42854,42855); (42856,42857); (42858,42859); (42860,42861);
    (42862,42863); (42873,42874); (42875,42876); (42877,7545); (42878,42879);
    (42880,42881); (42882,42883); (42884,42885); (42886,42887); (42891,42892);
    (42893,613); (42896,42897); (42898,42899); (42902,42903); (42904,42905);
    (42906,42907); (42908,42909); (42910,42911); (42912,42913); (42914,42915);
    (42916,42917); (42918,42919); (42920,42921); (42922,614); (42923,604); (42924,609);
    (42925,620); (42926,618); (42928,670); (42929,647); (42930,669); (42931,43859);
    (42932,42933); (42934,42935); (42936,42937); (42938,42939); (42940,42941);
    (42942,42943); (42944,42945); (42946,42947); (42948,42900); (42949,642);
    (42950,7566); (42951,42952); (42953,42954); (42960,42961); (42966,42967);
    (42968,42969); (42997,42998); (65313,65345); (65314,65346); (65315,65347);
    (65316,65348); (65317,65349); (65318,65350); (65319,65351); (65320,65352);
    (65321,65353); (65322,65354); (65323,65355); (65324,65356); (65325,65357);
    (65326,65358); (65327,65359); (65328,65360); (65329,65361); (65330,65362);
    (65331,65363); (65332,65364); (65333,65365); (65334,65366); (65335,65367);
    (65336,65368); (65337,65369); (65338,65370); (66560,66600); (66561,66601);
    (66562,66602); (66563,66603); (66564,66604); (66565,66605); (66566,66606);
    (66567,66607); (66568,66608); (66569,66609); (66570,66610); (66571,66611);
    (66572,66612); (66573,66613); (66574,66614); (66575,66615); (66576,66616);
    (66577,66617); (66578,66618); (66579,66619); (66580,66620); (66581,66621);
    (66582,66622); (66583,66623); (66584,66624); (66585,66625); (66586,66626);
    (66587,66627); (66588,66628); (66589,66629); (66590,66630); (66591,66631);
    (66592,66632); (66593,66633); (66594,66634); (66595,66635); (66596,66636);
    (66597,66637); (66598,66638); (66599,66639); (66736,66776); (66737,66777);
    (66738,66778); (66739,66779); (66740,66780); (66741,66781); (66742,66782);
    (66743,66783); (66744,66784); (66745,66785); (66746,66786); (66747,66787);
    (66748,66788); (66749,66789); (66750,66790); (66751,66791); (66752,66792);
    (66753,66793); (66754,66794); (66755,66795); (66756,66796); (66757,66797);
    (66758,66798); (66759,66799); (66760,66800); (66761,66801); (66762,66802);
    (66763,66803); (66764,66804); (66765,66805); (66766,66806); (66767,66807);
    (66768,66808); (66769,66809); (66770,66810); (66771,66811); (66928,66967);
    (66929,66968); (66930,66969); (66931,66970); (66932,66971); (66933,66972);
    (66934,66973); (66935,66974); (66936,66975); (66937,66976); (66938,66977);
    (66940,66979); (66941,66980); (66942,66981); (66943,66982); (66944,66983);
    (66945,66984); (66946,66985); (66947,66986); (66948,66987); (66949,66988);
    (66950,66989); (66951,66990); (66952,66991); (66953,66992); (66954,66993);
    (66956,66995); (66957,66996); (66958,66997); (66959,66998); (66960,66999);
    (66961,67000); (66962,67001); (66964,67003); (66965,67004); (68736,68800);
    (68737,68801); (68738,68802); (68739,68803); (68740,68804); (68741,68805);
    (68742,68806); (68743,68807); (68744,68808); (68745,68809); (68746,68810);
    (68747,68811); (68748,68812); (68749,68813); (68750,68814); (68751,68815);
    (68752,68816); (68753,68817); (68754,68818); (68755,68819); (68756,68820);
    (68757,68821); (68758,68822); (68759,68823); (68760,68824); (68761,68825);
    (68762,68826); (68763,68827); (68764,68828); (68765,68829); (68766,68830);
    (68767,68831); (68768,68832); (68769,68833); (68770,68834); (68771,68835);
    (68772,68836); (68773,68837); (68774,68838); (68775,68839); (68776,68840);
    (68777,68841); (68778,68842); (68779,68843); (68780,68844); (68781,68845);
    (68782,68846); (68783,68847); (68784,68848); (68785,68849); (68786,68850);
    (71840,71872); (71841,71873); (71842,71874); (71843,71875); (71844,71876);
    (71845,71877); (71846,71878); (71847,71879); (71848,71880); (71849,71881);
    (71850,71882); (71851,71883); (71852,71884); (71853,71885); (71854,71886);
    (71855,71887); (71856,71888); (71857,71889); (71858,71890); (71859,71891);
    (71860,71892); (71861,71893); (71862,71894); (71863,71895); (71864,71896);
    (71865,71897); (71866,71898); (71867,71899); (71868,71900); (71869,71901);
    (71870,71902); (71871,71903); (93760,93792); (93761,93793); (93762,93794);
    (93763,93795); (93764,93796); (93765,93797); (93766,93798); (93767,93799);
    (93768,93800); (93769,93801); (93770,93802); (93771,93803); (93772,93804);
    (93773,93805); (93774,93806); (93775,93807); (93776,93808); (93777,93809);
    (93778,93810); (93779,93811); (93780,93812); (93781,93813); (93782,93814);
    (93783,93815); (93784,93816); (93785,93817); (93786,93818); (93787,93819);
    (93788,93820); (93789,93821); (93790,93822); (93791,93823); (125184,125218);
    (125185,125219); (125186,125220); (125187,125221); (125188,125222); (125189,125223);
    (125190,125224); (125191,125225); (125192,125226); (125193,125227); (125194,125228);
    (125195,125229); (125196,125230); (125197,125231); (125198,125232); (125199,125233);
    (125200,125234); (125201,125235); (125202,125236); (125203,125237); (125204,125238);
    (125205,125239); (125206,125240); (125207,125241); (125208,125242); (125209,125243);
    (125210,125244); (125211,125245); (125212,125246); (125213,125247); (125214,125248);
    (125215,125249); (125216,125250); (125217,125251) ]%N.

(** The ranges of the cased code points. *)
Definition cased : list (N * N) :=
  [ (65,90); (97,122); (170,170); (181,181); (186,186); (192,214); (216,246); (248,442);
    (444,447); (452,659); (661,696); (704,705); (736,740); (837,837); (880,883);
    (886,887); (890,893); (895,895); (902,902); (904,906); (908,908); (910,929);
    (931,1013); (1015,1153); (1162,1327); (1329,1366); (1376,1416); (4256,4293);
    (4295,4295); (4301,4301); (4304,4346); (4349,4351); (5024,5109); (5112,5117);
    (7296,7304); (7312,7354); (7357,7359); (7424,7615); (7680,7957); (7960,7965);
    (7968,8005); (8008,8013); (8016,8023); (8025,8025); (8027,8027); (8029,8029);
    (8031,8061); (8064,8116); (8118,8124); (8126,8126); (8130,8132); (8134,8140);
    (8144,8147); (8150,8155); (8160,8172); (8178,8180); (8182,8188); (8305,8305);
    (8319,8319); (8336,8348); (8450,8450); (8455,8455); (8458,8467); (8469,8469);
    (8473,8477); (8484,8484); (8486,8486); (8488,8488); (8490,8493); (8495,8500);
    (8505,8505); (8508,8511); (8517,8521); (8526,8526); (8544,8575); (8579,8580);
    (9398,9449); (11264,11492); (11499,11502); (11506,11507); (11520,11557);
    (11559,11559); (11565,11565); (42560,42605); (42624,42653); (42786,42887);
    (42891,42894); (42896,42954); (42960,42961); (42963,42963); (42965,42969);
    (42997,42998); (43000,43002); (43824,43866); (43868,43880); (43888,43967);
    (64256,64262); (64275,64279); (65313,65338); (65345,65370); (66560,66639);
    (66736,66771); (66776,66811); (66928,66938); (66940,66954); (66956,66962);
    (66964,66965); (66967,66977); (66979,66993); (66995,67001); (67003,67004);
    (67456,67456); (67459,67461); (67463,67504); (67506,67514); (68736,68786);
    (68800,68850); (71840,71903); (93760,93823); (119808,119892); (119894,119964);
    (119966,119967); (119970,119970); (119973,119974); (119977,119980); (119982,119993);
    (119995,119995); (119997,120003); (120005,120069); (120071,120074); (120077,120084);
    (120086,120092); (120094,120121); (120123,120126); (120128,120132); (120134,120134);
    (120138,120144); (120146,120485); (120488,120512); (120514,120538); (120540,120570);
    (120572,120596); (120598,120628); (120630,120654); (120656,120686); (120688,120712);
    (120714,120744); (120746,120770); (120772,120779); (122624,122633); (122635,122654);
    (125184,125251); (127280,127305); (127312,127337); (127344,127369) ]%N.

(** The ranges of the case-ignorable code points. *)
Definition case_ignorable : list (N * N) :=
  [ (39,39); (46,46); (58,58); (94,94); (96,96); (168,168); (173,173); (175,175);
    (180,180); (183,184); (688,879); (884,885); (890,890); (900,901); (903,903);
    (1155,1161); (1369,1369); (1375,1375); (1425,1469); (1471,1471); (1473,1474);
    (1476,1477); (1479,1479); (1524,1524); (1536,1541); (1552,1562); (1564,1564);
    (1600,1600); (1611,1631); (1648,1648); (1750,1757); (1759,1768); (1770,1773);
    (1807,1807); (1809,1809); (1840,1866); (1958,1968); (2027,2037); (2042,2042);
    (2045,2045); (2070,2093); (2137,2139); (2184,2184); (2192,2193); (2200,2207);
    (2249,2306); (2362,2362); (2364,2364); (2369,2376); (2381,2381); (2385,2391);
    (2402,2403); (2417,2417); (2433,2433); (2492,2492); (2497,2500); (2509,2509);
    (2530,2531); (2558,2558); (2561,2562); (2620,2620); (2625,2626); (2631,2632);
    (2635,2637); (2641,2641); (2672,2673); (2677,2677); (2689,2690); (2748,2748);
    (2753,2757); (2759,2760); (2765,2765); (2786,2787); (2810,2815); (2817,2817);
    (2876,2876); (2879,2879); (2881,2884); (2893,2893); (2901,2902); (2914,2915);
    (2946,2946); (3008,3008); (3021,3021); (3072,3072); (3076,3076); (3132,3132);
    (3134,3136); (3142,3144); (3146,3149); (3157,3158); (3170,3171); (3201,3201);
    (3260,3260); (3263,3263); (3270,3270); (3276,3277); (3298,3299); (3328,3329);
    (3387,3388); (3393,3396); (3405,3405); (3426,3427); (3457,3457); (3530,3530);
    (3538,3540); (3542,3542); (3633,3633); (3636,3642); (3654,3662); (3761,3761);
    (3764,3772); (3782,3782); (3784,3789); (3864,3865); (3893,3893); (3895,3895);
    (3897,3897); (3953,3966); (3968,3972); (3974,3975); (3981,3991); (3993,4028);
    (4038,4038); (4141,4144); (4146,4151); (4153,4154); (4157,4158); (4184,4185);
    (4190,4192); (4209,4212); (4226,4226); (4229,4230); (4237,4237); (4253,4253);
    (4348,4348); (4957,4959); (5906,5908); (5938,5939); (5970,5971); (6002,6003);
    (6068,6069); (6071,6077); (6086,6086); (6089,6099); (6103,6103); (6109,6109);
    (6155,6159); (6211,6211); (6277,6278); (6313,6313); (6432,6434); (6439,6440);
    (6450,6450); (6457,6459); (6679,6680); (6683,6683); (6742,6742); (6744,6750);
    (6752,6752); (6754,6754); (6757,6764); (6771,6780); (6783,6783); (6823,6823);
    (6832,6862); (6912,6915); (6964,6964); (6966,6970); (6972,6972); (6978,6978);
    (7019,7027); (7040,7041); (7074,7077); (7080,7081); (7083,7085); (7142,7142);
    (7144,7145); (7149,7149); (7151,7153); (7212,7219); (7222,7223); (7288,7293);
    (7376,7378); (7380,7392); (7394,7400); (7405,7405); (7412,7412); (7416,7417);
    (7468,7530); (7544,7544); (7579,7679); (8125,8125); (8127,8129); (8141,8143);
    (8157,8159); (8173,8175); (8189,8190); (8203,8207); (8216,8217); (8228,8228);
    (8231,8231); (8234,8238); (8288,8292); (8294,8303); (8305,8305); (8319,8319);
    (8336,8348); (8400,8432); (11388,11389); (11503,11505); (11631,11631);
    (11647,11647); (11744,11775); (11823,11823); (12293,12293); (12330,12333);
    (12337,12341); (12347,12347); (12441,12446); (12540,12542); (40981,40981);
    (42232,42237); (42508,42508); (42607,42610); (42612,42621); (42623,42623);
    (42652,42655); (42736,42737); (42752,42785); (42864,42864); (42888,42890);
    (42994,42996); (43000,43001); (43010,43010); (43014,43014); (43019,43019);
    (43045,43046); (43052,43052); (43204,43205); (43232,43249); (43263,43263);
    (43302,43309); (43335,43345); (43392,43394); (43443,43443); (43446,43449);
    (43452,43453); (43471,43471); (43493,43494); (43561,43566); (43569,43570);
    (43573,43574); (43587,43587); (43596,43596); (43632,43632); (43644,43644);
    (43696,43696); (43698,43700); (43703,43704); (43710,43711); (43713,43713);
    (43741,43741); (43756,43757); (43763,43764); (43766,43766); (43867,43871);
    (43881,43883); (44005,44005); (44008,44008); (44013,44013); (64286,64286);
    (64434,64450); (65024,65039); (65043,65043); (65056,65071); (65106,65106);
    (65109,65109); (65279,65279); (65287,65287); (65294,65294); (65306,65306);
    (65342,65342); (65344,65344); (65392,65392); (65438,65439); (65507,65507);
    (65529,65531); (66045,66045); (66272,66272); (66422,66426); (67456,67461);
    (67463,67504); (67506,67514); (68097,68099); (68101,68102); (68108,68111);
    (68152,68154); (68159,68159); (68325,68326); (68900,68903); (69291,69292);
    (69446,69456); (69506,69509); (69633,69633); (69688,69702); (69744,69744);
    (69747,69748); (69759,69761); (69811,69814); (69817,69818); (69821,69821);
    (69826,69826); (69837,69837); (69888,69890); (69927,69931); (69933,69940);
    (70003,70003); (70016,70017); (70070,70078); (70089,70092); (70095,70095);
    (70191,70193); (70196,70196); (70198,70199); (70206,70206); (70367,70367);
    (70371,70378); (70400,70401); (70459,70460); (70464,70464); (70502,70508);
    (70512,70516); (70712,70719); (70722,70724); (70726,70726); (70750,70750);
    (70835,70840); (70842,70842); (70847,70848); (70850,70851); (71090,71093);
    (71100,71101); (71103,71104); (71132,71133); (71219,71226); (71229,71229);
    (71231,71232); (71339,71339); (71341,71341); (71344,71349); (71351,71351);
    (71453,71455); (71458,71461); (71463,71467); (71727,71735); (71737,71738);
    (71995,71996); (71998,71998); (72003,72003); (72148,72151); (72154,72155);
    (72160,72160); (72193,72202); (72243,72248); (72251,72254); (72263,72263);
    (72273,72278); (72281,72283); (72330,72342); (72344,72345); (72752,72758);
    (72760,72765); (72767,72767); (72850,72871); (72874,72880); (72882,72883);
    (72885,72886); (73009,73014); (73018,73018); (73020,73021); (73023,73029);
    (73031,73031); (73104,73105); (73109,73109); (73111,73111); (73459,73460);
    (78896,78904); (92912,92916); (92976,92982); (92992,92995); (94031,94031);
    (94095,94111); (94176,94177); (94179,94180); (110576,110579); (110581,110587);
    (110589,110590); (113821,113822); (113824,113827); (118528,118573); (118576,118598);
    (119143,119145); (119155,119170); (119173,119179); (119210,119213); (119362,119364);
    (121344,121398); (121403,121452); (121461,121461); (121476,121476); (121499,121503);
    (121505,121519); (122880,122886); (122888,122904); (122907,122913); (122915,122916);
    (122918,122922); (123184,123197); (123566,123566); (123628,123631); (125136,125142);
    (125252,125259); (127995,127999); (917505,917505); (917536,917631); (917760,917999) ]%N.

(** The code points of the decimal digits zero: each begins a run of the
    ten digits of a script. *)
Definition decimal_zeros : list N :=
  [ 48; 1632; 1776; 1984; 2406; 2534; 2662; 2790; 2918; 3046; 3174; 3302; 3430; 3558;
    3664; 3792; 3872; 4160; 4240; 6112; 6160; 6470; 6608; 6784; 6800; 6992; 7088; 7232;
    7248; 42528; 43216; 43264; 43472; 43504; 43600; 44016; 65296; 66720; 68912; 69734;
    69872; 69942; 70096; 70384; 70736; 70864; 71248; 71360; 71472; 71904; 72016; 72784;
    73040; 73120; 92768; 92864; 93008; 120782; 120792; 120802; 120812; 120822; 123200;
    123632; 125264; 130032 ]%N.

End Unicode.

(** ** UTF-8 *)

Module Utf8.

(** A continuation byte, [10xxxxxx]. *)
Definition is_cont (c : ascii) : bool :=
  let n := N_of_ascii c in ((128 <=? n) && (n <=? 191))%N.

Definition starts_with_cont (s : string) : bool :=
  match s with
  | String c _ => is_cont c
  | EmptyString => false
  end.

(** The characters of a text, each as the bytes that encode it: a
    character is a byte together with the continuation bytes that follow
    it. *)
Fixpoint chars (s : string) : list string :=
  match s with
  | EmptyString => []
  | String c s' =>
      match chars s' with
      | ch :: rest =>
          if starts_with_cont ch then String c ch :: rest
          else String c EmptyString :: ch :: rest
      | [] => [String c EmptyString]
      end
  end.

(** The text made of the characters of a list. *)
Fixpoint join (l : list string) : string :=
  match l with
  | [] => EmptyString
  | ch :: l' => ch ++ join l'
  end.

(** The bytes that encode a code point. *)
Definition encode (n : N) : string :=
  (if n <? 128 then String (ascii_of_N n) ""
   else if n <? 2048 then
     String (ascii_of_N (192 + n / 64)) (String (ascii_of_N (128 + n mod 64)) "")
   else if n <? 65536 then
     String (ascii_of_N (224 + n / 4096))
       (String (ascii_of_N (128 + (n / 64) mod 64))
          (String (ascii_of_N (128 + n mod 64)) ""))
   else if n <? 1114112 then
     String (ascii_of_N (240 + n / 262144))
       (String (ascii_of_N (128 + (n / 4096) mod 64))
          (String (ascii_of_N (128 + (n / 64) mod 64))
             (String (ascii_of_N (128 + n mod 64)) "")))
   else "")%N.

(** The code point of a character: the number its bytes hold, when they
    are the encoding of that number. *)
Definition decode (ch : string) : option N :=
  let n :=
    (match ch with
     | String a "" => N_of_ascii a
     | String a (String b "") => (N_of_ascii a - 192) * 64 + (N_of_ascii b - 128)
     | String a (String b (String c "")) =>
         (N_of_ascii a - 224) * 4096 + (N_of_ascii b - 128) * 64 + (N_of_ascii c - 128)
     | String a (String b (String c (String d ""))) =>
         (N_of_ascii a - 240) * 262144 + (N_of_ascii b - 128) * 4096
         + (N_of_ascii c - 128) * 64 + (N_of_ascii d - 128)
     | _ => 1114112
     end)%N in
  if String.eqb (encode n) ch then Some n else None.

(** The text of a list of code points. *)
Definition text (l : list N) : string := join (map encode l).

End Utf8.

(** ** Strings *)

Module Str.

(** An ASCII whitespace character, as a byte: the whitespace of a format
    of [strptime]. *)
Definition is_space (c : ascii) : bool :=
  let n := N_of_ascii c in
  ((9 <=? n) && (n <=? 13) || (28 <=? n) && (n <=? 32))%N.

Definition is_upper (c : ascii) : bool :=
  let n := N_of_ascii c in ((65 <=? n) && (n <=? 90))%N.

Definition is_digit (c : ascii) : bool :=
  let n := N_of_ascii c in ((48 <=? n) && (n <=? 57))%N.

Definition lower_char (c : ascii) : ascii :=
  if is_upper c then ascii_of_N (N_of_ascii c + 32) else c.

Definition in_ranges (n : N) (ranges : list (N * N)) : bool :=
  existsb (fun r => (fst r <=? n) && (n <=? snd r))%N ranges.

(** [ch.isspace()] for one character. *)
Definition is_whitespace (ch : string) : bool :=
  match Utf8.decode ch with
  | Some n => existsb (N.eqb n) Unicode.whitespace
  | None => false
  end.

Definition is_cased (ch : string) : bool :=
  match Utf8.decode ch with
  | Some n => in_ranges n Unicode.cased
  | None => false
  end.

Definition is_case_ignorable (ch : string) : bool :=
  match Utf8.decode ch with
  | Some n => in_ranges n Unicode.case_ignorable
  | None => false
  end.

Fixpoint assoc (n : N) (table : list (N * N)) : option N :=
  match table with
  | [] => None
  | (k, v) :: table' => if (k =? n)%N then Some v else assoc n table'
  end.

(** The lower case of one character, which may be more than one
    character. *)
Definition to_lower_full (ch : string) : list string :=
  match Utf8.decode ch with
  | Some n =>
      if (n =? 304)%N then [Utf8.encode 105; Utf8.encode 775]
      else
        match assoc n Unicode.lowercase with
        | Some m => [Utf8.encode m]
        | None => [ch]
        end
  | None => [ch]
  end.

Definition capital_sigma : string := Utf8.encode 931.
Definition small_sigma : string := Utf8.encode 963.
Definition final_sigma : string := Utf8.encode 962.

(** The characters after a capital sigma: [true] when, past the
    case-ignorable ones, a cased character follows. *)
Fixpoint followed_by_cased (l : list string) : bool :=
  match l with
  | [] => false
  | ch :: l' => if is_case_ignorable ch then followed_by_cased l' else is_cased ch
  end.

(** [s.lower()] on the characters of [s].  [after_cased] tells that,
    past the case-ignorable characters, a cased character precedes: a
    capital sigma in that place, and followed by no cased character, gives
    the final sigma. *)
Fixpoint lower_chars (after_cased : bool) (l : list string) : list string :=
  match l with
  | [] => []
  | ch :: l' =>
      (if String.eqb ch capital_sigma then
         [if after_cased && negb (followed_by_cased l') then final_sigma else small_sigma]
       else to_lower_full ch)
      ++ lower_chars (if is_case_ignorable ch then after_cased else is_cased ch) l'
  end.

(** [s.lower()] *)
Definition lower (s : string) : string :=
  Utf8.join (lower_chars false (Utf8.chars s)).

Fixpoint lstrip_chars (l : list string) : list string :=
  match l with
  | [] => []
  | ch :: l' => if is_whitespace ch then lstrip_chars l' else l
  end.

Fixpoint rstrip_chars (l : list string) : list string :=
  match l with
  | [] => []
  | ch :: l' =>
      match rstrip_chars l' with
      | [] => if is_whitespace ch then [] else [ch]
      | r => ch :: r
      end
  end.

(** [s.lstrip()] *)
Definition lstrip (s : string) : string :=
  Utf8.join (lstrip_chars (Utf8.chars s)).

(** [s.strip()] *)
Definition strip (s : string) : string :=
  Utf8.join (rstrip_chars (lstrip_chars (Utf8.chars s))).

(** [s.startswith(p)] *)
Fixpoint startswith (p s : string) : bool :=
  match p, s with
  | EmptyString, _ => true
  | String a p', String b s' => Ascii.eqb a b && startswith p' s'
  | String _ _, EmptyString => false
  end.

(** [s.endswith(c)] for a one-character suffix. *)
Fixpoint endswith_char (c : ascii) (s : string) : bool :=
  match s with
  | EmptyString => false
  | String a EmptyString => Ascii.eqb a c
  | String _ s' => endswith_char c s'
  end.

(** [s[:-1]] *)
Fixpoint drop_last (s : string) : string :=
  match s with
  | EmptyString => EmptyString
  | String _ EmptyString => EmptyString
  | String a s' => String a (drop_last s')
  end.

(** [s[n:]] for a natural [n]. *)
Fixpoint drop (n : nat) (s : string) : string :=
  match n, s with
  | O, _ => s
  | S n', String _ s' => drop n' s'
  | S _, EmptyString => EmptyString
  end.

(** [s.replace(old, new)] for a non-empty [old]: the occurrences are
    replaced left to right, without overlap. *)
Fixpoint replace_fuel (fuel : nat) (old new s : string) : string :=
  match fuel with
  | O => s
  | S fuel' =>
      match s with
      | EmptyString => EmptyString
      | String c s' =>
          if startswith old s
          then new ++ replace_fuel fuel' old new (drop (String.length old) s)
          else String c (replace_fuel fuel' old new s')
      end
  end.

Definition replace (old new s : string) : string :=
  replace_fuel (String.length s) old new s.

(** [x in xs] for a collection of strings. *)
Definition mem (x : string) (xs : list string) : bool :=
  existsb (String.eqb x) xs.

End Str.

(** ** parser.py: the null normalizer *)

Definition em_dash : string :=
  String (ascii_of_nat 226) (String (ascii_of_nat 128) (String (ascii_of_nat 148) "")).
Definition en_dash : string :=
  String (ascii_of_nat 226) (String (ascii_of_nat 128) (String (ascii_of_nat 147) "")).

Definition NULL_VALUES : list string :=
  [ ""; "null"; "none"; "n/a"; "na"; "#na"; "nan"; "nan"; "-"; "--";
    em_dash; en_dash; "?"; "???"; "."; ".."; "..." ].

(** [clean_nulls(value)]: Python's [None] is [None] on both sides. *)
Definition clean_nulls (value : option string) : option string :=
  match value with
  | None => None
  | Some value =>
      let value := Str.lower (Str.strip value) in
      if Str.mem value NULL_VALUES then None else Some value
  end.

(** ** Python values held by a typed row

    The value universe of the specification: a float, a calendar date, a
    datetime, a time of day, a string, or [None]. *)

Record datetime : Type := mk_datetime
  { year : Z; month : Z; day : Z; hour : Z; minute : Z; second : Z }.

Inductive pyval : Type :=
| PyNone
| PyFloat (f : float)
| PyStr (s : string)
| PyDate (y m d : Z)
| PyTime (h m s : Z)
| PyDatetime (dt : datetime).

(** [with_clean(fn)]: the wrapper calls [fn] on the cleaned value only when
    it is not null, and returns [None] otherwise. *)
Definition with_clean (fn : string -> result pyval) (value : option string)
    : result pyval :=
  match clean_nulls value with
  | None => Ok PyNone
  | Some cleaned_value => fn cleaned_value
  end.

(** ** float(str)

    [digitpart] reads a run of decimal digits in which single underscores may
    separate digits; it returns the value, the number of digits read and the
    rest of the text. *)

Definition digit_val (c : ascii) : Z := Z.of_N (N_of_ascii c) - 48.

Fixpoint digitpart (acc : Z) (n : nat) (s : string) : Z * nat * string :=
  match s with
  | EmptyString => (acc, n, s)
  | String c s' =>
      if Str.is_digit c then digitpart (acc * 10 + digit_val c) (S n) s'
      else if Ascii.eqb c "_" && negb (Nat.eqb n 0) then
        match s' with
        | String d _ => if Str.is_digit d then digitpart acc n s' else (acc, n, s)
        | EmptyString => (acc, n, s)
        end
      else (acc, n, s)
  end.

(** The binary64 value nearest to [(-1)^neg * m * 10^e], ties to even. *)
Definition float_of_decimal (neg : bool) (m e : Z) : float :=
  SF2Prim
    (match m with
     | Zpos p =>
         if 0 <=? e then binary_round prec emax neg (Pos.mul p (Z.to_pos (10 ^ e))) 0
         else
           let '(q, e', l) := SFdiv_core_binary prec emax (Zpos p) 0 (10 ^ (- e)) 0 in
           binary_round_aux prec emax neg q e' l
     | _ => S754_zero neg
     end).

Definition split_sign (s : string) : bool * string :=
  match s with
  | String "-" s' => (true, s')
  | String "+" s' => (false, s')
  | _ => (false, s)
  end.

(** The exponent part [e[+-]digits], when there is one. *)
Definition exponent (s : string) : option (Z * string) :=
  match s with
  | String c s' =>
      if Ascii.eqb c "e" || Ascii.eqb c "E" then
        let '(neg, s'') := split_sign s' in
        let '(v, n, rest) := digitpart 0 0 s'' in
        if Nat.eqb n 0 then None else Some (if neg then - v else v, rest)
      else Some (0, s)
  | EmptyString => Some (0, s)
  end.

(** The digit that a decimal-digit character stands for. *)
Definition decimal_digit (n : N) : option N :=
  match filter (fun z => (z <=? n) && (n <=? z + 9))%N Unicode.decimal_zeros with
  | z :: _ => Some (n - z)%N
  | [] => None
  end.

(** What [float] makes of the characters of its argument before it reads
    them: an ASCII character is kept, any other whitespace becomes a space
    and any other decimal digit the ASCII digit of its value; the text is
    cut, with a question mark, at the first character that is none of
    these. *)
Fixpoint to_ascii (l : list string) : string :=
  match l with
  | [] => EmptyString
  | ch :: l' =>
      match Utf8.decode ch with
      | Some n =>
          if (n <? 127)%N then ch ++ to_ascii l'
          else if existsb (N.eqb n) Unicode.whitespace then String " " (to_ascii l')
          else
            match decimal_digit n with
            | Some d => String (ascii_of_N (48 + d)) (to_ascii l')
            | None => "?"
            end
      | None => "?"
      end
  end.

(** The whitespace of the C locale, which [float] skips on both sides. *)
Definition is_c_space (c : ascii) : bool :=
  let n := N_of_ascii c in ((9 <=? n) && (n <=? 13) || (n =? 32))%N.

Fixpoint c_lstrip (s : string) : string :=
  match s with
  | EmptyString => EmptyString
  | String c s' => if is_c_space c then c_lstrip s' else s
  end.

Fixpoint c_rstrip (s : string) : string :=
  match s with
  | EmptyString => EmptyString
  | String c s' =>
      match c_rstrip s' with
      | EmptyString => if is_c_space c then EmptyString else String c EmptyString
      | r => String c r
      end
  end.

(** [float(s)]: surrounding whitespace is ignored; the text is a signed
    decimal with an optional fraction and exponent, or [inf], [infinity] or
    [nan] in any casing; anything else raises [ValueError]. *)
Definition py_float (s : string) : result float :=
  let '(neg, body) := split_sign (c_rstrip (c_lstrip (to_ascii (Utf8.chars s)))) in
  let word := Str.lower body in
  if String.eqb word "inf" || String.eqb word "infinity"
  then Ok (if neg then neg_infinity else infinity)
  else if String.eqb word "nan" then Ok nan
  else
    let '(ip, ni, r1) := digitpart 0 0 body in
    let '(fp, nf, r2) :=
      match r1 with
      | String "." r => digitpart 0 0 r
      | _ => (0, O, r1)
      end in
    if Nat.eqb ni 0 && Nat.eqb nf 0 then Raise ValueError
    else
      match exponent r2 with
      | Some (ex, EmptyString) =>
          Ok (float_of_decimal neg (ip * 10 ^ Z.of_nat nf + fp) (ex - Z.of_nat nf))
      | _ => Raise ValueError
      end.

(** ** parser.py: parse_number *)

Definition euro : string :=
  String (ascii_of_nat 226) (String (ascii_of_nat 130) (String (ascii_of_nat 172) "")).
Definition pound : string :=
  String (ascii_of_nat 194) (String (ascii_of_nat 163) "").
Definition yen : string :=
  String (ascii_of_nat 194) (String (ascii_of_nat 165) "").

Definition currency_symbols : list string := [ euro; "$"; pound; yen ].

(** [re.sub(r"[€$£¥\s]", "", value)]: the characters of the class are
    removed. *)
Definition remove_currency (value : string) : string :=
  Utf8.join
    (filter (fun ch => negb (Str.mem ch currency_symbols || Str.is_whitespace ch))
       (Utf8.chars value)).

(** The body of [parse_number], before the [with_clean] decoration. *)
Definition parse_number_body (decimal_separator : string) (value : string)
    : result pyval :=
  let value := Str.replace " " "" value in
  let is_percentage := Str.endswith_char "%" value in
  let value := if is_percentage then Str.strip (Str.drop_last value) else value in
  let value := remove_currency value in
  let value :=
    if String.eqb decimal_separator ","
    then Str.replace "," "." (Str.replace "." "" value)
    else Str.replace "," "" value in
  let* result := py_float value in
  Ok (PyFloat (if is_percentage then PrimFloat.div result 100%float else result)).

Definition parse_number (value : option string) (decimal_separator : string)
    : result pyval :=
  with_clean (parse_number_body decimal_separator) value.

(** ** datetime.strptime

    The model follows [_strptime.py] for the directives of the candidate
    lists of [parse_iterator]: the format becomes a pattern (a run of
    whitespace stands for [\s+], every other character for itself, a
    directive for its alternatives, tried in order), the pattern is matched
    ignoring case at the start of the text, character by character, the
    whole text must be consumed, and the fields found must form a valid
    [datetime].  In the text, [\s] is any whitespace and [\d] a decimal
    digit of any script; the formats are ASCII texts. *)

Module Strptime.

(** One alternative of a directive: a predicate per character. *)
Definition alt : Type := list (string -> bool).

Inductive token : Type :=
| Lit (c : ascii)
| Blank
| Dir (d : ascii) (alts : list alt).

(** A class [[lo-hi]] of ASCII characters. *)
Definition rng (lo hi : ascii) : string -> bool :=
  fun ch =>
    match ch with
    | String c EmptyString =>
        ((N_of_ascii lo <=? N_of_ascii c) && (N_of_ascii c <=? N_of_ascii hi))%N
    | _ => false
    end.

(** An ASCII character of the pattern, matched without regard to case. *)
Definition ci (x : ascii) : string -> bool :=
  fun ch =>
    match ch with
    | String c EmptyString => Ascii.eqb (Str.lower_char x) (Str.lower_char c)
    | _ => false
    end.

(** The class [\d]: a decimal digit of any script. *)
Definition digit : string -> bool :=
  fun ch =>
    match Utf8.decode ch with
    | Some n => match decimal_digit n with Some _ => true | None => false end
    | None => false
    end.

Fixpoint word (w : string) : alt :=
  match w with
  | EmptyString => []
  | String c w' => ci c :: word w'
  end.

Definition a_month : list string :=
  [ "jan"; "feb"; "mar"; "apr"; "may"; "jun";
    "jul"; "aug"; "sep"; "oct"; "nov"; "dec" ].

Definition f_month : list string :=
  [ "january"; "february"; "march"; "april"; "may"; "june";
    "july"; "august"; "september"; "october"; "november"; "december" ].

(** The alternatives of the full month names, longest first, as the
    pattern lists them. *)
Definition f_month_by_length : list string :=
  [ "september"; "february"; "november"; "december"; "january"; "october";
    "august"; "march"; "april"; "june"; "july"; "may" ].

Definition am_pm : list string := [ "am"; "pm" ].

Definition directive (d : ascii) : option (list alt) :=
  match d with
  | "d"%char => Some [ [rng "3" "3"; rng "0" "1"]; [rng "1" "2"; digit];
                       [rng "0" "0"; rng "1" "9"]; [rng "1" "9"];
                       [rng " " " "; rng "1" "9"] ]
  | "m"%char => Some [ [rng "1" "1"; rng "0" "2"]; [rng "0" "0"; rng "1" "9"];
                       [rng "1" "9"] ]
  | "H"%char => Some [ [rng "2" "2"; rng "0" "3"]; [rng "0" "1"; digit]; [digit] ]
  | "I"%char => Some [ [rng "1" "1"; rng "0" "2"]; [rng "0" "0"; rng "1" "9"];
                       [rng "1" "9"] ]
  | "M"%char => Some [ [rng "0" "5"; digit]; [digit] ]
  | "S"%char => Some [ [rng "6" "6"; rng "0" "1"]; [rng "0" "5"; digit]; [digit] ]
  | "y"%char => Some [ [digit; digit] ]
  | "Y"%char => Some [ [digit; digit; digit; digit] ]
  | "b"%char => Some (map word a_month)
  | "B"%char => Some (map word f_month_by_length)
  | "p"%char => Some (map word am_pm)
  | _ => None
  end.

(** The pattern of a format.  [prev_blank] tells that the previous
    character was whitespace, so that a run gives one [Blank].  A [%] at
    the end of the format and an unknown directive raise [ValueError]. *)
Fixpoint pattern (prev_blank : bool) (fmt : string) : result (list token) :=
  match fmt with
  | EmptyString => Ok []
  | String "%" EmptyString => Raise ValueError
  | String "%" (String d fmt') =>
      if Ascii.eqb d "%" then
        let* ts := pattern false fmt' in Ok (Lit "%" :: ts)
      else
        match directive d with
        | Some alts => let* ts := pattern false fmt' in Ok (Dir d alts :: ts)
        | None => Raise ValueError
        end
  | String c fmt' =>
      if Str.is_space c then
        let* ts := pattern true fmt' in
        Ok (if prev_blank then ts else Blank :: ts)
      else
        let* ts := pattern false fmt' in Ok (Lit c :: ts)
  end.

Fixpoint group_names (ts : list token) : list ascii :=
  match ts with
  | [] => []
  | Dir d _ :: ts' => d :: group_names ts'
  | _ :: ts' => group_names ts'
  end.

Fixpoint has_dup (l : list ascii) : bool :=
  match l with
  | [] => false
  | x :: l' => existsb (Ascii.eqb x) l' || has_dup l'
  end.

(** An alternative at the start of the characters [l]: the text matched
    and the characters left. *)
Fixpoint match_alt (a : alt) (l : list string) : option (string * list string) :=
  match a with
  | [] => Some (EmptyString, l)
  | p :: a' =>
      match l with
      | ch :: l' =>
          if p ch then
            match match_alt a' l' with
            | Some (m, rest) => Some (ch ++ m, rest)
            | None => None
            end
          else None
      | [] => None
      end
  end.

Fixpoint first_some {A B : Type} (f : A -> option B) (l : list A) : option B :=
  match l with
  | [] => None
  | x :: l' => match f x with Some b => Some b | None => first_some f l' end
  end.

(** What [\s+] may leave, longest run first: the characters after one or
    more leading whitespace characters. *)
Fixpoint blank_rests (l : list string) : list (list string) :=
  match l with
  | ch :: l' => if Str.is_whitespace ch then blank_rests l' ++ [l'] else []
  | [] => []
  end.

Definition groups : Type := list (ascii * string).

(** The first match of the pattern at the start of the characters [l],
    in the order of a backtracking matcher: the groups found and the
    characters left over. *)
Fixpoint match_tokens (ts : list token) (l : list string) (found : groups)
    : option (groups * list string) :=
  match ts with
  | [] => Some (rev found, l)
  | Lit c :: ts' =>
      match l with
      | ch :: l' => if ci c ch then match_tokens ts' l' found else None
      | [] => None
      end
  | Blank :: ts' =>
      first_some (fun rest => match_tokens ts' rest found) (blank_rests l)
  | Dir d alts :: ts' =>
      first_some
        (fun a =>
           match match_alt a l with
           | Some (m, rest) => match_tokens ts' rest ((d, m) :: found)
           | None => None
           end)
        alts
  end.

(** [int(text)] for the text of a numeric group (decimal digits of any
    script, after an optional blank). *)
Definition int_of (m : string) : Z :=
  let '(v, _, _) := digitpart 0 0 (Str.lstrip (to_ascii (Utf8.chars m))) in v.

Fixpoint index_of (w : string) (l : list string) (i : Z) : Z :=
  match l with
  | [] => i
  | x :: l' => if String.eqb x w then i else index_of w l' (i + 1)
  end.

Fixpoint lookup (d : ascii) (found : groups) : option string :=
  match found with
  | [] => None
  | (k, m) :: found' => if Ascii.eqb k d then Some m else lookup d found'
  end.

(** The loop over the groups found, in the order of the pattern. *)
Definition set_field (found : groups) (dt : datetime) (g : ascii * string) : datetime :=
  let '(d, m) := g in
  let v := int_of m in
  match d with
  | "y"%char =>
      mk_datetime (if v <=? 68 then v + 2000 else v + 1900)
        (month dt) (day dt) (hour dt) (minute dt) (second dt)
  | "Y"%char => mk_datetime v (month dt) (day dt) (hour dt) (minute dt) (second dt)
  | "m"%char => mk_datetime (year dt) v (day dt) (hour dt) (minute dt) (second dt)
  | "B"%char =>
      mk_datetime (year dt) (index_of (Str.lower m) f_month 1)
        (day dt) (hour dt) (minute dt) (second dt)
  | "b"%char =>
      mk_datetime (year dt) (index_of (Str.lower m) a_month 1)
        (day dt) (hour dt) (minute dt) (second dt)
  | "d"%char => mk_datetime (year dt) (month dt) v (hour dt) (minute dt) (second dt)
  | "H"%char => mk_datetime (year dt) (month dt) (day dt) v (minute dt) (second dt)
  | "I"%char =>
      let ampm := match lookup "p" found with
                  | Some p => Str.lower p
                  | None => EmptyString
                  end in
      let h :=
        if String.eqb ampm "" || String.eqb ampm "am"
        then (if v =? 12 then 0 else v)
        else if String.eqb ampm "pm"
             then (if v =? 12 then v else v + 12)
             else v in
      mk_datetime (year dt) (month dt) (day dt) h (minute dt) (second dt)
  | "M"%char => mk_datetime (year dt) (month dt) (day dt) (hour dt) v (second dt)
  | "S"%char => mk_datetime (year dt) (month dt) (day dt) (hour dt) (minute dt) v
  | _ => dt
  end.

Definition is_leap (y : Z) : bool :=
  (y mod 4 =? 0) && (negb (y mod 100 =? 0) || (y mod 400 =? 0)).

Definition days_in_month (y m : Z) : Z :=
  if m =? 2 then (if is_leap y then 29 else 28)
  else if (m =? 4) || (m =? 6) || (m =? 9) || (m =? 11) then 30
  else 31.

(** The checks of the [datetime] constructor. *)
Definition valid (dt : datetime) : bool :=
  (1 <=? year dt) && (year dt <=? 9999)
  && (1 <=? month dt) && (month dt <=? 12)
  && (1 <=? day dt) && (day dt <=? days_in_month (year dt) (month dt))
  && (0 <=? hour dt) && (hour dt <=? 23)
  && (0 <=? minute dt) && (minute dt <=? 59)
  && (0 <=? second dt) && (second dt <=? 59).

(** [datetime.strptime(data_string, format)]; a format that is [None]
    raises [TypeError]. *)
Definition strptime (data_string : string) (format : option string)
    : result datetime :=
  match format with
  | None => Raise TypeError
  | Some format =>
      let* ts := pattern false format in
      if has_dup (group_names ts) then Raise ReError
      else
        match match_tokens ts (Utf8.chars data_string) [] with
        | Some (found, []) =>
            let dt := fold_left (set_field found) found (mk_datetime 1900 1 1 0 0 0) in
            if valid dt then Ok dt else Raise ValueError
        | _ => Raise ValueError
        end
  end.

End Strptime.

(** ** parser.py: the temporal parsers *)

Definition parse_date (value : option string) (fmt : option string) : result pyval :=
  with_clean
    (fun value => let* dt := Strptime.strptime value fmt in Ok (PyDatetime dt)) value.

Definition parse_datetime (value : option string) (fmt : option string) : result pyval :=
  with_clean
    (fun value => let* dt := Strptime.strptime value fmt in Ok (PyDatetime dt)) value.

Definition parse_time (value : option string) (fmt : option string) : result pyval :=
  with_clean
    (fun value => let* dt := Strptime.strptime value fmt in Ok (PyDatetime dt)) value.

(** ** Python containers *)

(** A [dict] with string keys, in insertion order: [d[k] = v] overwrites the
    value of a key already present and appends a new key otherwise. *)
Definition dict (V : Type) : Type := list (string * V).

Fixpoint dict_set {V : Type} (d : dict V) (k : string) (v : V) : dict V :=
  match d with
  | [] => [(k, v)]
  | (k', v') :: d' =>
      if String.eqb k' k then (k, v) :: d' else (k', v') :: dict_set d' k v
  end.

(** [d[k]], which raises [KeyError] for a missing key. *)
Fixpoint dict_get {V : Type} (d : dict V) (k : string) : result V :=
  match d with
  | [] => Raise KeyError
  | (k', v) :: d' => if String.eqb k' k then Ok v else dict_get d' k
  end.

(** [l[idx]] for an index that is not negative. *)
Definition list_get {A : Type} (l : list A) (idx : nat) : result A :=
  match nth_error l idx with
  | Some a => Ok a
  | None => Raise IndexError
  end.

(** [l[start:stop]] with Python's treatment of negative and out-of-range
    bounds. *)
Definition clamp_index (len i : Z) : Z :=
  if i <? 0 then Z.max (i + len) 0 else Z.min i len.

Definition py_slice {A : Type} (l : list A) (start stop : Z) : list A :=
  let len := Z.of_nat (List.length l) in
  let lo := clamp_index len start in
  let hi := clamp_index len stop in
  firstn (Z.to_nat (hi - lo)) (skipn (Z.to_nat lo) l).

(** A generator: the values it yields and the exception that ends it. *)
Definition stream (A : Type) : Type := (list A * option exn)%type.

(** ** csv.py: table_iterator

    [reader] is the sequence of rows [csv.reader] gives for the file. *)

Abbreviation RawRow := (list string) (only parsing).

Definition in_set (x : Z) (s : list Z) : bool := existsb (Z.eqb x) s.

Fixpoint csv_rows (row_idx : Z) (reader : list RawRow)
    (data_start_row data_end_row start_col end_col : Z) (skip_rows_set : list Z)
    : list RawRow :=
  match reader with
  | [] => []
  | row :: reader' =>
      let rest := csv_rows (row_idx + 1) reader'
                    data_start_row data_end_row start_col end_col skip_rows_set in
      if (row_idx <? data_start_row) || (data_end_row <? row_idx) then rest
      else if in_set row_idx skip_rows_set then rest
      else py_slice row start_col (end_col + 1) :: rest
  end.

Module Csv.
Definition table_iterator (data_start_row data_end_row start_col end_col : Z)
    (skip_rows : list Z) (file : list RawRow) : list RawRow :=
  csv_rows 0 file data_start_row data_end_row start_col end_col skip_rows.
End Csv.

(** ** xls.py: table_iterator

    A worksheet is its rows of cells, row 1 first; a cell holds [None] or
    the text [str(cell.value)] of its value. *)

Definition worksheet : Type := list (list (option string)).

Definition zrange (lo hi : Z) : list Z :=
  map (fun i => lo + Z.of_nat i) (seq 0 (Z.to_nat (hi - lo + 1))).

Definition cell_value (ws : worksheet) (r c : Z) : option string :=
  if (r <? 1) || (c <? 1) then None
  else
    match nth_error ws (Z.to_nat (r - 1)) with
    | Some row =>
        match nth_error row (Z.to_nat (c - 1)) with
        | Some v => v
        | None => None
        end
    | None => None
    end.

(** [ws.max_row] and [ws.max_column]: the last row and the last column of
    the sheet. *)
Definition sheet_max_row (ws : worksheet) : Z := Z.of_nat (List.length ws).

Definition sheet_max_column (ws : worksheet) : Z :=
  fold_right (fun row m => Z.max (Z.of_nat (List.length row)) m) 0 ws.

(** [ws._cells_by_row(min_col, min_row, max_col, max_row)] of a read-only
    worksheet: one row per index from [min_row] to [max_row] that the sheet
    has, each padded with empty cells to the columns asked for. *)
Definition cells_by_row (ws : worksheet) (min_row max_row min_col max_col : Z)
    : list (list (option string)) :=
  map (fun r => map (cell_value ws r) (zrange min_col max_col))
      (zrange min_row (Z.min max_row (Z.of_nat (List.length ws)))).

(** [bound or default]: a bound that is 0 counts as a bound not given. *)
Definition or_else (bound default : Z) : Z :=
  if bound =? 0 then default else bound.

(** [ws.iter_rows(min_row, max_row, min_col, max_col)]: a bound not given
    is the first row, the first column, the last row or the last column of
    the sheet. *)
Definition iter_rows (ws : worksheet) (min_row max_row min_col max_col : Z)
    : list (list (option string)) :=
  let min_col := or_else min_col 1 in
  let min_row := or_else min_row 1 in
  let max_col := or_else max_col (sheet_max_column ws) in
  let max_row := or_else max_row (sheet_max_row ws) in
  cells_by_row ws min_row max_row min_col max_col.

Definition normalize_cell (v : option string) : string :=
  match v with
  | Some text => Str.strip text
  | None => ""
  end.

Fixpoint xls_rows (row_idx : Z) (rows : list (list (option string)))
    (skip_rows_set : list Z) : list RawRow :=
  match rows with
  | [] => []
  | row :: rows' =>
      let normalized_row := map normalize_cell row in
      let rest := xls_rows (row_idx + 1) rows' skip_rows_set in
      if in_set row_idx skip_rows_set then rest else normalized_row :: rest
  end.

Module Xls.
Definition table_iterator (data_start_row data_end_row start_col end_col : Z)
    (skip_rows : list Z) (ws : worksheet) : list RawRow :=
  xls_rows 0
    (iter_rows ws (data_start_row + 1) (data_end_row + 1) (start_col + 1) (end_col + 1))
    skip_rows.
End Xls.

(** ** parser.py: format inference *)

(** [get_sample_rows(iterator)].  The iterator is the list of rows it has
    still to give; the function returns the sample and what is left of the
    iterator.  Each turn of the loop takes the next row from the iterator
    before the test on [idx]. *)
Fixpoint get_sample_loop (idx : nat) (sample_rows : list RawRow) (iterator : list RawRow)
    : list RawRow * list RawRow :=
  match iterator with
  | [] => (sample_rows, [])
  | row :: iterator' =>
      if (100 <=? idx)%nat then (sample_rows, iterator')
      else get_sample_loop (S idx) (sample_rows ++ [row]) iterator'
  end.

Definition get_sample_rows (iterator : list RawRow) : list RawRow * list RawRow :=
  get_sample_loop 0 [] iterator.

Definition formatter : Type := option string -> option string -> result pyval.

(** The inner loop of [find_dt_format]: [true] when no call raised, that is
    when the loop reached its [else] branch. *)
Fixpoint all_parse (format_fn : formatter) (fmt : string) (sample : list string) : bool :=
  match sample with
  | [] => true
  | value :: sample' =>
      match format_fn (Some value) (Some fmt) with
      | Ok _ => all_parse format_fn fmt sample'
      | Raise _ => false
      end
  end.

Fixpoint find_dt_format (sample : list string) (format_fn : formatter)
    (formats : list string) : option string :=
  match formats with
  | [] => None
  | fmt :: formats' =>
      if all_parse format_fn fmt sample then Some fmt
      else find_dt_format sample format_fn formats'
  end.

Definition date_formats : list string :=
  [ "%Y-%m-%d"; "%Y/%m/%d"; "%m/%d/%Y"; "%m/%d/%y"; "%d/%m/%Y"; "%d/%m/%y";
    "%d.%m.%Y"; "%d.%m.%y"; "%b %d, %Y"; "%B %d, %Y"; "%d %b %Y"; "%d %B %Y" ].

Definition datetime_formats : list string :=
  [ "%Y-%m-%d %H:%M:%S"; "%Y-%m-%d %H:%M"; "%m/%d/%Y %H:%M:%S";
    "%m/%d/%Y %I:%M:%S %p"; "%m/%d/%Y %I:%M %p"; "%d/%m/%Y %H:%M:%S";
    "%d/%m/%Y %H:%M" ].

Definition time_formats : list string :=
  [ "%H:%M:%S"; "%H:%M"; "%I:%M:%S %p"; "%I:%M %p" ].

(** ** parser.py: parse_iterator *)

Record HeaderColumn : Type := mk_column
  { name : string; type : string; decimal_separator : option string }.

Definition TypedRow : Type := dict pyval.

(** [[row[idx] for row in sample]] *)
Fixpoint col_sample (idx : nat) (sample : list RawRow) : result (list string) :=
  match sample with
  | [] => Ok []
  | row :: sample' =>
      let* v := list_get row idx in
      let* vs := col_sample idx sample' in
      Ok (v :: vs)
  end.

(** The first loop over the header: the format of every temporal column. *)
Fixpoint infer_formats (idx : nat) (header : list HeaderColumn) (sample : list RawRow)
    (formats : dict (option string)) : result (dict (option string)) :=
  match header with
  | [] => Ok formats
  | col :: header' =>
      let* cs := col_sample idx sample in
      let formats :=
        if String.eqb (type col) "date" then
          dict_set formats (name col) (find_dt_format cs parse_date date_formats)
        else if String.eqb (type col) "datetime" then
          dict_set formats (name col) (find_dt_format cs parse_datetime datetime_formats)
        else if String.eqb (type col) "time" then
          dict_set formats (name col) (find_dt_format cs parse_time time_formats)
        else formats in
      infer_formats (S idx) header' sample formats
  end.

(** The value of one cell, by the declared type of its column. *)
Definition parse_cell (formats : dict (option string)) (col : HeaderColumn)
    (row : RawRow) (idx : nat) : result pyval :=
  if String.eqb (type col) "date" then
    let* v := list_get row idx in
    let* fmt := dict_get formats (name col) in
    parse_date (Some v) fmt
  else if String.eqb (type col) "datetime" then
    let* v := list_get row idx in
    let* fmt := dict_get formats (name col) in
    parse_datetime (Some v) fmt
  else if String.eqb (type col) "time" then
    let* v := list_get row idx in
    let* fmt := dict_get formats (name col) in
    parse_time (Some v) fmt
  else if String.eqb (type col) "number" then
    let* v := list_get row idx in
    let* sep := match decimal_separator col with
                | Some sep => Ok sep
                | None => Raise KeyError
                end in
    parse_number (Some v) sep
  else
    let* v := list_get row idx in
    Ok (PyStr v).

(** The loop over the header for one row. *)
Fixpoint parse_row (formats : dict (option string)) (idx : nat)
    (header : list HeaderColumn) (row : RawRow) (row_as_dict : TypedRow)
    : result TypedRow :=
  match header with
  | [] => Ok row_as_dict
  | col :: header' =>
      let* v := parse_cell formats col row idx in
      parse_row formats (S idx) header' row (dict_set row_as_dict (name col) v)
  end.

(** The loop over [chain(sample, iterator)]: a row is yielded when all its
    cells were parsed, and the first exception ends the generator. *)
Fixpoint emit_rows (formats : dict (option string)) (header : list HeaderColumn)
    (rows : list RawRow) : stream TypedRow :=
  match rows with
  | [] => ([], None)
  | row :: rows' =>
      match parse_row formats 0 header row [] with
      | Ok row_as_dict =>
          let '(out, e) := emit_rows formats header rows' in (row_as_dict :: out, e)
      | Raise e => ([], Some e)
      end
  end.

Definition parse_iterator (iterator : list RawRow) (header : list HeaderColumn)
    : stream TypedRow :=
  let '(sample, iterator) := get_sample_rows iterator in
  match infer_formats 0 header sample [] with
  | Raise e => ([], Some e)
  | Ok formats => emit_rows formats header (sample ++ iterator)
  end.


(** ** The extraction of one table

    The part of [reader.read] that runs for every table range: the row
    source of the file kind, followed by [parse_iterator]. *)

Record TableSpec : Type := mk_spec
  { data_start_row : Z; data_end_row : Z; start_col : Z; end_col : Z;
    skip_rows : list Z }.

Definition read_csv_table (spec : TableSpec) (file : list RawRow)
    (header : list HeaderColumn) : stream TypedRow :=
  parse_iterator
    (Csv.table_iterator (data_start_row spec) (data_end_row spec) (start_col spec)
       (end_col spec) (skip_rows spec) file)
    header.

Definition read_xls_table (spec : TableSpec) (ws : worksheet)
    (header : list HeaderColumn) : stream TypedRow :=
  parse_iterator
    (Xls.table_iterator (data_start_row spec) (data_end_row spec) (start_col spec)
       (end_col spec) (skip_rows spec) ws)
    header.

(** ** Definitions used by the statements *)

Fixpoint all_cont (s : string) : bool :=
  match s with
  | EmptyString => true
  | String c s' => Utf8.is_cont c && all_cont s'
  end.

(** The bytes of one character: a byte that is not a continuation byte,
    then continuation bytes. *)
Definition wf_char (ch : string) : bool :=
  match ch with
  | String c t => negb (Utf8.is_cont c) && all_cont t
  | EmptyString => false
  end.

(** The first character of a text may lack its first byte. *)
Definition wf_head (ch : string) : bool :=
  match ch with
  | String _ t => all_cont t
  | EmptyString => false
  end.

(** The lists of characters that [Utf8.chars] gives. *)
Definition canon (l : list string) : Prop :=
  match l with
  | [] => True
  | ch :: l' => wf_head ch = true /\ Forall (fun c => wf_char c = true) l'
  end.

(** A character that [str.lower] leaves as it is. *)
Definition stable (ch : string) : bool :=
  negb (String.eqb ch Str.capital_sigma)
  && match Str.to_lower_full ch with
     | [x] => String.eqb x ch
     | _ => false
     end.

(** What the characters that [str.lower] produces have in common. *)
Definition lowered (ch : string) : bool :=
  wf_char ch && negb (Str.is_whitespace ch) && stable ch.

(** A list of characters that does not start with whitespace. *)
Definition lstripped (l : list string) : bool :=
  match l with
  | [] => true
  | ch :: _ => negb (Str.is_whitespace ch)
  end.

Definition scenario_A_header : list HeaderColumn :=
  [ mk_column "Date" "date" None; mk_column "Product" "str" None;
    mk_column "Amount" "number" (Some ".") ].

Definition scenario_A_row : RawRow := [ "2023-12-10"; "iPhone 4"; "100.12" ].

Definition recognized (ty : string) : bool :=
  String.eqb ty "date" || String.eqb ty "datetime" || String.eqb ty "time"
  || String.eqb ty "number" || String.eqb ty "str".

(** The column with an unrecognized type replaced by [str]. *)
Definition as_str (col : HeaderColumn) : HeaderColumn :=
  if recognized (type col) then col
  else mk_column (name col) "str" (decimal_separator col).

Definition digit_char (d : nat) : ascii := ascii_of_nat (48 + d).

(** A file of [n] one-cell rows, row [i] holding the three decimal digits
    of [i]. *)
Definition numbered_row (i : nat) : RawRow :=
  [ String (digit_char (i / 100)) (String (digit_char (i / 10 mod 10))
      (String (digit_char (i mod 10)) "")) ].

Definition numbered_file (n : nat) : list RawRow := map numbered_row (seq 0 n).

(** [enumerate(l, k)] *)
Fixpoint enumerate_from {A : Type} (k : Z) (l : list A) : list (Z * A) :=
  match l with
  | [] => []
  | a :: l' => (k, a) :: enumerate_from (k + 1) l'
  end.

(** [format_fn(value, fmt)] returns without an exception. *)
Definition parses (format_fn : formatter) (fmt value : string) : bool :=
  match format_fn (Some value) (Some fmt) with
  | Ok _ => true
  | Raise _ => false
  end.

(** The parser and the candidate formats of a temporal type. *)
Definition temporal (ty : string) : option (formatter * list string) :=
  if String.eqb ty "date" then Some (parse_date, date_formats)
  else if String.eqb ty "datetime" then Some (parse_datetime, datetime_formats)
  else if String.eqb ty "time" then Some (parse_time, time_formats)
  else None.

(** The typed row that holds [None] under every name of the header. *)
Definition none_row (header : list HeaderColumn) : TypedRow :=
  fold_left (fun d col => dict_set d (name col) PyNone) header [].

(** ** reader.py: the names of the header columns

    The loop of [read] over [range_info["header_columns"]], which runs
    before the table is extracted. *)

(** [str(n)] for an integer. *)
Definition str_of_int (z : Z) : string := NilEmpty.string_of_int (Z.to_int z).

(** The name given to column [col_index]: trimmed, spaces replaced by
    underscores, and [column_<col_index + 1>] when nothing is left. *)
Definition normalize_name (col_index : Z) (name : string) : string :=
  let name := Str.replace " " "_" (Str.strip name) in
  if String.eqb name "" then "column_" ++ str_of_int (col_index + 1) else name.

Fixpoint normalize_columns (col_index : Z) (header_columns : list HeaderColumn)
    : list HeaderColumn :=
  match header_columns with
  | [] => []
  | col :: rest =>
      mk_column (normalize_name col_index (name col)) (type col) (decimal_separator col)
      :: normalize_columns (col_index + 1) rest
  end.

(** ** csv.py and xls.py: the extent and the preview of a source *)

(** The loop of [_get_max_row_with_data]: [has_data] is the test
    [any(... is not None for cell in row)] of the variant. *)
Fixpoint max_row_loop {A : Type} (has_data : A -> bool) (i max_row : Z) (rows : list A) : Z :=
  match rows with
  | [] => max_row
  | row :: rows' => max_row_loop has_data (i + 1) (if has_data row then i else max_row) rows'
  end.

Definition newline : string := String (ascii_of_nat 10) "".

(** The line that stands for the rows left out of a preview. *)
Definition elision : string := newline ++ "..." ++ newline.

Module CsvContent.

(** A cell of [csv.reader] is a text, never [None]: a row has data as soon
    as it has a cell. *)
Definition has_data (row : RawRow) : bool := existsb (fun _ => true) row.

Definition _get_max_row_with_data (reader : list RawRow) : Z :=
  max_row_loop has_data 0 0 reader.

Definition _get_row_str (idx : Z) (row : RawRow) : string :=
  "Row " ++ str_of_int idx ++ ": " ++ String.concat " | " row.

(** The loop over the rows when only a preview is returned. *)
Fixpoint preview_rows (idx row_count : Z) (reader : list RawRow) : list string :=
  match reader with
  | [] => []
  | row :: reader' =>
      let rest := preview_rows (idx + 1) row_count reader' in
      if idx <? 20 then _get_row_str idx row :: rest
      else if idx =? 20 then elision :: rest
      else if row_count - 20 <=? idx then _get_row_str idx row :: rest
      else rest
  end.

(** The loop over the rows when the full content is returned. *)
Fixpoint full_rows (idx : Z) (reader : list RawRow) : list string :=
  match reader with
  | [] => []
  | row :: reader' => _get_row_str idx row :: full_rows (idx + 1) reader'
  end.

(** The list [content] of [get_csv_content].  [sniffed] is the rows of the
    file under the dialect found by the sniffer, [default] its rows under
    the default dialect, with which the content is read. *)
Definition content (file_path : string) (sniffed default : list RawRow) : list string :=
  let row_count := _get_max_row_with_data sniffed + 1 in
  let content := [ "CSV file: " ++ file_path; "Total rows: " ++ str_of_int row_count ] in
  if 200 <? row_count then
    (content
     ++ [ "CSV file preview (only first and last 20 rows):";
          "--------------------------------" ]
     ++ preview_rows 0 row_count default)%list
  else
    (content
     ++ [ "CSV file full content:"; "--------------------------------" ]
     ++ full_rows 0 default)%list.

Definition get_csv_content (file_path : string) (sniffed default : list RawRow) : string :=
  String.concat newline (content file_path sniffed default).

End CsvContent.

Module XlsContent.

Definition has_data (row : list (option string)) : bool :=
  existsb (fun cell => match cell with Some _ => true | None => false end) row.

(** [ws.rows] pads the rows with empty cells, which have no value: the
    rows of the sheet give the same result. *)
Definition _get_max_row_with_data (ws : worksheet) : Z :=
  max_row_loop has_data 0 0 ws.

Definition _get_row_str (idx : Z) (row : list (option string)) : string :=
  "Row " ++ str_of_int idx ++ ": "
  ++ String.concat " | " (map (fun cell => match cell with Some text => text | None => "" end) row).

(** [for idx, row in enumerate(rows): content.append(_get_row_str(label(idx), row))],
    with [idx] counted from [k]. *)
Fixpoint row_lines (label : Z -> Z) (k : Z) (rows : list (list (option string)))
    : list string :=
  match rows with
  | [] => []
  | row :: rows' => _get_row_str (label k) row :: row_lines label (k + 1) rows'
  end.

(** The list [content] of [get_sheet_content].  [max_column] is the last
    column of the sheet.  The calls of [iter_rows] give no column bound and
    row bounds that are not 0: they are the calls of [cells_by_row] on
    these rows, from the first column to the last column of the sheet. *)
Definition content (file_path sheet_name : string) (ws : worksheet) (max_column : Z)
    : list string :=
  let row_count := _get_max_row_with_data ws + 1 in
  let content := [ "Excel file: " ++ file_path; "Sheet: " ++ sheet_name;
                   "Total rows: " ++ str_of_int row_count ] in
  if 200 <? row_count then
    (content
     ++ [ "Sheet preview (only first and last 20 rows):";
          "--------------------------------" ]
     ++ row_lines (fun idx => idx) 0 (cells_by_row ws 1 20 1 max_column)
     ++ [ elision ]
     ++ row_lines (fun idx => row_count - 20 + idx - 1) 0
          (cells_by_row ws (row_count - 20) row_count 1 max_column))%list
  else
    (content
     ++ [ "Sheet full content:"; "--------------------------------" ]
     ++ row_lines (fun i => i) 0 (cells_by_row ws 1 row_count 1 max_column))%list.

Definition get_sheet_content (file_path sheet_name : string) (ws : worksheet)
    (max_column : Z) : string :=
  String.concat newline (content file_path sheet_name ws max_column).

End XlsContent.

(** Every space of a text replaced by an underscore. *)
Fixpoint spaces_to_underscores (s : string) : string :=
  match s with
  | EmptyString => EmptyString
  | String c s' => String (if Ascii.eqb " " c then "_"%char else c) (spaces_to_underscores s')
  end.

(** * Properties *)

(** ** Checks of the model on concrete inputs *)

Example py_float_samples :
  py_float "1e3" = Ok 1000%float /\ py_float "0.1" = Ok 0.1%float
  /\ py_float " -1_0.5E-1 " = Ok (-1.05)%float /\ py_float "1e" = Raise ValueError
  /\ py_float "." = Raise ValueError /\ py_float "1e400" = Ok infinity
  /\ py_float "4.9e-324" = Ok 4.9e-324%float
  /\ py_float "2.2250738585072011e-308" = Ok 2.2250738585072011e-308%float
  /\ py_float "9007199254740993" = Ok 9007199254740992%float.
Proof. vm_compute. repeat split. Qed.

Example strptime_samples :
  Strptime.strptime "2023-12-10" (Some "%Y-%m-%d") = Ok (mk_datetime 2023 12 10 0 0 0)
  /\ Strptime.strptime "2023-12-10" (Some "%Y/%m/%d") = Raise ValueError
  /\ Strptime.strptime "1/2/2024" (Some "%m/%d/%Y") = Ok (mk_datetime 2024 1 2 0 0 0)
  /\ Strptime.strptime "1/2/2024" (Some "%m/%d/%y") = Raise ValueError
  /\ Strptime.strptime "31/12/99" (Some "%d/%m/%y") = Ok (mk_datetime 1999 12 31 0 0 0)
  /\ Strptime.strptime "31/12/99" (Some "%m/%d/%y") = Raise ValueError
  /\ Strptime.strptime "jan  5, 2024" (Some "%b %d, %Y") = Ok (mk_datetime 2024 1 5 0 0 0)
  /\ Strptime.strptime "september 30, 2024" (Some "%B %d, %Y") = Ok (mk_datetime 2024 9 30 0 0 0)
  /\ Strptime.strptime "30/02/2024" (Some "%d/%m/%Y") = Raise ValueError
  /\ Strptime.strptime "29/02/2024" (Some "%d/%m/%Y") = Ok (mk_datetime 2024 2 29 0 0 0)
  /\ Strptime.strptime "12:30 pm" (Some "%I:%M %p") = Ok (mk_datetime 1900 1 1 12 30 0)
  /\ Strptime.strptime "12:30 am" (Some "%I:%M %p") = Ok (mk_datetime 1900 1 1 0 30 0)
  /\ Strptime.strptime "2:30 pm" (Some "%I:%M %p") = Ok (mk_datetime 1900 1 1 14 30 0)
  /\ Strptime.strptime "14:30:00" (Some "%H:%M") = Raise ValueError
  /\ Strptime.strptime "14:30:60" (Some "%H:%M:%S") = Raise ValueError
  /\ Strptime.strptime "14:30" None = Raise TypeError.
Proof. vm_compute. repeat split. Qed.

(** Texts that are not ASCII: no-break and ideographic spaces are
    trimmed and removed, letters of any script are lower-cased, a capital
    sigma at the end of a word gives the final sigma, and the decimal
    digits of any script are read by [float]. *)
Example unicode_samples :
  Str.strip (Utf8.text [160; 78; 47; 65; 8195; 12288]%N) = "N/A"
  /\ Str.lower (Utf8.text [201; 67; 79; 76; 69]%N) = Utf8.text [233; 99; 111; 108; 101]%N
  /\ Str.lower (Utf8.text [927; 916; 927; 931; 32; 931; 927; 934; 927; 931]%N)
     = Utf8.text [959; 948; 959; 962; 32; 963; 959; 966; 959; 962]%N
  /\ Str.lower (Utf8.text [304]%N) = Utf8.text [105; 775]%N
  /\ clean_nulls (Some (Utf8.text [160; 78; 47; 65; 160]%N)) = None
  /\ clean_nulls (Some (Utf8.text [12288; 8212; 133]%N)) = None
  /\ py_float (Utf8.text [160; 49; 46; 53; 8195]%N) = Ok 1.5%float
  /\ py_float (Utf8.text [1633; 1634]%N) = Ok 12%float
  /\ py_float (Utf8.text [28; 49]%N) = Raise ValueError
  /\ parse_number (Some (Utf8.text [49; 160; 50; 51; 52; 44; 53; 54]%N)) ","
     = Ok (PyFloat 1234.56%float)
  /\ parse_number (Some (Utf8.text [49; 50; 160; 37]%N)) "." = Ok (PyFloat 0.12%float).
Proof. vm_compute. repeat split. Qed.

(** ** UTF-8: the characters of a text *)

Section Utf8Facts.

Import Utf8.

Lemma wf_char_head (ch : string) : wf_char ch = true -> wf_head ch = true.
Proof.
  destruct ch as [|c t]; [discriminate|]. cbn [wf_char wf_head].
  intros H. now apply andb_prop in H.
Qed.

Lemma canon_wf (l : list string) : Forall (fun c => wf_char c = true) l -> canon l.
Proof.
  destruct l as [|ch l]; [exact (fun _ => I)|].
  intros H. inversion H; subst. split; [now apply wf_char_head|assumption].
Qed.

Lemma canon_tail (ch : string) (l : list string) : canon (ch :: l) -> canon l.
Proof. intros [_ H]. now apply canon_wf. Qed.

Lemma join_chars (s : string) : join (chars s) = s.
Proof.
  induction s as [|c s IH]; [reflexivity|]. cbn [chars].
  destruct (chars s) as [|ch rest]; cbn [join] in IH.
  - now rewrite <- IH.
  - destruct (starts_with_cont ch); cbn [join append]; now rewrite IH.
Qed.

Lemma canon_chars (s : string) : canon (chars s).
Proof.
  induction s as [|c s IH]; [exact I|]. cbn [chars].
  destruct (chars s) as [|ch rest]; [split; [reflexivity|constructor]|].
  destruct IH as [Hh Hr]. destruct ch as [|d t]; [discriminate|].
  cbn [starts_with_cont]. cbn [wf_head] in Hh.
  destruct (is_cont d) eqn:Ed.
  - split; [|exact Hr]. cbn [wf_head all_cont]. now rewrite Ed.
  - split; [reflexivity|]. constructor; [|exact Hr]. cbn [wf_char]. now rewrite Ed.
Qed.

Lemma chars_first (s : string) :
  match chars s with
  | ch :: _ => starts_with_cont ch
  | [] => false
  end = starts_with_cont s.
Proof.
  destruct s as [|c s]; [reflexivity|]. cbn [chars].
  destruct (chars s) as [|ch rest]; [reflexivity|].
  now destruct (starts_with_cont ch).
Qed.

Lemma chars_cons_char (t : string) :
  forall (c : ascii) (s : string),
    all_cont t = true -> starts_with_cont s = false ->
    chars (String c t ++ s) = String c t :: chars s.
Proof.
  induction t as [|d t IH]; intros c s Ht Hs.
  - cbn [append chars]. pose proof (chars_first s) as H.
    destruct (chars s) as [|ch rest]; [reflexivity|]. now rewrite H, Hs.
  - cbn [all_cont] in Ht. apply andb_prop in Ht as [Hd Ht].
    change (String c (String d t) ++ s) with (String c (String d t ++ s)).
    cbn [chars]. rewrite (IH d s Ht Hs). cbn [starts_with_cont]. now rewrite Hd.
Qed.

Lemma chars_join (l : list string) : canon l -> chars (join l) = l.
Proof.
  induction l as [|ch l IH]; [reflexivity|]. intros [Hh Hr]. cbn [join].
  destruct ch as [|c t]; [discriminate|]. cbn [wf_head] in Hh.
  rewrite chars_cons_char; [f_equal; apply IH; now apply canon_wf|exact Hh|].
  destruct l as [|ch2 l]; [reflexivity|]. inversion Hr as [|? ? H2 _]; subst.
  destruct ch2 as [|c2 t2]; [discriminate|]. cbn [wf_char] in H2.
  apply andb_prop in H2 as [H2 _]. cbn [join append starts_with_cont].
  now destruct (is_cont c2).
Qed.

End Utf8Facts.

(** ** Strings: trimming and lower-casing *)

Section StringFacts.

Import Str.

Lemma assoc_In (n m : N) (table : list (N * N)) :
  assoc n table = Some m -> In (n, m) table.
Proof.
  induction table as [|[k v] table IH]; cbn [assoc]; [discriminate|].
  destruct (N.eqb_spec k n) as [->|_].
  - intros H. injection H as ->. now left.
  - intros H. right. now apply IH.
Qed.

Lemma lowercase_lowered :
  forallb (fun p => lowered (Utf8.encode (snd p))) Unicode.lowercase = true.
Proof. vm_compute. reflexivity. Qed.

Lemma to_lower_full_cases (ch : string) :
  to_lower_full ch = [ch]
  \/ (Forall (fun x => lowered x = true) (to_lower_full ch) /\ to_lower_full ch <> []).
Proof.
  unfold to_lower_full. destruct (Utf8.decode ch) as [n|]; [|now left].
  destruct (n =? 304)%N.
  - right. split; [|discriminate]. repeat constructor; vm_compute; reflexivity.
  - destruct (assoc n Unicode.lowercase) as [m|] eqn:E; [|now left].
    right. split; [|discriminate]. constructor; [|constructor].
    apply assoc_In in E.
    exact (proj1 (forallb_forall _ _) lowercase_lowered (n, m) E).
Qed.

Lemma lowered_stable (ch : string) : lowered ch = true -> stable ch = true.
Proof. unfold lowered. intros H. now apply andb_prop in H. Qed.

Lemma lowered_wf (ch : string) : lowered ch = true -> wf_char ch = true.
Proof.
  unfold lowered. intros H. apply andb_prop in H as [H _]. now apply andb_prop in H.
Qed.

Lemma lowered_not_whitespace (ch : string) : lowered ch = true -> is_whitespace ch = false.
Proof.
  unfold lowered. intros H. apply andb_prop in H as [H _]. apply andb_prop in H as [_ H].
  now destruct (is_whitespace ch).
Qed.

(** One turn of [lower_chars]: the character is kept, or is replaced by
    characters that are in lower case. *)
Lemma lower_chars_cons (b : bool) (ch : string) (l : list string) :
  exists outs,
    lower_chars b (ch :: l)
    = (outs ++ lower_chars (if is_case_ignorable ch then b else is_cased ch) l)%list
    /\ ((outs = [ch] /\ stable ch = true)
        \/ (Forall (fun x => lowered x = true) outs /\ outs <> [])).
Proof.
  cbn [lower_chars]. destruct (String.eqb ch capital_sigma) eqn:Es.
  - eexists. split; [reflexivity|]. right. split; [|discriminate].
    constructor; [|constructor].
    destruct (b && negb (followed_by_cased l)); vm_compute; reflexivity.
  - eexists. split; [reflexivity|].
    destruct (to_lower_full_cases ch) as [E|H]; [left|now right].
    split; [exact E|]. unfold stable. now rewrite Es, E, String.eqb_refl.
Qed.

Lemma lower_chars_nonempty (l : list string) (b : bool) :
  l <> [] -> lower_chars b l <> [].
Proof.
  destruct l as [|ch l]; [congruence|]. intros _.
  destruct (lower_chars_cons b ch l) as (outs & -> & [[-> _]|[_ Hne]]); [discriminate|].
  destruct outs; [congruence|discriminate].
Qed.

Lemma lower_chars_stable (l : list string) :
  forall b, Forall (fun x => stable x = true) (lower_chars b l).
Proof.
  induction l as [|ch l IH]; intros b; [constructor|].
  destruct (lower_chars_cons b ch l) as (outs & -> & [[-> H]|[H _]]).
  - constructor; [exact H|apply IH].
  - apply Forall_app. split; [|apply IH].
    eapply Forall_impl; [|exact H]. apply lowered_stable.
Qed.

Lemma lower_chars_fixed (l : list string) :
  Forall (fun x => stable x = true) l -> forall b, lower_chars b l = l.
Proof.
  induction 1 as [|ch l H _ IH]; intros b; [reflexivity|].
  cbn [lower_chars]. unfold stable in H. apply andb_prop in H as [Hs Hl].
  destruct (String.eqb ch capital_sigma); [discriminate|].
  destruct (to_lower_full ch) as [|x [|y r]]; try discriminate.
  apply String.eqb_eq in Hl. subst x. cbn [app]. now rewrite IH.
Qed.

Lemma lower_chars_wf (l : list string) :
  Forall (fun c => wf_char c = true) l ->
  forall b, Forall (fun c => wf_char c = true) (lower_chars b l).
Proof.
  induction 1 as [|ch l H _ IH]; intros b; [constructor|].
  destruct (lower_chars_cons b ch l) as (outs & -> & [[-> _]|[Ho _]]).
  - constructor; [exact H|apply IH].
  - apply Forall_app. split; [|apply IH].
    eapply Forall_impl; [|exact Ho]. apply lowered_wf.
Qed.

Lemma canon_lower (l : list string) (b : bool) : canon l -> canon (lower_chars b l).
Proof.
  destruct l as [|ch l]; [exact (fun _ => I)|]. intros [Hh Hr].
  destruct (lower_chars_cons b ch l) as (outs & -> & [[-> _]|[Ho _]]).
  - split; [exact Hh|now apply lower_chars_wf].
  - apply canon_wf, Forall_app. split; [|now apply lower_chars_wf].
    eapply Forall_impl; [|exact Ho]. apply lowered_wf.
Qed.

Lemma lstripped_lower (l : list string) (b : bool) :
  lstripped l = true -> lstripped (lower_chars b l) = true.
Proof.
  destruct l as [|ch l]; [reflexivity|]. cbn [lstripped]. intros H.
  destruct (lower_chars_cons b ch l) as (outs & -> & [[-> _]|[Ho Hne]]); [exact H|].
  destruct outs as [|x outs]; [congruence|]. inversion Ho; subst.
  cbn [app lstripped]. now rewrite lowered_not_whitespace.
Qed.

Lemma lstripped_lstrip (l : list string) : lstripped (lstrip_chars l) = true.
Proof.
  induction l as [|ch l IH]; [reflexivity|]. cbn [lstrip_chars].
  destruct (is_whitespace ch) eqn:E; [exact IH|]. cbn [lstripped]. now rewrite E.
Qed.

Lemma lstrip_lstripped (l : list string) : lstripped l = true -> lstrip_chars l = l.
Proof.
  destruct l as [|ch l]; [reflexivity|]. cbn [lstripped lstrip_chars].
  now destruct (is_whitespace ch).
Qed.

Lemma rstrip_cons (ch : string) (l : list string) :
  rstrip_chars (ch :: l) = [] \/ rstrip_chars (ch :: l) = ch :: rstrip_chars l.
Proof.
  cbn [rstrip_chars]. destruct (rstrip_chars l); [|now right].
  destruct (is_whitespace ch); [now left|now right].
Qed.

Lemma rstrip_cons_fixed (ch : string) (l : list string) :
  rstrip_chars (ch :: l) = ch :: l ->
  (l = [] /\ is_whitespace ch = false) \/ (l <> [] /\ rstrip_chars l = l).
Proof.
  cbn [rstrip_chars]. destruct (rstrip_chars l) as [|x r] eqn:E.
  - destruct (is_whitespace ch); [discriminate|].
    intros H. injection H as <-. now left.
  - intros H. injection H as <-. right. split; [discriminate|reflexivity].
Qed.

Lemma lstripped_rstrip (l : list string) :
  lstripped l = true -> lstripped (rstrip_chars l) = true.
Proof.
  destruct l as [|ch l]; [reflexivity|]. intros H.
  destruct (rstrip_cons ch l) as [->| ->]; [reflexivity|exact H].
Qed.

Lemma rstrip_idem (l : list string) : rstrip_chars (rstrip_chars l) = rstrip_chars l.
Proof.
  induction l as [|ch l IH]; [reflexivity|]. cbn [rstrip_chars].
  destruct (rstrip_chars l) as [|x r] eqn:E.
  - destruct (is_whitespace ch) eqn:Ec; [reflexivity|]. cbn [rstrip_chars]. now rewrite Ec.
  - change (rstrip_chars (ch :: x :: r)) with
      (match rstrip_chars (x :: r) with
       | [] => if is_whitespace ch then [] else [ch]
       | r' => ch :: r'
       end).
    now rewrite IH.
Qed.

Lemma Forall_lstrip (P : string -> Prop) (l : list string) :
  Forall P l -> Forall P (lstrip_chars l).
Proof.
  induction 1 as [|ch l H Hl IH]; [constructor|]. cbn [lstrip_chars].
  destruct (is_whitespace ch); [exact IH|now constructor].
Qed.

Lemma Forall_rstrip (P : string -> Prop) (l : list string) :
  Forall P l -> Forall P (rstrip_chars l).
Proof.
  induction 1 as [|ch l H Hl IH]; [constructor|].
  destruct (rstrip_cons ch l) as [->| ->]; [constructor|now constructor].
Qed.

Lemma canon_lstrip (l : list string) : canon l -> canon (lstrip_chars l).
Proof.
  induction l as [|ch l IH]; [exact (fun _ => I)|]. intros H. cbn [lstrip_chars].
  destruct (is_whitespace ch); [apply IH; now apply canon_tail in H|exact H].
Qed.

Lemma canon_rstrip (l : list string) : canon l -> canon (rstrip_chars l).
Proof.
  destruct l as [|ch l]; [exact (fun _ => I)|]. intros [Hh Hr].
  destruct (rstrip_cons ch l) as [->| ->]; [exact I|].
  split; [exact Hh|now apply Forall_rstrip].
Qed.

Lemma rstrip_not_whitespace (l : list string) :
  Forall (fun x => is_whitespace x = false) l -> rstrip_chars l = l.
Proof.
  induction 1 as [|ch l H _ IH]; [reflexivity|]. cbn [rstrip_chars]. rewrite IH.
  destruct l; [now rewrite H|reflexivity].
Qed.

Lemma rstrip_app (a l : list string) :
  rstrip_chars l <> [] -> rstrip_chars (a ++ l) = (a ++ rstrip_chars l)%list.
Proof.
  intros Hne. induction a as [|x a IH]; [reflexivity|].
  cbn [app rstrip_chars]. rewrite IH.
  destruct (a ++ rstrip_chars l)%list eqn:E; [|reflexivity].
  apply app_eq_nil in E as [_ E]. contradiction.
Qed.

Lemma rstrip_lower (l : list string) :
  forall b, rstrip_chars l = l -> rstrip_chars (lower_chars b l) = lower_chars b l.
Proof.
  induction l as [|ch l IH]; intros b H; [reflexivity|].
  apply rstrip_cons_fixed in H as [[-> Hw]|[Hne Hl]].
  - destruct (lower_chars_cons b ch []) as (outs & -> & [[-> _]|[Ho _]]);
      cbn [lower_chars]; rewrite app_nil_r; apply rstrip_not_whitespace.
    + now constructor.
    + eapply Forall_impl; [|exact Ho]. apply lowered_not_whitespace.
  - destruct (lower_chars_cons b ch l) as (outs & -> & _).
    pose proof (IH (if is_case_ignorable ch then b else is_cased ch) Hl) as E.
    rewrite rstrip_app; rewrite E; [reflexivity|now apply lower_chars_nonempty].
Qed.

(** *** The same on texts *)

Lemma chars_strip (s : string) :
  Utf8.chars (strip s) = rstrip_chars (lstrip_chars (Utf8.chars s)).
Proof. apply chars_join, canon_rstrip, canon_lstrip, canon_chars. Qed.

Lemma chars_lower (s : string) :
  Utf8.chars (lower s) = lower_chars false (Utf8.chars s).
Proof. apply chars_join, canon_lower, canon_chars. Qed.

Lemma strip_idem (s : string) : strip (strip s) = strip s.
Proof.
  unfold strip at 1. rewrite chars_strip. unfold strip. f_equal.
  rewrite lstrip_lstripped by apply lstripped_rstrip, lstripped_lstrip.
  apply rstrip_idem.
Qed.

Lemma lower_idem (s : string) : lower (lower s) = lower s.
Proof.
  unfold lower at 1. rewrite chars_lower. unfold lower. f_equal.
  apply lower_chars_fixed, lower_chars_stable.
Qed.

(** Lower-casing a trimmed text leaves it trimmed. *)
Lemma strip_lower_strip (s : string) : strip (lower (strip s)) = lower (strip s).
Proof.
  unfold strip at 1. rewrite chars_lower, chars_strip. unfold lower. f_equal.
  rewrite chars_strip.
  rewrite lstrip_lstripped
    by apply lstripped_lower, lstripped_rstrip, lstripped_lstrip.
  apply rstrip_lower, rstrip_idem.
Qed.

Lemma mem_In (x : string) (xs : list string) : mem x xs = true <-> In x xs.
Proof.
  unfold mem. rewrite existsb_exists. split.
  - intros (y & Hy & E). apply String.eqb_eq in E. now subst.
  - intros H. exists x. split; [exact H|apply String.eqb_refl].
Qed.

End StringFacts.

(** ** The null normalizer *)

Lemma clean_nulls_some (s t : string) :
  clean_nulls (Some s) = Some t ->
  t = Str.lower (Str.strip s) /\ Str.mem t NULL_VALUES = false.
Proof.
  unfold clean_nulls.
  destruct (Str.mem (Str.lower (Str.strip s)) NULL_VALUES) eqn:E; [discriminate|].
  intros H. injection H as <-. now split.
Qed.

Lemma clean_nulls_fixed (s t : string) :
  clean_nulls (Some s) = Some t -> clean_nulls (Some t) = Some t.
Proof.
  intros H. apply clean_nulls_some in H as [-> Hm].
  unfold clean_nulls.
  rewrite strip_lower_strip, lower_idem, Hm. reflexivity.
Qed.

(** C10.  Null classification is exact on the fixed vocabulary and
    idempotent: the vocabulary of the code is the sixteen tokens of the
    specification; a text whose trimmed, lower-cased form is in the
    vocabulary gives the null signal; any other text gives its trimmed,
    lower-cased form; and a second application leaves a result unchanged. *)
Theorem clean_nulls_vocabulary_idempotent :
  (forall t : string,
      In t NULL_VALUES <->
      In t [ ""; "null"; "none"; "n/a"; "na"; "#na"; "nan"; "-"; "--";
             em_dash; en_dash; "?"; "???"; "."; ".."; "..." ])
  /\ (forall s : string,
         In (Str.lower (Str.strip s)) NULL_VALUES -> clean_nulls (Some s) = None)
  /\ (forall s : string,
         ~ In (Str.lower (Str.strip s)) NULL_VALUES ->
         clean_nulls (Some s) = Some (Str.lower (Str.strip s)))
  /\ (forall s t : string,
         clean_nulls (Some s) = Some t -> clean_nulls (Some t) = Some t)
  /\ (forall v : option string, clean_nulls (clean_nulls v) = clean_nulls v).
Proof.
  split; [|split; [|split; [|split]]].
  - intros t. unfold NULL_VALUES. simpl. tauto.
  - intros s H. apply mem_In in H. unfold clean_nulls. now rewrite H.
  - intros s H. unfold clean_nulls.
    destruct (Str.mem (Str.lower (Str.strip s)) NULL_VALUES) eqn:E; [|reflexivity].
    apply mem_In in E. contradiction.
  - exact clean_nulls_fixed.
  - intros [s|]; [|reflexivity].
    destruct (clean_nulls (Some s)) as [t|] eqn:E; [|reflexivity].
    now apply clean_nulls_fixed in E.
Qed.

Lemma clean_nulls_vocabulary_idempotent_witness :
  clean_nulls (Some "  N/A ") = None
  /\ clean_nulls (Some " Widget ") = Some "widget"
  /\ clean_nulls (Some "widget") = Some "widget".
Proof.
  destruct clean_nulls_vocabulary_idempotent as (_ & Hnull & Hother & Hfix & _).
  split; [|split].
  - apply Hnull. vm_compute. tauto.
  - apply (Hother " Widget "). vm_compute. intuition discriminate.
  - apply (Hfix " Widget " "widget"). reflexivity.
Defined.

(** ** Dictionaries *)

Lemma dict_get_set_same {V : Type} (d : dict V) (k : string) (v : V) :
  dict_get (dict_set d k v) k = Ok v.
Proof.
  induction d as [|[k' v'] d IH]; simpl.
  - now rewrite String.eqb_refl.
  - destruct (String.eqb k' k) eqn:E; simpl.
    + now rewrite String.eqb_refl.
    + now rewrite E.
Qed.

Lemma dict_get_set_other {V : Type} (d : dict V) (k k' : string) (v : V) :
  k <> k' -> dict_get (dict_set d k v) k' = dict_get d k'.
Proof.
  intros Hne. induction d as [|[k0 v0] d IH]; simpl.
  - destruct (String.eqb k k') eqn:E; [|reflexivity].
    apply String.eqb_eq in E. contradiction.
  - destruct (String.eqb k0 k) eqn:E; simpl.
    + apply String.eqb_eq in E. subst k0.
      destruct (String.eqb k k') eqn:E'; [|reflexivity].
      apply String.eqb_eq in E'. contradiction.
    + now rewrite IH.
Qed.

(** ** The sample *)

Lemma get_sample_loop_spec (iterator : list RawRow) :
  forall (idx : nat) (sample_rows : list RawRow),
    (idx <= 100)%nat ->
    get_sample_loop idx sample_rows iterator
    = ((sample_rows ++ firstn (100 - idx) iterator)%list, skipn (S (100 - idx)) iterator).
Proof.
  induction iterator as [|row it IH]; intros idx acc Hle.
  - cbn [get_sample_loop skipn]. now rewrite firstn_nil, app_nil_r.
  - cbn [get_sample_loop]. destruct (100 <=? idx)%nat eqn:E.
    + apply Nat.leb_le in E. replace (100 - idx)%nat with 0%nat by lia.
      cbn [firstn skipn]. now rewrite app_nil_r.
    + apply Nat.leb_gt in E. rewrite IH by lia.
      replace (100 - idx)%nat with (S (100 - S idx)) by lia.
      cbn [firstn skipn]. now rewrite <- app_assoc.
Qed.

(** The sample is the first hundred rows; the iterator is left after the
    row that follows them. *)
Lemma get_sample_rows_spec (iterator : list RawRow) :
  get_sample_rows iterator = (firstn 100 iterator, skipn 101 iterator).
Proof. unfold get_sample_rows. now rewrite get_sample_loop_spec by lia. Qed.

(** The assembler, with the sample written out. *)
Lemma parse_iterator_unfold (iterator : list RawRow) (header : list HeaderColumn) :
  parse_iterator iterator header
  = match infer_formats 0 header (firstn 100 iterator) [] with
    | Raise e => ([], Some e)
    | Ok formats =>
        emit_rows formats header (firstn 100 iterator ++ skipn 101 iterator)%list
    end.
Proof. unfold parse_iterator. now rewrite get_sample_rows_spec. Qed.

(** ** One row *)

Lemma parse_row_other_key (formats : dict (option string)) (header : list HeaderColumn) :
  forall (idx : nat) (row : RawRow) (acc d : TypedRow) (k : string),
    parse_row formats idx header row acc = Ok d ->
    (forall col, In col header -> name col <> k) ->
    dict_get d k = dict_get acc k.
Proof.
  induction header as [|col header IH]; intros idx row acc d k H Hk; simpl in H.
  - now injection H as <-.
  - destruct (parse_cell formats col row idx) as [v|e]; simpl in H; [|discriminate].
    rewrite (IH _ _ _ _ _ H) by (intros c Hc; apply Hk; now right).
    apply dict_get_set_other, Hk. now left.
Qed.

(** The value a row holds under the name of column [i], when no later
    column has the same name, is the value of cell [i]. *)
Lemma parse_row_cell (formats : dict (option string)) (header : list HeaderColumn) :
  forall (idx : nat) (row : RawRow) (acc d : TypedRow) (i : nat) (col : HeaderColumn),
    parse_row formats idx header row acc = Ok d ->
    nth_error header i = Some col ->
    (forall j col', (i < j)%nat -> nth_error header j = Some col' -> name col' <> name col) ->
    exists v, parse_cell formats col row (idx + i) = Ok v /\ dict_get d (name col) = Ok v.
Proof.
  induction header as [|c header IH]; intros idx row acc d i col H Hi Hlater.
  - destruct i; discriminate.
  - simpl in H.
    destruct (parse_cell formats c row idx) as [v|e] eqn:Ec; simpl in H; [|discriminate].
    destruct i as [|i]; simpl in Hi.
    + injection Hi as ->. exists v. rewrite Nat.add_0_r. split; [exact Ec|].
      rewrite (parse_row_other_key _ _ _ _ _ _ _ H).
      * apply dict_get_set_same.
      * intros c' Hc'. apply In_nth_error in Hc' as [j Hj].
        apply (Hlater (S j)); [lia|exact Hj].
    + replace (idx + S i)%nat with (S idx + i)%nat by lia.
      apply (IH _ _ _ _ _ _ H Hi).
      intros j col' Hlt Hj. apply (Hlater (S j)); [lia|exact Hj].
Qed.

(** The rows emitted are rows that were parsed without an exception. *)
Lemma emit_rows_parsed (formats : dict (option string)) (header : list HeaderColumn)
    (rows : list RawRow) :
  forall d, In d (fst (emit_rows formats header rows)) ->
            exists row, In row rows /\ parse_row formats 0 header row [] = Ok d.
Proof.
  induction rows as [|row rows IH]; simpl; intros d Hd; [contradiction|].
  destruct (parse_row formats 0 header row []) as [r|e] eqn:E; simpl in Hd; [|contradiction].
  destruct (emit_rows formats header rows) as [out e]. simpl in *.
  destruct Hd as [<-|Hd].
  - exists row. auto.
  - destruct (IH d Hd) as (row' & Hin & Hp). exists row'. auto.
Qed.

(** A row that cannot be parsed ends the generator with an exception. *)
Lemma emit_rows_raises (formats : dict (option string)) (header : list HeaderColumn)
    (rows : list RawRow) (row : RawRow) (e : exn) :
  In row rows -> parse_row formats 0 header row [] = Raise e ->
  exists e', snd (emit_rows formats header rows) = Some e'.
Proof.
  induction rows as [|r rows IH]; simpl; intros Hin Hr; [contradiction|].
  destruct (parse_row formats 0 header r []) as [d|e0] eqn:E.
  - destruct Hin as [->|Hin]; [congruence|].
    destruct (emit_rows formats header rows) as [out e1]. simpl in *. now apply IH.
  - now exists e0.
Qed.

(** The rows emitted are the rows before the first that raises. *)
Lemma emit_rows_prefix (formats : dict (option string)) (header : list HeaderColumn)
    (rows : list RawRow) :
  forall (out : list TypedRow) (e : option exn),
    emit_rows formats header rows = (out, e) ->
    map Ok out
    = map (fun row => parse_row formats 0 header row []) (firstn (List.length out) rows)
    /\ match e with
       | None => List.length out = List.length rows
       | Some x => exists row, nth_error rows (List.length out) = Some row
                               /\ parse_row formats 0 header row [] = Raise x
       end.
Proof.
  induction rows as [|row rows IH]; intros out e; cbn [emit_rows].
  - intros H. injection H as <- <-. now split.
  - destruct (parse_row formats 0 header row []) as [d|x] eqn:Er.
    + destruct (emit_rows formats header rows) as [out' e'].
      intros H. injection H as <- <-.
      destruct (IH out' e' eq_refl) as [Hmap He]. cbn [List.length firstn map]. split.
      * now rewrite Er, Hmap.
      * destruct e' as [x|]; [exact He|now rewrite He].
    + intros H. injection H as <- <-. split; [reflexivity|]. exists row. now split.
Qed.

(** ** Numbers *)

(** C5.  The locale round-trips of the number parser: a currency glyph and
    a thousands comma with the decimal point; thousands points with the
    decimal comma; a trailing percent sign, which divides by one hundred. *)
Theorem parse_number_locale_round_trips :
  parse_number (Some "$1,234.56") "." = Ok (PyFloat 1234.56%float)
  /\ parse_number (Some "1.234,56") "," = Ok (PyFloat 1234.56%float)
  /\ parse_number (Some "25.5%") "." = Ok (PyFloat 0.255%float).
Proof. vm_compute. repeat split. Qed.

(** ** Scenario A *)

(** C6, as the code has it.  For the header and the raw row of scenario A
    the row emitted maps Date to the datetime 2023-12-10 00:00:00 (what
    [strptime] returns for a date column too), Product to the text
    "iPhone 4" and Amount to 100.12. *)
Theorem scenario_A_typed_row :
  parse_iterator [scenario_A_row] scenario_A_header
  = ([ [ ("Date", PyDatetime (mk_datetime 2023 12 10 0 0 0));
         ("Product", PyStr "iPhone 4");
         ("Amount", PyFloat 100.12%float) ] ],
     None).
Proof. vm_compute. reflexivity. Qed.

(** C6 as stated fails: the value under Date is not a calendar date. *)
Lemma scenario_A_date_is_not_a_date :
  ~ (exists d : TypedRow,
        parse_iterator [scenario_A_row] scenario_A_header = ([d], None)
        /\ dict_get d "Date" = Ok (PyDate 2023 12 10)).
Proof.
  intros (d & Hrun & Hget).
  assert (E : parse_iterator [scenario_A_row] scenario_A_header
              = ([ [ ("Date", PyDatetime (mk_datetime 2023 12 10 0 0 0));
                     ("Product", PyStr "iPhone 4");
                     ("Amount", PyFloat 100.12%float) ] ], None))
    by (vm_compute; reflexivity).
  rewrite E in Hrun. injection Hrun as <-.
  vm_compute in Hget. discriminate Hget.
Qed.

(** ** Text columns *)

(** C7, as the code has it.  The value a row holds for a str column is the
    raw cell itself: no null detection, no trimming and no change of
    casing. *)
Theorem str_cell_is_emitted_unchanged
    (formats : dict (option string)) (header : list HeaderColumn) (row : RawRow)
    (d : TypedRow) (i : nat) (col : HeaderColumn) (v : string) :
  parse_row formats 0 header row [] = Ok d ->
  nth_error header i = Some col ->
  type col = "str" ->
  (forall j col', (i < j)%nat -> nth_error header j = Some col' -> name col' <> name col) ->
  nth_error row i = Some v ->
  dict_get d (name col) = Ok (PyStr v).
Proof.
  intros Hrow Hi Hty Hlater Hv.
  destruct (parse_row_cell _ _ _ _ _ _ _ _ Hrow Hi Hlater) as (x & Hcell & Hget).
  rewrite Hget. f_equal.
  unfold parse_cell in Hcell. rewrite Hty in Hcell. simpl in Hcell.
  unfold list_get in Hcell. rewrite Hv in Hcell. simpl in Hcell.
  now injection Hcell as <-.
Qed.

Lemma str_cell_is_emitted_unchanged_witness :
  dict_get [ ("Name", PyStr " N/A "); ("Qty", PyFloat 2%float) ] "Name"
  = Ok (PyStr " N/A ").
Proof.
  apply (str_cell_is_emitted_unchanged []
           [ mk_column "Name" "str" None; mk_column "Qty" "number" (Some ".") ]
           [ " N/A "; "2" ] _ 0%nat (mk_column "Name" "str" None) " N/A ").
  - vm_compute. reflexivity.
  - reflexivity.
  - reflexivity.
  - intros [|[|[|j]]] col' Hlt Hj; simpl in Hj; try lia; try discriminate.
    injection Hj as <-. simpl. discriminate.
  - reflexivity.
Defined.

(** C7 as stated fails: a str cell of the null vocabulary stays a string. *)
Lemma str_cell_is_not_null_normalized :
  clean_nulls (Some "N/A") = None
  /\ ~ (exists d : TypedRow,
           parse_iterator [ ["N/A"] ] [ mk_column "Name" "str" None ] = ([d], None)
           /\ dict_get d "Name" = Ok PyNone).
Proof.
  split; [reflexivity|].
  intros (d & Hrun & Hget).
  vm_compute in Hrun. injection Hrun as <-.
  vm_compute in Hget. discriminate Hget.
Qed.

(** ** What the assembler checks of the schema *)

Lemma name_as_str (col : HeaderColumn) : name (as_str col) = name col.
Proof. unfold as_str. now destruct (recognized (type col)). Qed.

Lemma type_as_str (col : HeaderColumn) (ty : string) :
  ty = "date" \/ ty = "datetime" \/ ty = "time" \/ ty = "number" ->
  String.eqb (type (as_str col)) ty = String.eqb (type col) ty.
Proof.
  intros Hty. unfold as_str, recognized.
  destruct (String.eqb (type col) "date") eqn:E1; [reflexivity|].
  destruct (String.eqb (type col) "datetime") eqn:E2; [reflexivity|].
  destruct (String.eqb (type col) "time") eqn:E3; [reflexivity|].
  destruct (String.eqb (type col) "number") eqn:E4; [reflexivity|].
  destruct (String.eqb (type col) "str") eqn:E5; [reflexivity|].
  simpl. destruct Hty as [-> | [-> | [-> | ->]]]; now rewrite ?E1, ?E2, ?E3, ?E4.
Qed.

Lemma list_get_firstn {A : Type} (n : nat) (l : list A) :
  forall idx, (idx < n)%nat -> list_get (firstn n l) idx = list_get l idx.
Proof.
  unfold list_get. revert l.
  induction n as [|n IH]; intros l idx Hlt; [lia|].
  destruct l as [|a l]; [reflexivity|].
  destruct idx as [|idx]; [reflexivity|].
  simpl. apply IH. lia.
Qed.

Lemma col_sample_firstn (n idx : nat) (sample : list RawRow) :
  (idx < n)%nat -> col_sample idx (map (firstn n) sample) = col_sample idx sample.
Proof.
  intros Hlt. induction sample as [|row sample IH]; simpl; [reflexivity|].
  now rewrite list_get_firstn, IH.
Qed.

Lemma parse_cell_as_str (formats : dict (option string)) (col : HeaderColumn)
    (row : RawRow) (n idx : nat) :
  (idx < n)%nat ->
  parse_cell formats (as_str col) (firstn n row) idx = parse_cell formats col row idx.
Proof.
  intros Hlt. unfold parse_cell.
  rewrite !type_as_str, name_as_str, list_get_firstn by (auto; tauto).
  replace (decimal_separator (as_str col)) with (decimal_separator col)
    by (unfold as_str; now destruct (recognized (type col))).
  reflexivity.
Qed.

Lemma infer_formats_as_str (n : nat) (sample : list RawRow) (header : list HeaderColumn) :
  forall (idx : nat) (formats : dict (option string)),
    (idx + List.length header <= n)%nat ->
    infer_formats idx (map as_str header) (map (firstn n) sample) formats
    = infer_formats idx header sample formats.
Proof.
  induction header as [|col header IH]; intros idx formats Hle; simpl in *; [reflexivity|].
  rewrite col_sample_firstn by lia.
  destruct (col_sample idx sample) as [cs|e]; simpl; [|reflexivity].
  rewrite !type_as_str, name_as_str by tauto.
  apply IH. lia.
Qed.

Lemma parse_row_as_str (formats : dict (option string)) (n : nat) (row : RawRow)
    (header : list HeaderColumn) :
  forall (idx : nat) (acc : TypedRow),
    (idx + List.length header <= n)%nat ->
    parse_row formats idx (map as_str header) (firstn n row) acc
    = parse_row formats idx header row acc.
Proof.
  induction header as [|col header IH]; intros idx acc Hle; simpl in *; [reflexivity|].
  rewrite parse_cell_as_str by lia.
  destruct (parse_cell formats col row idx) as [v|e]; simpl; [|reflexivity].
  rewrite name_as_str. apply IH. lia.
Qed.

Lemma emit_rows_as_str (formats : dict (option string)) (header : list HeaderColumn)
    (rows : list RawRow) :
  emit_rows formats (map as_str header) (map (firstn (List.length header)) rows)
  = emit_rows formats header rows.
Proof.
  induction rows as [|row rows IH]; simpl; [reflexivity|].
  rewrite parse_row_as_str by lia. now rewrite IH.
Qed.

(** C9, as the code has it.  The assembler makes no check of the schema: a
    column whose declared type is none of number, date, datetime, time and
    str is handled as a str column, and the cells of a row beyond the
    length of the header are ignored; the rows emitted and the exception,
    if any, are those of the table so adjusted. *)
Theorem parse_iterator_makes_no_schema_check
    (rows : list RawRow) (header : list HeaderColumn) :
  parse_iterator rows header
  = parse_iterator (map (firstn (List.length header)) rows) (map as_str header).
Proof.
  rewrite !parse_iterator_unfold.
  rewrite firstn_map, skipn_map, <- map_app.
  rewrite (infer_formats_as_str (List.length header)) by (simpl; lia).
  destruct (infer_formats 0 header (firstn 100 rows) []) as [formats|e]; [|reflexivity].
  now rewrite emit_rows_as_str.
Qed.

(** C9 as stated fails: a header shorter than the rectangle, with a type
    that is not recognized, gives a typed row and no exception. *)
Lemma schema_mismatch_is_not_raised :
  let spec := mk_spec 1 1 0 1 [] in
  let file := [ ["Product"; "Amount"]; ["Widget"; "100"] ] in
  let header := [ mk_column "Product" "text" None ] in
  Z.of_nat (List.length header) <> end_col spec - start_col spec + 1
  /\ recognized "text" = false
  /\ read_csv_table spec file header = ([ [ ("Product", PyStr "Widget") ] ], None)
  /\ ~ (exists e, read_csv_table spec file header = ([], Some e)).
Proof.
  cbv zeta. split; [discriminate|]. split; [reflexivity|].
  split; [vm_compute; reflexivity|].
  intros (e & H). vm_compute in H. discriminate H.
Qed.

(** ** Rows shorter than the header *)

Lemma col_sample_exn (idx : nat) (sample : list RawRow) (e : exn) :
  col_sample idx sample = Raise e -> e = IndexError.
Proof.
  induction sample as [|row sample IH]; simpl; [discriminate|].
  unfold list_get. destruct (nth_error row idx); simpl.
  - destruct (col_sample idx sample); simpl; [discriminate|].
    intros H. injection H as <-. now apply IH.
  - intros H. now injection H as <-.
Qed.

Lemma col_sample_width (idx : nat) (sample : list RawRow) (cs : list string) :
  col_sample idx sample = Ok cs ->
  forall row, In row sample -> (idx < List.length row)%nat.
Proof.
  revert cs. induction sample as [|r sample IH]; simpl; intros cs H row Hin; [contradiction|].
  unfold list_get in H. destruct (nth_error r idx) eqn:E; simpl in H; [|discriminate].
  destruct (col_sample idx sample) as [vs|]; simpl in H; [|discriminate].
  destruct Hin as [<-|Hin].
  - apply nth_error_Some. congruence.
  - now apply (IH vs).
Qed.

Lemma infer_formats_short_row (sample : list RawRow) (row : RawRow)
    (header : list HeaderColumn) :
  In row sample ->
  forall (idx : nat) (formats : dict (option string)),
    (idx <= List.length row < idx + List.length header)%nat ->
    infer_formats idx header sample formats = Raise IndexError.
Proof.
  intros Hin. induction header as [|col header IH]; intros idx formats Hlen; simpl in *.
  - lia.
  - destruct (col_sample idx sample) as [cs|e] eqn:E; simpl.
    + pose proof (col_sample_width _ _ _ E row Hin). apply IH. lia.
    + now rewrite (col_sample_exn _ _ _ E).
Qed.

(** C8.  What the code does with a row of the sample that is shorter than
    the header: the generator ends with [IndexError] before any typed row,
    where the specification asks for a typed row with empty strings for the cells
    that are missing. *)
Theorem short_row_raises_IndexError
    (rows : list RawRow) (header : list HeaderColumn) (row : RawRow) :
  In row (firstn 100 rows) ->
  (List.length row < List.length header)%nat ->
  parse_iterator rows header = ([], Some IndexError).
Proof.
  intros Hin Hlen. rewrite parse_iterator_unfold.
  now rewrite (infer_formats_short_row _ row) by (auto; lia).
Qed.

(** The short row of a delimited-text file, as [table_iterator] gives it. *)
Lemma short_row_raises_IndexError_witness :
  Csv.table_iterator 0 0 0 1 [] [ ["Widget"] ] = [ ["Widget"] ]
  /\ read_csv_table (mk_spec 0 0 0 1 []) [ ["Widget"] ]
       [ mk_column "Product" "str" None; mk_column "Note" "str" None ]
     = ([], Some IndexError).
Proof.
  split; [reflexivity|].
  apply (short_row_raises_IndexError _ _ ["Widget"]).
  - simpl. auto.
  - simpl. lia.
Defined.

(** The workbook variant pads the same row, and the row is emitted. *)
Example short_row_of_a_workbook_is_padded :
  read_xls_table (mk_spec 0 0 0 1 []) [ [Some "Widget"] ]
    [ mk_column "Product" "str" None; mk_column "Note" "str" None ]
  = ([ [ ("Product", PyStr "Widget"); ("Note", PyStr "") ] ], None).
Proof. reflexivity. Qed.

(** ** The number of rows emitted *)

Lemma emit_rows_length (formats : dict (option string)) (header : list HeaderColumn)
    (rows : list RawRow) :
  (List.length (fst (emit_rows formats header rows)) <= List.length rows)%nat.
Proof.
  induction rows as [|row rows IH]; simpl; [lia|].
  destruct (parse_row formats 0 header row []); simpl; [|lia].
  destruct (emit_rows formats header rows). simpl in *. lia.
Qed.

(** C1.  What the code does with more than a hundred rows: the row that
    follows the sample is taken from the iterator and never emitted, so
    fewer typed rows are emitted than rows were extracted, where the specification
    asks for one typed row per extracted row. *)
Theorem more_than_100_rows_lose_one
    (rows : list RawRow) (header : list HeaderColumn) :
  (100 < List.length rows)%nat ->
  (List.length (fst (parse_iterator rows header)) <= List.length rows - 1)%nat.
Proof.
  intros Hlen. rewrite parse_iterator_unfold.
  destruct (infer_formats 0 header (firstn 100 rows) []) as [formats|e];
    [|cbn [fst List.length]; lia].
  etransitivity; [apply emit_rows_length|].
  rewrite length_app, length_firstn, length_skipn. lia.
Qed.

Lemma more_than_100_rows_lose_one_witness :
  (100 < List.length (Csv.table_iterator 0 101 0 0 [] (numbered_file 102)))%nat
  /\ (List.length
        (fst (read_csv_table (mk_spec 0 101 0 0 []) (numbered_file 102)
                [ mk_column "id" "str" None ]))
      <= 101)%nat.
Proof.
  split; [vm_compute; lia|].
  apply (more_than_100_rows_lose_one
           (Csv.table_iterator 0 101 0 0 [] (numbered_file 102))
           [ mk_column "id" "str" None ]).
  vm_compute. lia.
Defined.

(** Rows 0 to 101 of a file and of a sheet: both variants emit 101 typed
    rows, rows 0 to 99 and row 101; row 100 is lost. *)
Example row_100_is_lost :
  let spec := mk_spec 0 101 0 0 [] in
  let header := [ mk_column "id" "str" None ] in
  let typed := fun i => [ ("id", PyStr (hd "" (numbered_row i))) ] in
  Z.of_nat 102 = data_end_row spec - data_start_row spec + 1
  /\ read_csv_table spec (numbered_file 102) header
     = ((map typed (seq 0 100) ++ [ typed 101%nat ])%list, None)
  /\ read_xls_table spec (map (map Some) (numbered_file 102)) header
     = ((map typed (seq 0 100) ++ [ typed 101%nat ])%list, None).
Proof. cbv zeta. split; [reflexivity|]. split; vm_compute; reflexivity. Qed.

(** ** The rows the two row sources select *)

Lemma csv_rows_selected (reader : list RawRow)
    (data_start_row data_end_row start_col end_col : Z) (skip_rows : list Z) :
  forall k : Z,
    csv_rows k reader data_start_row data_end_row start_col end_col skip_rows
    = map (fun p => py_slice (snd p) start_col (end_col + 1))
        (filter (fun p => (data_start_row <=? fst p) && (fst p <=? data_end_row)
                          && negb (in_set (fst p) skip_rows))
           (enumerate_from k reader)).
Proof.
  induction reader as [|row reader IH]; intros k; simpl; [reflexivity|].
  rewrite IH.
  destruct (k <? data_start_row) eqn:E1; simpl.
  - replace (data_start_row <=? k) with false by lia. reflexivity.
  - replace (data_start_row <=? k) with true by lia.
    destruct (data_end_row <? k) eqn:E2; simpl.
    + replace (k <=? data_end_row) with false by lia. reflexivity.
    + replace (k <=? data_end_row) with true by lia.
      now destruct (in_set k skip_rows).
Qed.

Lemma xls_rows_selected (rows : list (list (option string))) (skip_rows : list Z) :
  forall k : Z,
    xls_rows k rows skip_rows
    = map (fun p => map normalize_cell (snd p))
        (filter (fun p => negb (in_set (fst p) skip_rows)) (enumerate_from k rows)).
Proof.
  induction rows as [|row rows IH]; intros k; simpl; [reflexivity|].
  rewrite IH. now destruct (in_set k skip_rows).
Qed.

(** C2.  What the two variants do with [skip_rows].  The delimited-text
    variant tests the index of the row in the file; the workbook variant
    tests the position of the row within the range, counted from zero at
    [data_start_row].  For rows 1 to 3 with row 2 to skip, the first emits
    rows 1 and 3 and the second rows 1 and 2, where the specification asks both to
    emit rows 1 and 3. *)
Theorem skip_rows_differ_between_sources :
  (forall (s e c1 c2 : Z) (skip : list Z) (file : list RawRow),
      Csv.table_iterator s e c1 c2 skip file
      = map (fun p => py_slice (snd p) c1 (c2 + 1))
          (filter (fun p => (s <=? fst p) && (fst p <=? e) && negb (in_set (fst p) skip))
             (enumerate_from 0 file)))
  /\ (forall (s e c1 c2 : Z) (skip : list Z) (ws : worksheet),
         Xls.table_iterator s e c1 c2 skip ws
         = map (fun p => map normalize_cell (snd p))
             (filter (fun p => negb (in_set (fst p) skip))
                (enumerate_from 0 (iter_rows ws (s + 1) (e + 1) (c1 + 1) (c2 + 1)))))
  /\ Csv.table_iterator 1 3 0 0 [2]
       [ ["Product"]; ["Widget"]; ["Subtotal"]; ["Gadget"] ]
     = [ ["Widget"]; ["Gadget"] ]
  /\ Xls.table_iterator 1 3 0 0 [2]
       [ [Some "Product"]; [Some "Widget"]; [Some "Subtotal"]; [Some "Gadget"] ]
     = [ ["Widget"]; ["Subtotal"] ].
Proof.
  split; [|split; [|split]].
  - intros. apply csv_rows_selected.
  - intros. apply xls_rows_selected.
  - reflexivity.
  - reflexivity.
Qed.

(** ** Format inference *)

Lemma all_parse_forallb (format_fn : formatter) (fmt : string) (sample : list string) :
  all_parse format_fn fmt sample = forallb (parses format_fn fmt) sample.
Proof.
  induction sample as [|v sample IH]; simpl; [reflexivity|].
  unfold parses at 1. now destruct (format_fn (Some v) (Some fmt)).
Qed.

Lemma forallb_false_exists {A : Type} (p : A -> bool) (l : list A) :
  forallb p l = false <-> exists a, In a l /\ p a = false.
Proof.
  induction l as [|a l IH]; simpl.
  - split; [discriminate|]. now intros (a & [] & _).
  - rewrite andb_false_iff, IH. split.
    + intros [H|(b & Hb & Hp)]; [exists a|exists b]; auto.
    + intros (b & [<-|Hb] & Hp); [now left|right; now exists b].
Qed.

Lemma find_dt_format_some (sample : list string) (format_fn : formatter)
    (formats : list string) (fmt : string) :
  find_dt_format sample format_fn formats = Some fmt ->
  exists pre post,
    formats = (pre ++ fmt :: post)%list
    /\ forallb (parses format_fn fmt) sample = true
    /\ Forall (fun f => forallb (parses format_fn f) sample = false) pre.
Proof.
  induction formats as [|f formats IH]; simpl; [discriminate|].
  rewrite all_parse_forallb.
  destruct (forallb (parses format_fn f) sample) eqn:E.
  - intros H. injection H as <-. exists [], formats. auto.
  - intros H. destruct (IH H) as (pre & post & -> & Hall & Hpre).
    exists (f :: pre), post. auto.
Qed.

Lemma find_dt_format_none (sample : list string) (format_fn : formatter)
    (formats : list string) :
  find_dt_format sample format_fn formats = None <->
  Forall (fun f => forallb (parses format_fn f) sample = false) formats.
Proof.
  induction formats as [|f formats IH]; simpl.
  - split; auto.
  - rewrite all_parse_forallb.
    destruct (forallb (parses format_fn f) sample) eqn:E.
    + split; [discriminate|]. intros H. inversion H; congruence.
    + rewrite IH. split; [auto|]. intros H. now inversion H.
Qed.

(** A value of the null vocabulary parses under every format. *)
Lemma null_parses_under_any_format (value : string) (fmt : option string) :
  clean_nulls (Some value) = None ->
  parse_date (Some value) fmt = Ok PyNone
  /\ parse_datetime (Some value) fmt = Ok PyNone
  /\ parse_time (Some value) fmt = Ok PyNone.
Proof.
  intros H. unfold parse_date, parse_datetime, parse_time, with_clean.
  now rewrite H.
Qed.

(** C3, as the code has it.  [find_dt_format] returns the first candidate
    under which every sampled value parses, a value of the null vocabulary
    parsing under every format; it returns no format exactly when every
    candidate fails on some sampled value, which is the case when some
    value parses under no candidate; and a candidate that is the only one
    to parse the whole sample is the one returned. *)
Theorem find_dt_format_first_for_whole_sample
    (sample : list string) (format_fn : formatter) (formats : list string) :
  (forall fmt,
      find_dt_format sample format_fn formats = Some fmt ->
      exists pre post,
        formats = (pre ++ fmt :: post)%list
        /\ (forall v, In v sample -> parses format_fn fmt v = true)
        /\ (forall f, In f pre -> exists v, In v sample /\ parses format_fn f v = false))
  /\ (find_dt_format sample format_fn formats = None <->
      forall f, In f formats -> exists v, In v sample /\ parses format_fn f v = false)
  /\ ((exists v, In v sample /\ forall f, In f formats -> parses format_fn f v = false) ->
      find_dt_format sample format_fn formats = None)
  /\ (forall fmt,
         In fmt formats ->
         (forall v, In v sample -> parses format_fn fmt v = true) ->
         (forall f, In f formats -> f <> fmt ->
                    exists v, In v sample /\ parses format_fn f v = false) ->
         find_dt_format sample format_fn formats = Some fmt)
  /\ (forall v fmt,
         clean_nulls (Some v) = None ->
         parses parse_date fmt v = true /\ parses parse_datetime fmt v = true
         /\ parses parse_time fmt v = true).
Proof.
  assert (Hnone : find_dt_format sample format_fn formats = None <->
                  forall f, In f formats ->
                            exists v, In v sample /\ parses format_fn f v = false).
  { rewrite find_dt_format_none, Forall_forall.
    split; intros H f Hf; apply forallb_false_exists, H, Hf. }
  split; [|split; [exact Hnone|split; [|split]]].
  - intros fmt H. apply find_dt_format_some in H as (pre & post & -> & Hall & Hpre).
    exists pre, post. split; [reflexivity|]. split.
    + now apply forallb_forall.
    + intros f Hf. rewrite Forall_forall in Hpre. now apply forallb_false_exists, Hpre.
  - intros (v & Hv & Hall). apply Hnone. intros f Hf. exists v. auto.
  - intros fmt Hin Hall Hothers.
    destruct (find_dt_format sample format_fn formats) as [g|] eqn:E.
    + apply find_dt_format_some in E as (pre & post & Hsplit & Hg & Hpre).
      destruct (string_dec g fmt) as [->|Hne]; [reflexivity|].
      exfalso. destruct (Hothers g) as (v & Hv & Hp); [|exact Hne|].
      * rewrite Hsplit. apply in_or_app. right. now left.
      * rewrite forallb_forall in Hg. rewrite (Hg v Hv) in Hp. discriminate.
    + exfalso. destruct (proj1 Hnone eq_refl fmt Hin) as (v & Hv & Hp).
      rewrite (Hall v Hv) in Hp. discriminate.
  - intros v fmt H. unfold parses.
    destruct (null_parses_under_any_format v (Some fmt) H) as (-> & -> & ->). auto.
Qed.

Lemma find_dt_format_first_for_whole_sample_witness :
  find_dt_format [ "2024-01-01"; "n/a"; "2024-02-15" ] parse_date date_formats
  = Some "%Y-%m-%d"
  /\ find_dt_format [ "2024-01-01"; "next week" ] parse_date date_formats = None.
Proof.
  split.
  - apply (find_dt_format_first_for_whole_sample
             [ "2024-01-01"; "n/a"; "2024-02-15" ] parse_date date_formats).
    + simpl. auto.
    + intros v [<-|[<-|[<-|[]]]]; reflexivity.
    + intros f Hf Hne. exists "2024-01-01". split; [simpl; auto|].
      simpl in Hf.
      repeat (destruct Hf as [<-|Hf]; [try reflexivity; now contradiction Hne|]).
      contradiction.
  - apply (find_dt_format_first_for_whole_sample
             [ "2024-01-01"; "next week" ] parse_date date_formats).
    exists "next week". split; [simpl; auto|].
    intros f Hf. simpl in Hf.
    repeat (destruct Hf as [<-|Hf]; [reflexivity|]). contradiction.
Defined.

(** C3 as stated fails: no format is returned for a sample in which every
    value parses under some candidate, but no candidate parses them all. *)
Lemma no_format_without_unparsable_value :
  let sample := [ "2024-01-01"; "01/02/2024" ] in
  ~ (find_dt_format sample parse_date date_formats = None <->
     exists v, In v sample /\
               forall f, In f date_formats -> parses parse_date f v = false).
Proof.
  cbv zeta. intros [H _].
  destruct (H eq_refl) as (v & [<-|[<-|[]]] & Hall).
  - specialize (Hall "%Y-%m-%d"). simpl in Hall.
    assert (E : true = false) by (apply Hall; auto). discriminate E.
  - specialize (Hall "%m/%d/%Y"). simpl in Hall.
    assert (E : true = false) by (apply Hall; auto). discriminate E.
Qed.

(** ** A temporal column without a format *)

Lemma temporal_some (ty : string) (fn : formatter) (fmts : list string) :
  temporal ty = Some (fn, fmts) -> fn = parse_date /\ fmts <> [].
Proof.
  unfold temporal.
  destruct (String.eqb ty "date"); [intros H; injection H as <- <-; now split|].
  destruct (String.eqb ty "datetime"); [intros H; injection H as <- <-; now split|].
  destruct (String.eqb ty "time"); [intros H; injection H as <- <-; now split|].
  discriminate.
Qed.

Lemma parse_cell_temporal (formats : dict (option string)) (col : HeaderColumn)
    (row : RawRow) (idx : nat) (fn : formatter) (fmts : list string) :
  temporal (type col) = Some (fn, fmts) ->
  parse_cell formats col row idx
  = (let* v := list_get row idx in
     let* fmt := dict_get formats (name col) in
     parse_date (Some v) fmt).
Proof.
  unfold temporal, parse_cell.
  destruct (String.eqb (type col) "date"); [reflexivity|].
  destruct (String.eqb (type col) "datetime"); [reflexivity|].
  destruct (String.eqb (type col) "time"); [reflexivity|].
  discriminate.
Qed.

(** Without a format a temporal parser gives [None] for a null value and
    raises for any other. *)
Lemma parse_date_no_format (v : string) (x : pyval) :
  parse_date (Some v) None = Ok x -> x = PyNone.
Proof.
  unfold parse_date, with_clean.
  destruct (clean_nulls (Some v)); simpl; [discriminate|].
  intros H. now injection H as <-.
Qed.

Lemma parse_date_raises_not_null (v : string) (fmt : option string) (e : exn) :
  parse_date (Some v) fmt = Raise e -> parse_date (Some v) None = Raise TypeError.
Proof.
  unfold parse_date, with_clean.
  destruct (clean_nulls (Some v)); [reflexivity|discriminate].
Qed.

Lemma infer_formats_other_key (sample : list RawRow) (header : list HeaderColumn) :
  forall (idx : nat) (formats fs : dict (option string)) (k : string),
    infer_formats idx header sample formats = Ok fs ->
    (forall col, In col header -> name col <> k) ->
    dict_get fs k = dict_get formats k.
Proof.
  induction header as [|col header IH]; intros idx formats fs k H Hk; simpl in H.
  - now injection H as <-.
  - destruct (col_sample idx sample) as [cs|e]; simpl in H; [|discriminate].
    rewrite (IH _ _ _ _ H) by (intros c Hc; apply Hk; now right).
    assert (Hne : name col <> k) by (apply Hk; now left).
    destruct (String.eqb (type col) "date"); [now apply dict_get_set_other|].
    destruct (String.eqb (type col) "datetime"); [now apply dict_get_set_other|].
    destruct (String.eqb (type col) "time"); [now apply dict_get_set_other|].
    reflexivity.
Qed.

(** The format recorded under the name of a temporal column, when no later
    column has the same name, is the one inferred from its cells. *)
Lemma infer_formats_recorded (sample : list RawRow) (header : list HeaderColumn) :
  forall (idx : nat) (formats fs : dict (option string)) (i : nat)
         (col : HeaderColumn) (fn : formatter) (fmts : list string),
    infer_formats idx header sample formats = Ok fs ->
    nth_error header i = Some col ->
    temporal (type col) = Some (fn, fmts) ->
    (forall j col', (i < j)%nat -> nth_error header j = Some col' -> name col' <> name col) ->
    exists cs, col_sample (idx + i) sample = Ok cs
               /\ dict_get fs (name col) = Ok (find_dt_format cs fn fmts).
Proof.
  induction header as [|c header IH]; intros idx formats fs i col fn fmts H Hi Hty Hlater.
  - destruct i; discriminate.
  - simpl in H.
    destruct (col_sample idx sample) as [cs|e] eqn:Ecs; simpl in H; [|discriminate].
    destruct i as [|i]; simpl in Hi.
    + injection Hi as ->. exists cs. rewrite Nat.add_0_r. split; [exact Ecs|].
      rewrite (infer_formats_other_key _ _ _ _ _ _ H).
      * unfold temporal in Hty.
        destruct (String.eqb (type col) "date");
          [injection Hty as <- <-; apply dict_get_set_same|].
        destruct (String.eqb (type col) "datetime");
          [injection Hty as <- <-; apply dict_get_set_same|].
        destruct (String.eqb (type col) "time");
          [injection Hty as <- <-; apply dict_get_set_same|].
        discriminate.
      * intros c' Hc'. apply In_nth_error in Hc' as [j Hj].
        apply (Hlater (S j)); [lia|exact Hj].
    + replace (idx + S i)%nat with (S idx + i)%nat by lia.
      apply (IH _ _ _ _ _ _ _ H Hi Hty).
      intros j col' Hlt Hj. apply (Hlater (S j)); [lia|exact Hj].
Qed.

Lemma col_sample_In (idx : nat) (sample : list RawRow) (cs : list string) (v : string) :
  col_sample idx sample = Ok cs -> In v cs ->
  exists row, In row sample /\ nth_error row idx = Some v.
Proof.
  revert cs. induction sample as [|row sample IH]; simpl; intros cs H Hv.
  - injection H as <-. contradiction.
  - unfold list_get in H. destruct (nth_error row idx) as [x|] eqn:E; simpl in H; [|discriminate].
    destruct (col_sample idx sample) as [vs|]; simpl in H; [|discriminate].
    injection H as <-. destruct Hv as [<-|Hv].
    + exists row. auto.
    + destruct (IH vs eq_refl Hv) as (r & Hr & Hn). exists r. auto.
Qed.

(** The cells of a column of the sample. *)
Lemma col_sample_cells (idx : nat) (sample : list RawRow) (cs : list string) :
  col_sample idx sample = Ok cs ->
  map (fun row => nth_error row idx) sample = map Some cs.
Proof.
  revert cs. induction sample as [|row sample IH]; cbn [col_sample]; intros cs H.
  - now injection H as <-.
  - unfold list_get in H.
    destruct (nth_error row idx) as [x|] eqn:E; cbn [bind] in H; [|discriminate].
    destruct (col_sample idx sample) as [vs|]; cbn [bind] in H; [|discriminate].
    injection H as <-. cbn [map]. now rewrite E, (IH vs eq_refl).
Qed.

(** The first value of a column that is not null. *)
Lemma first_not_null (cs : list string) :
  (exists v, In v cs /\ clean_nulls (Some v) <> None) ->
  exists (k : nat) (v : string),
    nth_error cs k = Some v /\ clean_nulls (Some v) <> None
    /\ forall j w, (j < k)%nat -> nth_error cs j = Some w -> clean_nulls (Some w) = None.
Proof.
  induction cs as [|c cs IH]; intros (v & Hin & Hv); [contradiction|].
  destruct (clean_nulls (Some c)) as [t|] eqn:Ec.
  - exists 0%nat, c. split; [reflexivity|]. split; [congruence|]. intros j w Hj. lia.
  - destruct Hin as [->|Hin]; [congruence|].
    destruct (IH (ex_intro _ v (conj Hin Hv))) as (k & u & Hk & Hu & Hbefore).
    exists (S k), u. split; [exact Hk|]. split; [exact Hu|].
    intros [|j] w Hj Hw; cbn [nth_error] in Hw.
    + now injection Hw as <-.
    + apply (Hbefore j); [lia|exact Hw].
Qed.

(** A row of the first hundred is kept where it is. *)
Lemma kept_rows_nth (rows : list RawRow) (j : nat) :
  (j < 100)%nat ->
  nth_error (firstn 100 rows ++ skipn 101 rows) j = nth_error rows j.
Proof.
  intros Hj. rewrite nth_error_app, length_firstn.
  destruct (j <? Nat.min 100 (List.length rows))%nat eqn:E.
  - rewrite nth_error_firstn. now replace (j <? 100)%nat with true by (symmetry; apply Nat.ltb_lt; lia).
  - apply Nat.ltb_ge in E. rewrite nth_error_skipn.
    assert (Hlen : (List.length rows <= j)%nat) by lia.
    rewrite (proj2 (nth_error_None rows j)) by exact Hlen.
    apply nth_error_None. lia.
Qed.

Lemma parse_row_all_ok (formats : dict (option string)) (header : list HeaderColumn) :
  forall (idx : nat) (row : RawRow) (acc : TypedRow),
    (forall m c, nth_error header m = Some c ->
                 exists x, parse_cell formats c row (idx + m) = Ok x) ->
    exists d, parse_row formats idx header row acc = Ok d.
Proof.
  induction header as [|c header IH]; intros idx row acc H; cbn [parse_row]; [eauto|].
  destruct (H 0%nat c eq_refl) as [x Hx]. rewrite Nat.add_0_r in Hx. rewrite Hx. cbn [bind].
  apply IH. intros m c' Hm. replace (S idx + m)%nat with (idx + S m)%nat by lia.
  now apply H.
Qed.

(** The exception of a row is that of its first cell that raises. *)
Lemma parse_row_first_failure (formats : dict (option string)) (header : list HeaderColumn) :
  forall (idx : nat) (row : RawRow) (acc : TypedRow) (i : nat) (col : HeaderColumn) (e : exn),
    nth_error header i = Some col ->
    (forall m c, (m < i)%nat -> nth_error header m = Some c ->
                 exists x, parse_cell formats c row (idx + m) = Ok x) ->
    parse_cell formats col row (idx + i) = Raise e ->
    parse_row formats idx header row acc = Raise e.
Proof.
  induction header as [|c header IH]; intros idx row acc i col e Hi Hbefore He.
  - destruct i; discriminate.
  - cbn [parse_row]. destruct i as [|i]; cbn [nth_error] in Hi.
    + injection Hi as ->. rewrite Nat.add_0_r in He. now rewrite He.
    + destruct (Hbefore 0%nat c ltac:(lia) eq_refl) as [x Hx].
      rewrite Nat.add_0_r in Hx. rewrite Hx. cbn [bind].
      apply (IH _ _ _ i col); [exact Hi| |].
      * intros m c' Hm Hc'. replace (S idx + m)%nat with (idx + S m)%nat by lia.
        apply Hbefore; [lia|exact Hc'].
      * now replace (S idx + i)%nat with (idx + S i)%nat by lia.
Qed.

(** C4.  When no candidate format parses every sampled value of a temporal
    column, no format is recorded for it and none is guessed.  Some row of
    the sample holds a value of the column that is not null; take the
    first.  The generator ends with an exception, no later than that row;
    every typed row emitted before holds [None] for the column; and when
    no other cell raises before the value is reached, the rows before that
    row are all emitted and the exception is the [TypeError] of [strptime],
    called without a format. *)
Theorem no_format_found_is_fatal
    (rows : list RawRow) (header : list HeaderColumn) (i : nat) (col : HeaderColumn)
    (fn : formatter) (fmts : list string) (cs : list string) :
  nth_error header i = Some col ->
  temporal (type col) = Some (fn, fmts) ->
  (forall j col', (i < j)%nat -> nth_error header j = Some col' -> name col' <> name col) ->
  col_sample i (fst (get_sample_rows rows)) = Ok cs ->
  find_dt_format cs fn fmts = None ->
  exists (out : list TypedRow) (e : exn) (k : nat) (row : RawRow) (v : string),
    parse_iterator rows header = (out, Some e)
    /\ Forall (fun d => dict_get d (name col) = Ok PyNone) out
    /\ (k < 100)%nat /\ nth_error rows k = Some row /\ nth_error row i = Some v
    /\ clean_nulls (Some v) <> None
    /\ (forall j r, (j < k)%nat -> nth_error rows j = Some r ->
                    exists w, nth_error r i = Some w /\ clean_nulls (Some w) = None)
    /\ (List.length out <= k)%nat
    /\ (forall formats,
           infer_formats 0 header (fst (get_sample_rows rows)) [] = Ok formats ->
           (forall j r m c,
               nth_error rows j = Some r -> nth_error header m = Some c ->
               (j < k)%nat /\ m <> i \/ j = k /\ (m < i)%nat ->
               exists x, parse_cell formats c r m = Ok x) ->
           List.length out = k /\ e = TypeError).
Proof.
  intros Hi Hty Hlater Hcs Hfind.
  rewrite get_sample_rows_spec in *. cbn [fst] in *.
  destruct (temporal_some _ _ _ Hty) as [-> Hne].
  (* the first sampled value that is not null *)
  destruct fmts as [|f0 fmts]; [contradiction|].
  pose proof (proj1 (find_dt_format_none _ _ _) Hfind) as Hnone.
  inversion Hnone as [|? ? Hf0 _]; subst.
  apply forallb_false_exists in Hf0 as (v0 & Hv0 & Hp). unfold parses in Hp.
  destruct (parse_date (Some v0) (Some f0)) as [|e0] eqn:Ep; [discriminate|].
  assert (Hnn : clean_nulls (Some v0) <> None).
  { intros E. unfold parse_date, with_clean in Ep. rewrite E in Ep. discriminate. }
  destruct (first_not_null cs (ex_intro _ v0 (conj Hv0 Hnn))) as (k & v & Hk & Hv & Hbefore).
  pose proof (col_sample_cells _ _ _ Hcs) as Hmap.
  assert (Hcells : forall j w, nth_error cs j = Some w ->
                     exists r, nth_error (firstn 100 rows) j = Some r
                               /\ nth_error r i = Some w).
  { intros j w Hj. apply (f_equal (fun l => nth_error l j)) in Hmap.
    rewrite !nth_error_map, Hj in Hmap. cbn [option_map] in Hmap.
    destruct (nth_error (firstn 100 rows) j) as [r|]; [|discriminate].
    cbn [option_map] in Hmap. injection Hmap as Hr. eauto. }
  assert (Hsampled : forall j r, nth_error (firstn 100 rows) j = Some r ->
                       (j < 100)%nat /\ nth_error rows j = Some r).
  { intros j r Hj. rewrite nth_error_firstn in Hj.
    destruct (j <? 100)%nat eqn:E; [|discriminate]. apply Nat.ltb_lt in E. now split. }
  destruct (Hcells k v Hk) as (row & Hrow & Hcell).
  destruct (Hsampled k row Hrow) as [Hk100 Hrowk].
  assert (Hnulls : forall j r, (j < k)%nat -> nth_error rows j = Some r ->
                     exists w, nth_error r i = Some w /\ clean_nulls (Some w) = None).
  { intros j r Hj Hr.
    assert (Hjs : nth_error (firstn 100 rows) j = Some r).
    { rewrite nth_error_firstn. now replace (j <? 100)%nat with true
        by (symmetry; apply Nat.ltb_lt; lia). }
    apply (f_equal (fun l => nth_error l j)) in Hmap.
    rewrite !nth_error_map, Hjs in Hmap. cbn [option_map] in Hmap.
    destruct (nth_error cs j) as [w|] eqn:Ew; [|discriminate].
    cbn [option_map] in Hmap. injection Hmap as Hw.
    exists w. split; [exact Hw|]. now apply (Hbefore j). }
  rewrite parse_iterator_unfold.
  destruct (infer_formats 0 header (firstn 100 rows) []) as [fs|e] eqn:Einf.
  2:{ exists [], e, k, row, v. repeat split; try assumption; try constructor.
      - cbn [List.length]. lia.
      - discriminate.
      - discriminate. }
  destruct (infer_formats_recorded _ _ _ _ _ _ _ _ _ Einf Hi Hty Hlater)
    as (cs' & Hcs' & Hfs).
  cbn [Nat.add] in Hcs'. rewrite Hcs in Hcs'. injection Hcs' as <-.
  rewrite Hfind in Hfs.
  assert (Hcol : forall r,
             parse_cell fs col r i
             = (let* w := list_get r i in parse_date (Some w) None)).
  { intros r. rewrite (parse_cell_temporal _ _ _ _ _ _ Hty).
    destruct (list_get r i); cbn [bind]; [|reflexivity]. now rewrite Hfs. }
  assert (Hraisek : parse_cell fs col row i = Raise TypeError).
  { rewrite Hcol. unfold list_get. rewrite Hcell. cbn [bind].
    unfold parse_date, with_clean.
    destruct (clean_nulls (Some v)); [reflexivity|congruence]. }
  set (kept := (firstn 100 rows ++ skipn 101 rows)%list).
  assert (Hkept : nth_error kept k = Some row)
    by (unfold kept; now rewrite kept_rows_nth).
  destruct (emit_rows fs header kept) as [out e] eqn:Eemit.
  destruct (emit_rows_prefix _ _ _ _ _ Eemit) as [Hout Hend].
  (* the row of the value is not emitted *)
  assert (Hle : (List.length out <= k)%nat).
  { destruct (le_lt_dec (List.length out) k) as [H|H]; [exact H|exfalso].
    apply (f_equal (fun l => nth_error l k)) in Hout.
    rewrite !nth_error_map, nth_error_firstn in Hout.
    replace (k <? List.length out)%nat with true in Hout
      by (symmetry; apply Nat.ltb_lt; lia).
    rewrite Hkept in Hout. cbn [option_map] in Hout.
    destruct (nth_error out k) as [d|] eqn:Ed; [|discriminate].
    cbn [option_map] in Hout. injection Hout as Hd. symmetry in Hd.
    destruct (parse_row_cell _ _ _ _ _ _ _ _ Hd Hi Hlater) as (x & Hx & _).
    cbn [Nat.add] in Hx. congruence. }
  destruct e as [e|].
  2:{ exfalso. assert (k < List.length kept)%nat by (apply nth_error_Some; congruence).
      lia. }
  exists out, e, k, row, v.
  split; [reflexivity|]. split.
  { apply Forall_forall. intros d Hd.
    assert (Hin : In d (fst (emit_rows fs header kept))) by now rewrite Eemit.
    apply emit_rows_parsed in Hin as (r & _ & Hr).
    destruct (parse_row_cell _ _ _ _ _ _ _ _ Hr Hi Hlater) as (x & Hx & Hget).
    cbn [Nat.add] in Hx. rewrite Hcol in Hx. rewrite Hget. f_equal.
    destruct (list_get r i) as [w|]; cbn [bind] in Hx; [|discriminate].
    now apply parse_date_no_format in Hx. }
  repeat (split; [assumption|]).
  intros formats Hformats Hothers. injection Hformats as <-.
  destruct Hend as (row' & Hrow' & Hraise).
  (* every row before the row of the value is emitted *)
  destruct (le_lt_eq_dec _ _ Hle) as [Hlt|Heq].
  - exfalso. unfold kept in Hrow'.
    rewrite (kept_rows_nth rows (List.length out)) in Hrow' by lia.
    destruct (Hnulls _ _ Hlt Hrow') as (w & Hw & Hnull).
    destruct (parse_row_all_ok fs header 0 row' []) as [d Hd]; [|congruence].
    intros m c Hm. cbn [Nat.add].
    destruct (Nat.eq_dec m i) as [->|Hmi].
    + assert (c = col) by congruence. subst c. exists PyNone.
      rewrite Hcol. unfold list_get. rewrite Hw. cbn [bind].
      unfold parse_date, with_clean. now rewrite Hnull.
    + apply (Hothers (List.length out) row' m c Hrow' Hm). left. now split.
  - split; [exact Heq|]. rewrite Heq, Hkept in Hrow'. injection Hrow' as <-.
    rewrite (parse_row_first_failure fs header 0 row [] i col TypeError Hi) in Hraise.
    + congruence.
    + intros m c Hm Hc. cbn [Nat.add].
      apply (Hothers k row m c Hrowk Hc). right. now split.
    + exact Hraisek.
Qed.

Lemma no_format_found_is_fatal_witness :
  exists (out : list TypedRow) (e : exn) (k : nat) (row : RawRow) (v : string),
    parse_iterator [ ["n/a"; "Widget"]; ["2024-01-01"; "Gadget"]; ["01/02/2024"; "Gizmo"] ]
      [ mk_column "Date" "date" None; mk_column "Product" "str" None ]
    = (out, Some e)
    /\ Forall (fun d => dict_get d "Date" = Ok PyNone) out
    /\ (k < 100)%nat
    /\ nth_error [ ["n/a"; "Widget"]; ["2024-01-01"; "Gadget"]; ["01/02/2024"; "Gizmo"] ] k
       = Some row
    /\ nth_error row 0 = Some v
    /\ clean_nulls (Some v) <> None
    /\ (forall j r, (j < k)%nat ->
                    nth_error [ ["n/a"; "Widget"]; ["2024-01-01"; "Gadget"];
                                ["01/02/2024"; "Gizmo"] ] j = Some r ->
                    exists w, nth_error r 0 = Some w /\ clean_nulls (Some w) = None)
    /\ (List.length out <= k)%nat
    /\ (forall formats,
           infer_formats 0 [ mk_column "Date" "date" None; mk_column "Product" "str" None ]
             (fst (get_sample_rows
                     [ ["n/a"; "Widget"]; ["2024-01-01"; "Gadget"]; ["01/02/2024"; "Gizmo"] ]))
             [] = Ok formats ->
           (forall j r m c,
               nth_error [ ["n/a"; "Widget"]; ["2024-01-01"; "Gadget"];
                           ["01/02/2024"; "Gizmo"] ] j = Some r ->
               nth_error [ mk_column "Date" "date" None; mk_column "Product" "str" None ] m
               = Some c ->
               (j < k)%nat /\ m <> 0%nat \/ j = k /\ (m < 0)%nat ->
               exists x, parse_cell formats c r m = Ok x) ->
           List.length out = k /\ e = TypeError).
Proof.
  apply (no_format_found_is_fatal
           [ ["n/a"; "Widget"]; ["2024-01-01"; "Gadget"]; ["01/02/2024"; "Gizmo"] ]
           [ mk_column "Date" "date" None; mk_column "Product" "str" None ]
           0%nat (mk_column "Date" "date" None) parse_date date_formats
           [ "n/a"; "2024-01-01"; "01/02/2024" ]).
  - reflexivity.
  - reflexivity.
  - intros [|[|[|j]]] col' Hlt Hj; simpl in Hj; try lia; try discriminate.
    injection Hj as <-. simpl. discriminate.
  - vm_compute. reflexivity.
  - vm_compute. reflexivity.
Defined.

(** The claim at two tables whose date column has no common format.  In
    the first the row with the null date is emitted before the failure,
    which is the [TypeError] of [strptime]; in the second the failure is
    the [ValueError] of the number column, which comes first in the
    header. *)
Lemma no_format_found_is_not_signalled :
  find_dt_format [ "n/a"; "2024-01-01"; "01/02/2024" ] parse_date date_formats = None
  /\ parse_iterator
       [ ["n/a"; "Widget"]; ["2024-01-01"; "Gadget"]; ["01/02/2024"; "Gizmo"] ]
       [ mk_column "Date" "date" None; mk_column "Product" "str" None ]
     = ([ [ ("Date", PyNone); ("Product", PyStr "Widget") ] ], Some TypeError)
  /\ find_dt_format [ "2024-01-01"; "01/02/2024" ] parse_date date_formats = None
  /\ parse_iterator [ ["abc"; "2024-01-01"]; ["1"; "01/02/2024"] ]
       [ mk_column "Amount" "number" (Some "."); mk_column "Date" "date" None ]
     = ([], Some ValueError).
Proof. vm_compute. repeat split. Qed.

(** * Further properties of the code *)

(** ** Ranges of integers *)

Lemma zrange_nil (lo hi : Z) : hi < lo -> zrange lo hi = [].
Proof.
  intros H. unfold zrange.
  replace (Z.to_nat (hi - lo + 1)) with 0%nat by lia. reflexivity.
Qed.

Lemma zrange_cons (lo hi : Z) : lo <= hi -> zrange lo hi = lo :: zrange (lo + 1) hi.
Proof.
  intros H. unfold zrange.
  replace (Z.to_nat (hi - lo + 1)) with (S (Z.to_nat (hi - (lo + 1) + 1))) by lia.
  cbn [seq map]. f_equal; [lia|].
  rewrite <- seq_shift, map_map. apply map_ext. intros i. lia.
Qed.

Lemma length_zrange (lo hi : Z) : List.length (zrange lo hi) = Z.to_nat (hi - lo + 1).
Proof. unfold zrange. now rewrite length_map, length_seq. Qed.

Lemma In_zrange (lo hi x : Z) : In x (zrange lo hi) <-> lo <= x <= hi.
Proof.
  unfold zrange. rewrite in_map_iff. split.
  - intros (i & <- & Hi). apply in_seq in Hi. lia.
  - intros H. exists (Z.to_nat (x - lo)). split; [lia|]. apply in_seq. lia.
Qed.

Lemma NoDup_zrange (lo hi : Z) : NoDup (zrange lo hi).
Proof.
  unfold zrange. generalize (Z.to_nat (hi - lo + 1)) as n. intros n.
  generalize 0%nat as a. induction n as [|n IH]; intros a; cbn [seq map]; constructor.
  - rewrite in_map_iff. intros (i & Hi & Hin). apply in_seq in Hin. lia.
  - apply IH.
Qed.

Lemma same_elements_same_length {A : Type} (l l' : list A) :
  NoDup l -> NoDup l' -> (forall x, In x l <-> In x l') -> List.length l = List.length l'.
Proof.
  intros Hl Hl' H. apply Nat.le_antisymm; apply NoDup_incl_length; auto;
    intros x Hx; now apply H.
Qed.

Lemma in_set_In (x : Z) (s : list Z) : in_set x s = true <-> In x s.
Proof.
  unfold in_set. rewrite existsb_exists. split.
  - intros (y & Hy & E). apply Z.eqb_eq in E. now subst.
  - intros H. exists x. split; [exact H|apply Z.eqb_refl].
Qed.

Lemma in_set_filter (p : Z -> bool) (k : Z) (s : list Z) :
  p k = true -> in_set k (filter p s) = in_set k s.
Proof.
  intros Hp. destruct (in_set k s) eqn:E.
  - apply in_set_In. apply filter_In. apply in_set_In in E. auto.
  - destruct (in_set k (filter p s)) eqn:E'; [|reflexivity].
    apply in_set_In, filter_In in E' as [E' _]. apply in_set_In in E'. congruence.
Qed.

Lemma in_set_shift (k s : Z) (skip : list Z) :
  in_set (k - s) (map (fun r => r - s) skip) = in_set k skip.
Proof.
  unfold in_set. induction skip as [|r skip IH]; simpl; [reflexivity|].
  rewrite IH. f_equal. destruct (Z.eqb_spec k r), (Z.eqb_spec (k - s) (r - s)); lia || reflexivity.
Qed.

(** ** csv.py: the rows and the columns selected *)

Lemma csv_rows_skip_filter (reader : list RawRow) (s e c1 c2 : Z) (skip : list Z) :
  forall k : Z,
    csv_rows k reader s e c1 c2 skip
    = csv_rows k reader s e c1 c2 (filter (fun r => (s <=? r) && (r <=? e)) skip).
Proof.
  induction reader as [|row reader IH]; intros k; simpl; [reflexivity|].
  rewrite <- IH.
  destruct (k <? s) eqn:E1; [reflexivity|].
  destruct (e <? k) eqn:E2; [reflexivity|]. simpl.
  rewrite in_set_filter; [reflexivity|]. lia.
Qed.

(** X1.  The entries of [skip_rows] that lie outside the row range have no
    effect on what the delimited-text source yields. *)
Theorem csv_skip_rows_outside_range_are_ignored
    (s e c1 c2 : Z) (skip : list Z) (file : list RawRow) :
  Csv.table_iterator s e c1 c2 skip file
  = Csv.table_iterator s e c1 c2 (filter (fun r => (s <=? r) && (r <=? e)) skip) file.
Proof. apply csv_rows_skip_filter. Qed.

Lemma enumerate_from_keys {A : Type} (l : list A) :
  forall k : Z,
    map fst (enumerate_from k l) = zrange k (k + Z.of_nat (List.length l) - 1).
Proof.
  induction l as [|a l IH]; intros k; cbn [enumerate_from map List.length].
  - rewrite zrange_nil by lia. reflexivity.
  - rewrite zrange_cons by lia. cbn [fst]. f_equal. rewrite IH. f_equal. lia.
Qed.

Lemma filter_fst_length {A : Type} (p : Z -> bool) (l : list (Z * A)) :
  List.length (filter (fun x => p (fst x)) l) = List.length (filter p (map fst l)).
Proof.
  induction l as [|[k a] l IH]; simpl; [reflexivity|].
  destruct (p k); simpl; now rewrite IH.
Qed.

Lemma filter_split_length {A : Type} (p q : A -> bool) (l : list A) :
  (List.length (filter (fun x => p x && negb (q x)) l)
   + List.length (filter (fun x => p x && q x) l)
   = List.length (filter p l))%nat.
Proof.
  induction l as [|a l IH]; simpl; [reflexivity|].
  destruct (p a), (q a); simpl; lia.
Qed.

(** X2.  For a row range that lies within the file and a [skip_rows]
    without repetition whose entries lie in the range, the delimited-text
    source yields one row per index of the range that is not skipped: the
    length of the range less the number of rows to skip. *)
Theorem csv_row_count
    (s e c1 c2 : Z) (skip : list Z) (file : list RawRow) :
  0 <= s -> s <= e -> e < Z.of_nat (List.length file) ->
  NoDup skip -> (forall r, In r skip -> s <= r <= e) ->
  Z.of_nat (List.length (Csv.table_iterator s e c1 c2 skip file))
  = e - s + 1 - Z.of_nat (List.length skip).
Proof.
  intros Hs Hse He Hnd Hskip. unfold Csv.table_iterator.
  rewrite csv_rows_selected, length_map.
  rewrite (filter_fst_length
             (fun r => (s <=? r) && (r <=? e) && negb (in_set r skip))).
  rewrite enumerate_from_keys.
  set (K := zrange 0 (0 + Z.of_nat (List.length file) - 1)).
  pose proof (filter_split_length (fun r => (s <=? r) && (r <=? e))
                (fun r => in_set r skip) K) as Hsplit.
  assert (Hin : List.length (filter (fun r => (s <=? r) && (r <=? e)) K)
                = Z.to_nat (e - s + 1)).
  { rewrite <- (length_zrange s e).
    apply same_elements_same_length;
      [apply NoDup_filter, NoDup_zrange|apply NoDup_zrange|].
    intros x. rewrite filter_In, In_zrange. unfold K. rewrite In_zrange. lia. }
  assert (Hsk : List.length (filter (fun r => (s <=? r) && (r <=? e) && in_set r skip) K)
                = List.length skip).
  { apply same_elements_same_length; [apply NoDup_filter, NoDup_zrange|exact Hnd|].
    intros x. rewrite filter_In. unfold K. rewrite In_zrange, !andb_true_iff, in_set_In.
    split; [tauto|]. intros Hx. specialize (Hskip x Hx).
    repeat split; try lia; exact Hx. }
  lia.
Qed.

Lemma csv_row_count_witness :
  Z.of_nat (List.length
              (Csv.table_iterator 1 4 0 1 [3]
                 [ ["Name"; "Qty"]; ["a"; "1"]; ["b"; "2"]; ["Subtotal"; "3"];
                   ["c"; "4"]; ["Total"; "7"] ]))
  = 4 - 1 + 1 - Z.of_nat (List.length [3]).
Proof.
  apply csv_row_count.
  - lia.
  - lia.
  - simpl. lia.
  - repeat constructor. simpl. tauto.
  - intros r [<-|[]]. lia.
Defined.

Lemma csv_rows_end (reader : list RawRow) (s c1 c2 : Z) (skip : list Z) (e e' : Z) :
  forall k : Z,
    k + Z.of_nat (List.length reader) - 1 <= e ->
    k + Z.of_nat (List.length reader) - 1 <= e' ->
    csv_rows k reader s e c1 c2 skip = csv_rows k reader s e' c1 c2 skip.
Proof.
  induction reader as [|row reader IH]; intros k He He'; cbn [csv_rows]; [reflexivity|].
  cbn [List.length] in He, He'.
  rewrite (IH (k + 1)) by lia.
  replace (e <? k) with false by lia. replace (e' <? k) with false by lia.
  reflexivity.
Qed.

(** X3.  A [data_end_row] at or beyond the last row of the file is not an
    error: the delimited-text source yields the rows up to the end of the
    file, as for the index of the last row. *)
Theorem csv_end_row_beyond_file
    (s e c1 c2 : Z) (skip : list Z) (file : list RawRow) :
  Z.of_nat (List.length file) - 1 <= e ->
  Csv.table_iterator s e c1 c2 skip file
  = Csv.table_iterator s (Z.of_nat (List.length file) - 1) c1 c2 skip file.
Proof. intros H. apply csv_rows_end; lia. Qed.

Lemma csv_end_row_beyond_file_witness :
  Csv.table_iterator 1 1000 0 0 [] [ ["Name"]; ["a"]; ["b"] ]
  = Csv.table_iterator 1 2 0 0 [] [ ["Name"]; ["a"]; ["b"] ].
Proof. apply (csv_end_row_beyond_file 1 1000 0 0 [] [ ["Name"]; ["a"]; ["b"] ]). simpl. lia. Defined.

Lemma py_slice_nonneg {A : Type} (l : list A) (a b : Z) :
  0 <= a -> a <= b ->
  py_slice l a b = firstn (Z.to_nat (b - a)) (skipn (Z.to_nat a) l).
Proof.
  intros Ha Hab. unfold py_slice, clamp_index.
  replace (a <? 0) with false by lia. replace (b <? 0) with false by lia.
  set (len := Z.of_nat (List.length l)).
  destruct (Z_le_gt_dec a len) as [Hal|Hal].
  - rewrite (Z.min_l a len) by lia.
    destruct (Z_le_gt_dec b len) as [Hbl|Hbl].
    + now rewrite (Z.min_l b len) by lia.
    + rewrite (Z.min_r b len) by lia.
      rewrite !firstn_all2; [reflexivity| |]; rewrite length_skipn; unfold len in *; lia.
  - rewrite (Z.min_r a len), (Z.min_r b len) by lia.
    replace (Z.to_nat (len - len)) with 0%nat by lia.
    rewrite (skipn_all2 l (n := Z.to_nat a)) by (unfold len in *; lia).
    now rewrite firstn_nil.
Qed.

Lemma csv_rows_sources (reader : list RawRow) (s e c1 c2 : Z) (skip : list Z) :
  forall (k : Z) (r : RawRow),
    In r (csv_rows k reader s e c1 c2 skip) ->
    exists src, In src reader /\ r = py_slice src c1 (c2 + 1).
Proof.
  induction reader as [|row reader IH]; intros k r; cbn [csv_rows]; [contradiction|].
  intros H.
  assert (Hrest : In r (csv_rows (k + 1) reader s e c1 c2 skip) ->
                  exists src, In src (row :: reader) /\ r = py_slice src c1 (c2 + 1)).
  { intros H'. destruct (IH _ _ H') as (src & Hsrc & ->). exists src. split; [now right|reflexivity]. }
  destruct ((k <? s) || (e <? k)); [auto|].
  destruct (in_set k skip); [auto|].
  destruct H as [<-|H]; [|auto]. exists row. split; [now left|reflexivity].
Qed.

(** X4.  For column bounds that are not negative, every row the
    delimited-text source yields is the run of cells [start_col] to
    [end_col] of a row of the file, cut short where the row of the file
    ends: it has at most [end_col - start_col + 1] cells. *)
Theorem csv_rows_are_column_slices
    (s e c1 c2 : Z) (skip : list Z) (file : list RawRow) (r : RawRow) :
  0 <= c1 -> c1 <= c2 + 1 ->
  In r (Csv.table_iterator s e c1 c2 skip file) ->
  (exists src, In src file
               /\ r = firstn (Z.to_nat (c2 + 1 - c1)) (skipn (Z.to_nat c1) src))
  /\ Z.of_nat (List.length r) <= c2 - c1 + 1.
Proof.
  intros Hc1 Hc2 Hin. apply csv_rows_sources in Hin as (src & Hsrc & ->).
  rewrite py_slice_nonneg by lia. split.
  - now exists src.
  - rewrite length_firstn. lia.
Qed.

Lemma csv_rows_are_column_slices_witness :
  (exists src, In src [ ["x"; "a"; "1"; "note"]; ["x"; "b"] ]
               /\ ["b"] = firstn (Z.to_nat (2 + 1 - 1)) (skipn (Z.to_nat 1) src))
  /\ Z.of_nat (List.length ["b"]) <= 2 - 1 + 1.
Proof.
  apply (csv_rows_are_column_slices 0 5 1 2 [] [ ["x"; "a"; "1"; "note"]; ["x"; "b"] ]).
  - lia.
  - lia.
  - simpl. auto.
Defined.

(** ** xls.py: the shape of the rows *)

Lemma xls_rows_sources (rows : list (list (option string))) (skip : list Z) :
  forall (k : Z) (r : RawRow),
    In r (xls_rows k rows skip) -> exists row, In row rows /\ r = map normalize_cell row.
Proof.
  induction rows as [|row rows IH]; intros k r; cbn [xls_rows]; [contradiction|].
  intros H.
  assert (Hrest : In r (xls_rows (k + 1) rows skip) ->
                  exists row', In row' (row :: rows) /\ r = map normalize_cell row').
  { intros H'. destruct (IH _ _ H') as (row' & Hrow' & ->).
    exists row'. split; [now right|reflexivity]. }
  destruct (in_set k skip); [auto|].
  destruct H as [<-|H]; [|auto]. exists row. split; [now left|reflexivity].
Qed.

Lemma normalize_cell_stripped (v : option string) :
  Str.strip (normalize_cell v) = normalize_cell v.
Proof. destruct v as [t|]; simpl; [apply strip_idem|reflexivity]. Qed.

Lemma or_else_bound (bound default : Z) : bound <> 0 -> or_else bound default = bound.
Proof. unfold or_else. intros H. now replace (bound =? 0) with false by lia. Qed.

(** X5.  For a range whose column indices are not negative, every row
    the workbook source yields has exactly [end_col - start_col + 1] cells,
    whatever cells the sheet has in that row, and every cell is a text
    without surrounding whitespace (the empty string for a cell without a
    value). *)
Theorem xls_rows_are_rectangular_and_trimmed
    (s e c1 c2 : Z) (skip : list Z) (ws : worksheet) (r : RawRow) :
  0 <= c1 -> 0 <= c2 ->
  In r (Xls.table_iterator s e c1 c2 skip ws) ->
  List.length r = Z.to_nat (c2 - c1 + 1)
  /\ (forall c, In c r -> Str.strip c = c).
Proof.
  unfold Xls.table_iterator. intros Hc1 Hc2 H.
  apply xls_rows_sources in H as (row & Hrow & ->).
  unfold iter_rows, cells_by_row in Hrow. rewrite !or_else_bound in Hrow by lia.
  apply in_map_iff in Hrow as (i & <- & _). split.
  - rewrite !length_map, length_zrange. f_equal. lia.
  - intros c Hc. apply in_map_iff in Hc as (v & <- & _). apply normalize_cell_stripped.
Qed.

Lemma xls_rows_are_rectangular_and_trimmed_witness :
  List.length ["Widget"; ""; ""] = Z.to_nat (2 - 0 + 1)
  /\ (forall c, In c ["Widget"; ""; ""] -> Str.strip c = c).
Proof.
  apply (xls_rows_are_rectangular_and_trimmed 1 1 0 2 []
           [ [Some "Product"; Some "Note"]; [Some "  Widget "] ]); [lia|lia|].
  vm_compute. auto.
Defined.

(** The bounds that are not given: a start column of -1 is a first column
    that is 0, which stands for the first column of the sheet, and an end
    row of -1 is a last row that is 0, which stands for the last row of the
    sheet. *)
Example bounds_not_given :
  Xls.table_iterator 0 0 (-1) 1 [] [ [Some "a"; Some "b"; Some "c"] ] = [ ["a"; "b"] ]
  /\ Xls.table_iterator 1 (-1) 0 0 [] [ [Some "a"]; [Some "b"]; [Some "c"] ]
     = [ ["b"]; ["c"] ].
Proof. vm_compute. split; reflexivity. Qed.

(** ** The two row sources on the same table *)

Lemma nth_error_seq_firstn {A : Type} (n : nat) :
  forall l : list A,
    (n <= List.length l)%nat -> map (nth_error l) (seq 0 n) = map Some (firstn n l).
Proof.
  induction n as [|n IH]; intros l Hn; [reflexivity|].
  destruct l as [|a l]; [simpl in Hn; lia|].
  cbn [seq map firstn nth_error]. f_equal.
  rewrite <- seq_shift, map_map. apply IH. simpl in Hn. lia.
Qed.

Lemma In_firstn_In {A : Type} (n : nat) (l : list A) (x : A) :
  In x (firstn n l) -> In x l.
Proof. intros H. rewrite <- (firstn_skipn n l). apply in_or_app. now left. Qed.

Lemma In_skipn_In {A : Type} (n : nat) (l : list A) (x : A) :
  In x (skipn n l) -> In x l.
Proof. intros H. rewrite <- (firstn_skipn n l). apply in_or_app. now right. Qed.

(** The cells of a full row of text, read through [cell_value]. *)
Lemma padded_row_is_slice (ws : worksheet) (row : list string) (k c1 c2 : Z) :
  0 <= k -> 0 <= c1 -> c1 <= c2 -> c2 < Z.of_nat (List.length row) ->
  nth_error ws (Z.to_nat k) = Some (map Some row) ->
  (forall c, In c row -> Str.strip c = c) ->
  map normalize_cell (map (cell_value ws (k + 1)) (zrange (c1 + 1) (c2 + 1)))
  = py_slice row c1 (c2 + 1).
Proof.
  intros Hk Hc1 Hc12 Hc2 Hrow Hstripped.
  rewrite py_slice_nonneg by lia.
  transitivity (map normalize_cell
                  (map Some (firstn (Z.to_nat (c2 + 1 - c1)) (skipn (Z.to_nat c1) row)))).
  - f_equal. rewrite <- nth_error_seq_firstn by (rewrite length_skipn; lia).
    unfold zrange. rewrite map_map.
    replace (Z.to_nat (c2 + 1 - (c1 + 1) + 1)) with (Z.to_nat (c2 + 1 - c1)) by lia.
    apply map_ext_in. intros i Hi. apply in_seq in Hi.
    unfold cell_value.
    replace (k + 1 <? 1) with false by lia.
    replace (c1 + 1 + Z.of_nat i <? 1) with false by lia. cbn [orb].
    replace (Z.to_nat (k + 1 - 1)) with (Z.to_nat k) by lia. rewrite Hrow.
    rewrite nth_error_skipn.
    replace (Z.to_nat (c1 + 1 + Z.of_nat i - 1)) with (Z.to_nat c1 + i)%nat by lia.
    rewrite nth_error_map.
    destruct (nth_error row (Z.to_nat c1 + i)) as [v|] eqn:E; [reflexivity|].
    apply nth_error_None in E. lia.
  - rewrite map_map. cbn [normalize_cell].
    rewrite <- (map_id (firstn _ _)) at 2. apply map_ext_in.
    intros c Hc. apply Hstripped.
    apply (In_skipn_In (Z.to_nat c1)), (In_firstn_In (Z.to_nat (c2 + 1 - c1))). exact Hc.
Qed.

Lemma csv_xls_rows_agree (s e c1 c2 : Z) (skip : list Z) :
  0 <= s -> 0 <= c1 -> c1 <= c2 ->
  forall (suffix pre : list RawRow),
    (forall j row, nth_error suffix j = Some row ->
                   s <= Z.of_nat (List.length pre) + Z.of_nat j <= e ->
                   c2 < Z.of_nat (List.length row)
                   /\ (forall c, In c row -> Str.strip c = c)) ->
    let k := Z.of_nat (List.length pre) in
    let ws := map (map Some) (pre ++ suffix) in
    csv_rows k suffix s e c1 c2 skip
    = xls_rows (Z.max k s - s)
        (map (fun r => map (cell_value ws r) (zrange (c1 + 1) (c2 + 1)))
           (zrange (Z.max k s + 1) (Z.min (e + 1) (Z.of_nat (List.length ws)))))
        (map (fun r => r - s) skip).
Proof.
  intros Hs Hc1 Hc12.
  induction suffix as [|row rest IH]; intros pre Hrows k ws.
  - subst ws k. rewrite app_nil_r, length_map.
    rewrite (zrange_nil (Z.max (Z.of_nat (List.length pre)) s + 1)) by lia. reflexivity.
  - assert (Hlen : Z.of_nat (List.length ws) = k + 1 + Z.of_nat (List.length rest)).
    { subst ws k. rewrite length_map, length_app. cbn [List.length]. lia. }
    specialize (IH (pre ++ [row])%list).
    rewrite <- app_assoc in IH. cbn [app] in IH.
    rewrite length_app in IH. cbn [List.length] in IH.
    replace (Z.of_nat (List.length pre + 1)) with (k + 1) in IH by (subst k; lia).
    fold ws in IH.
    cbn [csv_rows]. rewrite IH.
    2:{ intros j r Hj Hr. apply (Hrows (S j) r Hj). lia. }
    clear IH.
    destruct (k <? s) eqn:E1; cbn [orb].
    + replace (Z.max (k + 1) s) with (Z.max k s) by lia. reflexivity.
    + destruct (e <? k) eqn:E2.
      * rewrite (zrange_nil (Z.max k s + 1)), (zrange_nil (Z.max (k + 1) s + 1)) by lia.
        reflexivity.
      * replace (Z.max k s) with k by lia.
        replace (Z.max (k + 1) s) with (k + 1) by lia.
        rewrite (zrange_cons (k + 1)) by lia.
        cbn [map xls_rows]. rewrite in_set_shift.
        replace (k - s + 1) with (k + 1 - s) by lia.
        replace (k + 1 + 1) with (k + 1 + 1) by lia.
        destruct (Hrows 0%nat row eq_refl) as [Hw Hst]; [fold k; lia|].
        rewrite (padded_row_is_slice ws row k c1 c2); try lia; try assumption.
        -- reflexivity.
        -- subst ws k. rewrite map_app, nth_error_app2 by (rewrite length_map; lia).
           rewrite length_map.
           replace (Z.to_nat (Z.of_nat (List.length pre)) - List.length pre)%nat
             with 0%nat by lia.
           reflexivity.
Qed.

(** X6.  For a range whose indices are not negative, on a table whose
    rows in the range are full (each has a cell for every column up to
    [end_col]) and hold texts without surrounding whitespace, the workbook
    source yields what the delimited-text source yields, once every entry
    of [skip_rows] is counted from [data_start_row]; in particular the two
    agree for an empty [skip_rows], and for any [skip_rows] when
    [data_start_row] is 0. *)
Theorem csv_and_xls_agree_up_to_skip_offset
    (s e c1 c2 : Z) (skip : list Z) (file : list RawRow) :
  0 <= s -> 0 <= e -> 0 <= c1 -> c1 <= c2 ->
  (forall j row, nth_error file j = Some row -> s <= Z.of_nat j <= e ->
                 c2 < Z.of_nat (List.length row)
                 /\ (forall c, In c row -> Str.strip c = c)) ->
  Csv.table_iterator s e c1 c2 skip file
  = Xls.table_iterator s e c1 c2 (map (fun r => r - s) skip) (map (map Some) file).
Proof.
  intros Hs He Hc1 Hc12 Hrows.
  unfold Csv.table_iterator, Xls.table_iterator, iter_rows, cells_by_row.
  rewrite !or_else_bound by lia.
  pose proof (csv_xls_rows_agree s e c1 c2 skip Hs Hc1 Hc12 file []) as H.
  cbv zeta in H. cbn [app List.length Z.of_nat] in H.
  replace (Z.max 0 s) with s in H by lia.
  replace (s - s) with 0 in H by lia.
  apply H. intros j row Hj Hr. apply (Hrows j row Hj). lia.
Qed.

Lemma csv_and_xls_agree_up_to_skip_offset_witness :
  Csv.table_iterator 1 3 0 1 [2]
    [ ["Report"]; ["a"; "1"]; ["Subtotal"; "1"]; ["b"; "2"] ]
  = Xls.table_iterator 1 3 0 1 (map (fun r => r - 1) [2])
      (map (map Some) [ ["Report"]; ["a"; "1"]; ["Subtotal"; "1"]; ["b"; "2"] ]).
Proof.
  apply csv_and_xls_agree_up_to_skip_offset; try lia.
  intros [|[|[|[|j]]]] row Hj Hr; simpl in Hj, Hr; try lia; try discriminate;
    injection Hj as <-; (split; [simpl; lia|]);
    intros c Hc; simpl in Hc; intuition (subst; reflexivity).
Defined.

(** A cell padded with a no-break space: the workbook source trims it,
    the delimited-text source keeps it. *)
Example no_break_space_is_trimmed :
  Xls.table_iterator 0 0 0 0 [] [ [Some (Utf8.text [160; 120; 8195]%N)] ] = [ ["x"] ]
  /\ Csv.table_iterator 0 0 0 0 [] [ [Utf8.text [160; 120; 8195]%N] ]
     = [ [Utf8.text [160; 120; 8195]%N] ].
Proof. vm_compute. split; reflexivity. Qed.

(** ** parser.py: what the parsers return and raise *)

Lemma clean_nulls_normal_form (v : string) :
  clean_nulls (Some (Str.lower (Str.strip v))) = clean_nulls (Some v).
Proof.
  unfold clean_nulls. now rewrite strip_lower_strip, lower_idem.
Qed.

(** X7.  The decorated parsers see a cell only through its trimmed,
    lower-cased form: surrounding whitespace and the casing of a cell
    change neither the value returned nor the exception raised. *)
Theorem parsers_ignore_padding_and_case
    (v sep : string) (fmt : option string) :
  parse_number (Some v) sep = parse_number (Some (Str.lower (Str.strip v))) sep
  /\ parse_date (Some v) fmt = parse_date (Some (Str.lower (Str.strip v))) fmt
  /\ parse_datetime (Some v) fmt = parse_datetime (Some (Str.lower (Str.strip v))) fmt
  /\ parse_time (Some v) fmt = parse_time (Some (Str.lower (Str.strip v))) fmt.
Proof.
  unfold parse_number, parse_date, parse_datetime, parse_time, with_clean.
  now rewrite clean_nulls_normal_form.
Qed.

Lemma py_float_exn (s : string) (e : exn) : py_float s = Raise e -> e = ValueError.
Proof.
  unfold py_float.
  destruct (split_sign _) as [neg body].
  destruct (String.eqb (Str.lower body) "inf" || String.eqb (Str.lower body) "infinity");
    [discriminate|].
  destruct (String.eqb (Str.lower body) "nan"); [discriminate|].
  destruct (digitpart 0 0 body) as [[ip ni] r1].
  destruct (match r1 with
            | String "." r => digitpart 0 0 r
            | _ => (0, 0%nat, r1)
            end) as [[fp nf] r2].
  destruct (Nat.eqb ni 0 && Nat.eqb nf 0); [congruence|].
  destruct (exponent r2) as [[ex [|c rest]]|]; congruence.
Qed.

(** X8.  The number parser returns [None] or a float, and the only
    exception it raises is [ValueError]. *)
Theorem parse_number_results (v : option string) (sep : string) :
  match parse_number v sep with
  | Ok x => x = PyNone \/ exists f, x = PyFloat f
  | Raise e => e = ValueError
  end.
Proof.
  unfold parse_number, with_clean.
  destruct (clean_nulls v) as [t|]; [|now left].
  unfold parse_number_body.
  match goal with |- context [py_float ?a] => destruct (py_float a) as [f|e0] eqn:E end;
    simpl.
  - right. eauto.
  - now apply py_float_exn in E.
Qed.

Lemma pattern_exn_fuel (n : nat) :
  forall (fmt : string) (b : bool) (e : exn),
    (String.length fmt <= n)%nat ->
    Strptime.pattern b fmt = Raise e -> e = ValueError.
Proof.
  induction n as [|n IH]; intros fmt b e Hlen.
  - destruct fmt; [discriminate|simpl in Hlen; lia].
  - destruct fmt as [|c fmt]; [discriminate|].
    simpl in Hlen.
    assert (Hbind : forall (b' : bool) (f : list Strptime.token -> result (list Strptime.token)) s,
               (String.length s <= n)%nat ->
               (forall ts, exists ts', f ts = Ok ts') ->
               bind (Strptime.pattern b' s) f = Raise e -> e = ValueError).
    { intros b' f s Hs Hf H.
      destruct (Strptime.pattern b' s) as [ts|e0] eqn:Ep; simpl in H.
      - destruct (Hf ts) as [ts' Hts]. congruence.
      - injection H as <-. now apply (IH s b'). }
    cbn [Strptime.pattern].
    destruct (Ascii.eqb c "%") eqn:Ec.
    + apply Ascii.eqb_eq in Ec. subst c.
      destruct fmt as [|d fmt]; [intros H; now injection H as <-|].
      simpl in Hlen.
      destruct (Ascii.eqb d "%").
      * apply Hbind; [lia|eauto].
      * destruct (Strptime.directive d); [|intros H; now injection H as <-].
        apply Hbind; [lia|eauto].
    + assert (Hc : c <> "%"%char) by (intros ->; now rewrite Ascii.eqb_refl in Ec).
      assert (Hgen : (if Str.is_space c
                      then let* ts := Strptime.pattern true fmt in
                           Ok (if b then ts else Strptime.Blank :: ts)
                      else let* ts := Strptime.pattern false fmt in
                           Ok (Strptime.Lit c :: ts)) = Raise e -> e = ValueError).
      { destruct (Str.is_space c); apply Hbind; try lia; eauto. }
      destruct c as [[] [] [] [] [] [] [] []]; try exact Hgen. now contradiction Hc.
Qed.

Lemma strptime_results (s : string) (format : option string) :
  (forall dt, Strptime.strptime s format = Ok dt -> Strptime.valid dt = true)
  /\ (forall e, Strptime.strptime s format = Raise e ->
                match format with
                | None => e = TypeError
                | Some _ => e = ValueError \/ e = ReError
                end).
Proof.
  unfold Strptime.strptime. destruct format as [f|].
  2:{ split; [discriminate|]. intros e H. now injection H as <-. }
  destruct (Strptime.pattern false f) as [ts|e0] eqn:Ep; simpl.
  2:{ split; [discriminate|]. intros e H. injection H as <-. left.
      now apply (pattern_exn_fuel _ f false e0 (Nat.le_refl _)). }
  destruct (Strptime.has_dup (Strptime.group_names ts)).
  { split; [discriminate|]. intros e H. injection H as <-. now right. }
  destruct (Strptime.match_tokens ts (Utf8.chars s) []) as [[found [|c rest]]|].
  - destruct (Strptime.valid _) eqn:Ev; split; try discriminate.
    + intros dt H. now injection H as <-.
    + intros e H. injection H as <-. now left.
  - split; [discriminate|]. intros e H. injection H as <-. now left.
  - split; [discriminate|]. intros e H. injection H as <-. now left.
Qed.

(** X9.  A temporal parser returns [None] or a datetime whose fields are
    those of a real date and time of day (year 1 to 9999, month 1 to 12, a
    day the month has, hour below 24, minute and second below 60).  With a
    format it raises only [ValueError] (or the error of the regular
    expression, for a format that repeats a directive); without a format
    it returns [None] for a null cell and raises [TypeError] for any
    other.  The three temporal parsers are the same function. *)
Theorem parse_date_results (v : option string) (fmt : option string) :
  match parse_date v fmt with
  | Ok x =>
      x = PyNone
      \/ exists dt, x = PyDatetime dt
           /\ 1 <= year dt <= 9999 /\ 1 <= month dt <= 12
           /\ 1 <= day dt <= Strptime.days_in_month (year dt) (month dt)
           /\ day dt <= 31
           /\ 0 <= hour dt <= 23 /\ 0 <= minute dt <= 59 /\ 0 <= second dt <= 59
  | Raise e =>
      match fmt with
      | None => e = TypeError
      | Some _ => e = ValueError \/ e = ReError
      end
  end
  /\ parse_date v None
     = match clean_nulls v with
       | None => Ok PyNone
       | Some _ => Raise TypeError
       end
  /\ parse_datetime v fmt = parse_date v fmt
  /\ parse_time v fmt = parse_date v fmt.
Proof.
  split; [|split; [|split; reflexivity]].
  - unfold parse_date, with_clean. destruct (clean_nulls v) as [t|]; [|now left].
    destruct (Strptime.strptime t fmt) as [dt|e0] eqn:E; simpl.
    + right. exists dt. split; [reflexivity|].
      apply (proj1 (strptime_results t fmt)) in E.
      unfold Strptime.valid in E. rewrite !andb_true_iff in E.
      assert (Hdim : Strptime.days_in_month (year dt) (month dt) <= 31).
      { unfold Strptime.days_in_month.
        destruct (month dt =? 2); [destruct (Strptime.is_leap (year dt)); lia|].
        destruct ((month dt =? 4) || (month dt =? 6) || (month dt =? 9) || (month dt =? 11));
          lia. }
      lia.
    + now apply (proj2 (strptime_results t fmt)).
  - unfold parse_date, with_clean. now destruct (clean_nulls v).
Qed.

(** ** parser.py: inference and streaming together *)

Lemma all_parse_nulls (fn : formatter) (fmt : string) (sample : list string) :
  (forall v fmt', clean_nulls (Some v) = None -> fn (Some v) fmt' = Ok PyNone) ->
  (forall v, In v sample -> clean_nulls (Some v) = None) ->
  all_parse fn fmt sample = true.
Proof.
  intros Hfn. induction sample as [|v sample IH]; intros H; simpl; [reflexivity|].
  rewrite Hfn by (apply H; now left). apply IH. intros w Hw. apply H. now right.
Qed.

(** X10.  A temporal column whose sampled cells are all null (or that has
    no sampled cell at all) takes the first candidate of its type: the
    rows after the sample are parsed with that format. *)
Theorem all_null_sample_takes_first_candidate (sample : list string) :
  (forall v, In v sample -> clean_nulls (Some v) = None) ->
  find_dt_format sample parse_date date_formats = Some "%Y-%m-%d"
  /\ find_dt_format sample parse_datetime datetime_formats = Some "%Y-%m-%d %H:%M:%S"
  /\ find_dt_format sample parse_time time_formats = Some "%H:%M:%S".
Proof.
  intros H.
  assert (Hfn : forall v fmt', clean_nulls (Some v) = None ->
                               parse_date (Some v) fmt' = Ok PyNone).
  { intros v fmt' Hv. now apply null_parses_under_any_format. }
  unfold date_formats, datetime_formats, time_formats. cbn [find_dt_format].
  change parse_datetime with parse_date. change parse_time with parse_date.
  rewrite !(all_parse_nulls parse_date) by assumption. auto.
Qed.

Lemma all_null_sample_takes_first_candidate_witness :
  find_dt_format [ ""; "N/A"; " - " ] parse_date date_formats = Some "%Y-%m-%d"
  /\ find_dt_format [ ""; "N/A"; " - " ] parse_datetime datetime_formats
     = Some "%Y-%m-%d %H:%M:%S"
  /\ find_dt_format [ ""; "N/A"; " - " ] parse_time time_formats = Some "%H:%M:%S".
Proof.
  apply all_null_sample_takes_first_candidate.
  intros v [<-|[<-|[<-|[]]]]; reflexivity.
Defined.

Lemma infer_formats_empty_sample (header : list HeaderColumn) :
  forall (idx : nat) (formats : dict (option string)),
    exists fs, infer_formats idx header [] formats = Ok fs.
Proof.
  induction header as [|col header IH]; intros idx formats; cbn [infer_formats col_sample bind].
  - eauto.
  - apply IH.
Qed.

(** X11.  An iterator without rows gives a generator without rows and
    without exception, whatever the header. *)
Theorem parse_iterator_of_no_rows (header : list HeaderColumn) :
  parse_iterator [] header = ([], None).
Proof.
  rewrite parse_iterator_unfold. cbn [firstn skipn app].
  destruct (infer_formats_empty_sample header 0 []) as [fs ->]. reflexivity.
Qed.

Lemma emit_rows_complete (formats : dict (option string)) (header : list HeaderColumn)
    (rows : list RawRow) :
  snd (emit_rows formats header rows) = None ->
  List.length (fst (emit_rows formats header rows)) = List.length rows.
Proof.
  induction rows as [|row rows IH]; cbn [emit_rows]; [reflexivity|].
  destruct (parse_row formats 0 header row []); [|discriminate].
  destruct (emit_rows formats header rows) as [out e]. cbn [fst snd] in *.
  intros H. cbn [List.length]. now rewrite IH.
Qed.

(** X12.  When the generator ends without an exception, it has emitted one
    typed row per raw row when the iterator gave at most a hundred rows,
    and one row less when it gave more. *)
Theorem parse_iterator_row_count (rows : list RawRow) (header : list HeaderColumn) :
  snd (parse_iterator rows header) = None ->
  List.length (fst (parse_iterator rows header))
  = if (List.length rows <=? 100)%nat then List.length rows
    else (List.length rows - 1)%nat.
Proof.
  rewrite parse_iterator_unfold.
  destruct (infer_formats 0 header (firstn 100 rows) []) as [fs|e]; [|discriminate].
  intros H. rewrite (emit_rows_complete _ _ _ H).
  rewrite length_app, length_firstn, length_skipn.
  destruct (List.length rows <=? 100)%nat eqn:E;
    [apply Nat.leb_le in E|apply Nat.leb_gt in E]; lia.
Qed.

Lemma parse_iterator_row_count_witness :
  List.length
    (fst (parse_iterator [ ["a"; "1"]; ["b"; "2,5"] ]
            [ mk_column "Name" "str" None; mk_column "Qty" "number" (Some ",") ]))
  = if (List.length [ ["a"; "1"]; ["b"; "2,5"] ] <=? 100)%nat
    then List.length [ ["a"; "1"]; ["b"; "2,5"] ]
    else (List.length [ ["a"; "1"]; ["b"; "2,5"] ] - 1)%nat.
Proof.
  apply (parse_iterator_row_count [ ["a"; "1"]; ["b"; "2,5"] ]
           [ mk_column "Name" "str" None; mk_column "Qty" "number" (Some ",") ]).
  vm_compute. reflexivity.
Defined.

Lemma dict_set_keys_new {V : Type} (d : dict V) (k : string) (v : V) :
  ~ In k (map fst d) -> map fst (dict_set d k v) = (map fst d ++ [k])%list.
Proof.
  induction d as [|[k' v'] d IH]; intros Hk; simpl; [reflexivity|].
  destruct (String.eqb k' k) eqn:E.
  - apply String.eqb_eq in E. subst. exfalso. apply Hk. now left.
  - simpl. f_equal. apply IH. intros H. apply Hk. now right.
Qed.

Lemma parse_row_keys (formats : dict (option string)) (header : list HeaderColumn) :
  forall (idx : nat) (row : RawRow) (acc d : TypedRow),
    parse_row formats idx header row acc = Ok d ->
    NoDup (map fst acc ++ map name header) ->
    map fst d = (map fst acc ++ map name header)%list.
Proof.
  induction header as [|col header IH]; intros idx row acc d H Hnd; simpl in H.
  - injection H as <-. simpl. now rewrite app_nil_r.
  - destruct (parse_cell formats col row idx) as [v|e]; simpl in H; [|discriminate].
    assert (Hk : ~ In (name col) (map fst acc)).
    { intros Hin. simpl in Hnd. apply NoDup_remove_2 in Hnd. apply Hnd.
      apply in_or_app. now left. }
    rewrite (IH _ _ _ _ H); rewrite (dict_set_keys_new _ _ _ Hk), <- app_assoc.
    + reflexivity.
    + exact Hnd.
Qed.

(** X13.  When the names of the header are distinct, every typed row
    emitted has exactly the names of the header as its keys, in the order
    of the header. *)
Theorem typed_row_keys_are_the_header_names
    (rows : list RawRow) (header : list HeaderColumn) (d : TypedRow) :
  NoDup (map name header) ->
  In d (fst (parse_iterator rows header)) ->
  map fst d = map name header.
Proof.
  intros Hnd. rewrite parse_iterator_unfold.
  destruct (infer_formats 0 header (firstn 100 rows) []) as [fs|e]; [|contradiction].
  intros Hd. apply emit_rows_parsed in Hd as (row & _ & Hrow).
  now apply parse_row_keys in Hrow.
Qed.

Lemma typed_row_keys_are_the_header_names_witness :
  map fst [ ("Name", PyStr "a"); ("Qty", PyFloat 1%float) ]
  = map name [ mk_column "Name" "str" None; mk_column "Qty" "number" (Some ".") ].
Proof.
  apply (typed_row_keys_are_the_header_names [ ["a"; "1"] ]).
  - repeat constructor; simpl; intuition discriminate.
  - vm_compute. auto.
Defined.

Lemma parse_row_raises_at (formats : dict (option string)) (header : list HeaderColumn) :
  forall (idx : nat) (row : RawRow) (acc : TypedRow) (col : HeaderColumn),
    In col header ->
    (forall i, exists e, parse_cell formats col row i = Raise e) ->
    exists e, parse_row formats idx header row acc = Raise e.
Proof.
  induction header as [|c header IH]; intros idx row acc col Hin Hcol; [contradiction|].
  cbn [parse_row].
  destruct (parse_cell formats c row idx) as [v|e] eqn:E; cbn [bind]; [|eauto].
  destruct Hin as [->|Hin].
  - destruct (Hcol idx) as [e He]. congruence.
  - now apply (IH _ _ _ col).
Qed.

(** X14.  A number column declared without [decimal_separator] makes the
    extraction of any table that has a row fail before a typed row is
    emitted: the lookup of the missing key raises for every row, null
    cells included. *)
Theorem number_column_needs_decimal_separator
    (rows : list RawRow) (header : list HeaderColumn) (col : HeaderColumn) :
  In col header -> type col = "number" -> decimal_separator col = None ->
  rows <> [] ->
  exists e, parse_iterator rows header = ([], Some e).
Proof.
  intros Hin Hty Hsep Hrows. rewrite parse_iterator_unfold.
  destruct (infer_formats 0 header (firstn 100 rows) []) as [fs|e]; [|eauto].
  destruct rows as [|row rows]; [contradiction|].
  cbn [firstn app emit_rows].
  destruct (parse_row_raises_at fs header 0 row [] col Hin) as [e He].
  - intros i. unfold parse_cell. rewrite Hty, Hsep. cbn.
    destruct (list_get row i); cbn; eauto.
  - rewrite He. eauto.
Qed.

Lemma number_column_needs_decimal_separator_witness :
  exists e,
    parse_iterator [ ["Widget"; "100"] ]
      [ mk_column "Product" "str" None; mk_column "Amount" "number" None ]
    = ([], Some e).
Proof.
  apply (number_column_needs_decimal_separator _ _ (mk_column "Amount" "number" None)).
  - simpl. auto.
  - reflexivity.
  - reflexivity.
  - discriminate.
Defined.

Lemma col_sample_cell (idx : nat) (sample : list RawRow) (cs : list string) :
  col_sample idx sample = Ok cs ->
  forall row, In row sample -> exists v, nth_error row idx = Some v /\ In v cs.
Proof.
  revert cs. induction sample as [|r sample IH]; cbn [col_sample]; intros cs H row Hin;
    [contradiction|].
  unfold list_get in H. destruct (nth_error r idx) as [x|] eqn:E; cbn [bind] in H; [|discriminate].
  destruct (col_sample idx sample) as [vs|]; cbn [bind] in H; [|discriminate].
  injection H as <-. destruct Hin as [<-|Hin].
  - exists x. split; [exact E|now left].
  - destruct (IH vs eq_refl row Hin) as (v & Hv & Hvs). exists v. split; [exact Hv|now right].
Qed.

(** X15.  The format inferred for a temporal column parses every cell of
    the column in the sample: once a format is recorded for the column
    (under a name no later column reuses), no row of the first hundred can
    raise at that column. *)
Theorem sampled_rows_parse_with_the_inferred_format
    (rows : list RawRow) (header : list HeaderColumn) (formats : dict (option string))
    (i : nat) (col : HeaderColumn) (fn : formatter) (fmts : list string)
    (fmt : string) (row : RawRow) :
  infer_formats 0 header (fst (get_sample_rows rows)) [] = Ok formats ->
  nth_error header i = Some col ->
  temporal (type col) = Some (fn, fmts) ->
  (forall j col', (i < j)%nat -> nth_error header j = Some col' -> name col' <> name col) ->
  dict_get formats (name col) = Ok (Some fmt) ->
  In row (fst (get_sample_rows rows)) ->
  In fmt fmts /\ exists x, parse_cell formats col row i = Ok x.
Proof.
  intros Hinf Hi Hty Hlater Hget Hrow.
  destruct (infer_formats_recorded _ _ _ _ _ _ _ _ _ Hinf Hi Hty Hlater) as (cs & Hcs & Hfs).
  cbn [Nat.add] in Hcs. rewrite Hget in Hfs. injection Hfs as Hfind. symmetry in Hfind.
  apply find_dt_format_some in Hfind as (pre & post & Hsplit & Hall & _).
  split; [rewrite Hsplit; apply in_or_app; right; now left|].
  destruct (col_sample_cell _ _ _ Hcs row Hrow) as (v & Hv & Hvcs).
  rewrite forallb_forall in Hall. specialize (Hall v Hvcs). unfold parses in Hall.
  destruct (temporal_some _ _ _ Hty) as [-> _].
  rewrite (parse_cell_temporal _ _ _ _ _ _ Hty).
  unfold list_get. rewrite Hv. cbn [bind]. rewrite Hget. cbn [bind].
  destruct (parse_date (Some v) (Some fmt)) as [x|]; [eauto|discriminate].
Qed.

Lemma sampled_rows_parse_with_the_inferred_format_witness :
  In "%d/%m/%Y" date_formats
  /\ exists x,
       parse_cell [ ("Date", Some "%d/%m/%Y") ] (mk_column "Date" "date" None)
         [ "25/12/2023"; "Widget" ] 0
       = Ok x.
Proof.
  apply (sampled_rows_parse_with_the_inferred_format
           [ [ "25/12/2023"; "Widget" ]; [ "01/02/2024"; "Gadget" ] ]
           [ mk_column "Date" "date" None; mk_column "Product" "str" None ]
           [ ("Date", Some "%d/%m/%Y") ] 0%nat (mk_column "Date" "date" None)
           parse_date date_formats "%d/%m/%Y" [ "25/12/2023"; "Widget" ]).
  - vm_compute. reflexivity.
  - reflexivity.
  - reflexivity.
  - intros [|[|[|j]]] col' Hlt Hj; simpl in Hj; try lia; try discriminate.
    injection Hj as <-. simpl. discriminate.
  - reflexivity.
  - simpl. auto.
Defined.

(** X16.  The typed rows are the raw rows in their order, each parsed with
    the formats inferred from the sample, up to the first row that raises:
    an exception of the inference comes before any row, an exception of a
    row ends the generator after the rows before it, and without an
    exception every row that was kept is emitted.  The rows kept are the
    first hundred and those after the hundred-and-first. *)
Theorem typed_rows_follow_raw_rows
    (rows : list RawRow) (header : list HeaderColumn)
    (out : list TypedRow) (e : option exn) :
  parse_iterator rows header = (out, e) ->
  let kept := (firstn 100 rows ++ skipn 101 rows)%list in
  match infer_formats 0 header (fst (get_sample_rows rows)) [] with
  | Raise x => out = [] /\ e = Some x
  | Ok formats =>
      map Ok out
      = map (fun row => parse_row formats 0 header row []) (firstn (List.length out) kept)
      /\ match e with
         | None => List.length out = List.length kept
         | Some x => exists row, nth_error kept (List.length out) = Some row
                                 /\ parse_row formats 0 header row [] = Raise x
         end
  end.
Proof.
  rewrite parse_iterator_unfold, get_sample_rows_spec. cbn [fst]. cbv zeta.
  destruct (infer_formats 0 header (firstn 100 rows) []) as [fs|x].
  - apply emit_rows_prefix.
  - intros H. injection H as <- <-. now split.
Qed.

Lemma typed_rows_follow_raw_rows_witness :
  let kept := (firstn 100 [ ["a"; "1"]; ["b"; "x"]; ["c"; "3"] ]
               ++ skipn 101 [ ["a"; "1"]; ["b"; "x"]; ["c"; "3"] ])%list in
  match infer_formats 0 [ mk_column "Name" "str" None; mk_column "Qty" "number" (Some ".") ]
          (fst (get_sample_rows [ ["a"; "1"]; ["b"; "x"]; ["c"; "3"] ])) [] with
  | Raise x => [ [ ("Name", PyStr "a"); ("Qty", PyFloat 1%float) ] ] = [] /\ Some ValueError = Some x
  | Ok formats =>
      map Ok [ [ ("Name", PyStr "a"); ("Qty", PyFloat 1%float) ] ]
      = map (fun row =>
               parse_row formats 0
                 [ mk_column "Name" "str" None; mk_column "Qty" "number" (Some ".") ] row [])
          (firstn (List.length [ [ ("Name", PyStr "a"); ("Qty", PyFloat 1%float) ] ]) kept)
      /\ exists row,
           nth_error kept (List.length [ [ ("Name", PyStr "a"); ("Qty", PyFloat 1%float) ] ])
           = Some row
           /\ parse_row formats 0
                [ mk_column "Name" "str" None; mk_column "Qty" "number" (Some ".") ] row []
              = Raise ValueError
  end.
Proof.
  apply (typed_rows_follow_raw_rows [ ["a"; "1"]; ["b"; "x"]; ["c"; "3"] ]
           [ mk_column "Name" "str" None; mk_column "Qty" "number" (Some ".") ]
           [ [ ("Name", PyStr "a"); ("Qty", PyFloat 1%float) ] ] (Some ValueError)).
  vm_compute. reflexivity.
Defined.

(** ** Tables of null cells *)

Lemma col_sample_ok (idx : nat) (sample : list RawRow) :
  (forall row, In row sample -> (idx < List.length row)%nat) ->
  exists cs, col_sample idx sample = Ok cs.
Proof.
  induction sample as [|row sample IH]; intros H; cbn [col_sample]; [eauto|].
  unfold list_get. destruct (nth_error row idx) as [v|] eqn:E.
  - destruct IH as [cs ->]; [intros r Hr; apply H; now right|]. cbn [bind]. eauto.
  - apply nth_error_None in E. specialize (H row (or_introl eq_refl)). lia.
Qed.

Lemma dict_set_keeps_keys {V : Type} (d : dict V) (k k' : string) (v : V) :
  (exists x, dict_get d k' = Ok x) -> exists x, dict_get (dict_set d k v) k' = Ok x.
Proof.
  intros H. destruct (string_dec k k') as [->|Hne].
  - rewrite dict_get_set_same. eauto.
  - now rewrite dict_get_set_other.
Qed.

Lemma infer_formats_keys (sample : list RawRow) (header : list HeaderColumn) :
  forall (idx : nat) (formats : dict (option string)),
    (forall row, In row sample -> (idx + List.length header <= List.length row)%nat) ->
    exists fs,
      infer_formats idx header sample formats = Ok fs
      /\ (forall k, (exists x, dict_get formats k = Ok x) -> exists x, dict_get fs k = Ok x)
      /\ (forall col, In col header -> temporal (type col) <> None ->
                      exists x, dict_get fs (name col) = Ok x).
Proof.
  induction header as [|col header IH]; intros idx formats Hw; cbn [infer_formats].
  - exists formats. split; [reflexivity|]. split; [auto|contradiction].
  - cbn [List.length] in Hw.
    destruct (col_sample_ok idx sample) as [cs ->];
      [intros row Hrow; specialize (Hw row Hrow); lia|].
    cbn [bind].
    match goal with
    | |- context [infer_formats (S idx) header sample ?f] => set (formats' := f)
    end.
    assert (Hkeep : forall k, (exists x, dict_get formats k = Ok x) ->
                              exists x, dict_get formats' k = Ok x).
    { intros k Hk. subst formats'.
      destruct (String.eqb (type col) "date"); [now apply dict_set_keeps_keys|].
      destruct (String.eqb (type col) "datetime"); [now apply dict_set_keeps_keys|].
      destruct (String.eqb (type col) "time"); [now apply dict_set_keeps_keys|].
      exact Hk. }
    assert (Hcol : temporal (type col) <> None -> exists x, dict_get formats' (name col) = Ok x).
    { intros Ht. subst formats'. unfold temporal in Ht.
      destruct (String.eqb (type col) "date"); [rewrite dict_get_set_same; eauto|].
      destruct (String.eqb (type col) "datetime"); [rewrite dict_get_set_same; eauto|].
      destruct (String.eqb (type col) "time"); [rewrite dict_get_set_same; eauto|].
      congruence. }
    destruct (IH (S idx) formats') as (fs & Hfs & Hk & Hc);
      [intros row Hrow; specialize (Hw row Hrow); lia|].
    exists fs. split; [exact Hfs|]. split; [auto|].
    intros c [<-|Hc'] Ht; [apply Hk, Hcol, Ht|now apply Hc].
Qed.

Lemma parse_row_of_nulls (formats : dict (option string)) (row : RawRow)
    (header : list HeaderColumn) :
  forall (idx : nat) (acc : TypedRow),
    (forall i col, nth_error header i = Some col ->
                   parse_cell formats col row (idx + i) = Ok PyNone) ->
    parse_row formats idx header row acc
    = Ok (fold_left (fun d col => dict_set d (name col) PyNone) header acc).
Proof.
  induction header as [|col header IH]; intros idx acc H; cbn [parse_row fold_left];
    [reflexivity|].
  pose proof (H 0%nat col eq_refl) as H0. rewrite Nat.add_0_r in H0. rewrite H0. cbn [bind].
  apply IH. intros i c Hi. replace (S idx + i)%nat with (idx + S i)%nat by lia.
  now apply H.
Qed.

Lemma emit_rows_of_nulls (formats : dict (option string)) (header : list HeaderColumn)
    (rows : list RawRow) :
  (forall row, In row rows -> parse_row formats 0 header row [] = Ok (none_row header)) ->
  emit_rows formats header rows = (map (fun _ => none_row header) rows, None).
Proof.
  induction rows as [|row rows IH]; intros H; cbn [emit_rows map]; [reflexivity|].
  rewrite H by now left. rewrite IH by (intros r Hr; apply H; now right). reflexivity.
Qed.

(** X17.  A table whose columns are all number columns (with their
    [decimal_separator]) or temporal columns, and whose cells are all of
    the null vocabulary, never raises: every row that is kept is emitted
    with [None] under every name. *)
Theorem table_of_nulls_gives_rows_of_None
    (rows : list RawRow) (header : list HeaderColumn) :
  (forall col, In col header ->
               (type col = "number" /\ decimal_separator col <> None)
               \/ temporal (type col) <> None) ->
  (forall row, In row rows ->
               (List.length header <= List.length row)%nat
               /\ forall i v, (i < List.length header)%nat -> nth_error row i = Some v ->
                              clean_nulls (Some v) = None) ->
  parse_iterator rows header
  = (map (fun _ => none_row header) (firstn 100 rows ++ skipn 101 rows)%list, None).
Proof.
  intros Hcols Hrows. rewrite parse_iterator_unfold.
  destruct (infer_formats_keys (firstn 100 rows) header 0 []) as (fs & -> & _ & Hkeys).
  { intros row Hrow. apply In_firstn_In in Hrow. apply Hrows in Hrow. simpl. lia. }
  apply emit_rows_of_nulls. intros row Hrow.
  assert (Hin : In row rows).
  { apply in_app_or in Hrow as [H|H]; [now apply In_firstn_In in H|now apply In_skipn_In in H]. }
  destruct (Hrows row Hin) as [Hw Hnull].
  apply parse_row_of_nulls. intros i col Hi. cbn [Nat.add].
  assert (Hlt : (i < List.length header)%nat) by (apply nth_error_Some; congruence).
  destruct (nth_error row i) as [v|] eqn:Ev; [|apply nth_error_None in Ev; lia].
  specialize (Hnull i v Hlt Ev).
  destruct (Hcols col (nth_error_In _ _ Hi)) as [[Hty Hsep]|Ht].
  - unfold parse_cell. rewrite Hty. cbn. unfold list_get. rewrite Ev. cbn [bind].
    destruct (decimal_separator col) as [sep|]; [|congruence]. cbn [bind].
    unfold parse_number, with_clean. now rewrite Hnull.
  - destruct (Hkeys col (nth_error_In _ _ Hi) Ht) as [f Hf].
    destruct (temporal (type col)) as [[fn fmts]|] eqn:E; [|congruence].
    rewrite (parse_cell_temporal _ _ _ _ _ _ E).
    unfold list_get. rewrite Ev. cbn [bind]. rewrite Hf. cbn [bind].
    now apply null_parses_under_any_format.
Qed.

Lemma table_of_nulls_gives_rows_of_None_witness :
  parse_iterator [ [""; "n/a"]; [" - "; "NULL"] ]
    [ mk_column "Amount" "number" (Some "."); mk_column "Date" "date" None ]
  = (map (fun _ => none_row [ mk_column "Amount" "number" (Some ".");
                              mk_column "Date" "date" None ])
       (firstn 100 [ [""; "n/a"]; [" - "; "NULL"] ]
        ++ skipn 101 [ [""; "n/a"]; [" - "; "NULL"] ])%list,
     None).
Proof.
  apply table_of_nulls_gives_rows_of_None.
  - intros col [<-|[<-|[]]]; [left; split; [reflexivity|discriminate]|right; discriminate].
  - intros row [<-|[<-|[]]]; (split; [simpl; lia|]);
      intros [|[|i]] v Hi Hv; simpl in Hi, Hv; try lia; injection Hv as <-; reflexivity.
Defined.

(** ** reader.py: the names of the header columns *)

Lemma replace_space_fuel (fuel : nat) :
  forall s : string,
    (String.length s <= fuel)%nat ->
    Str.replace_fuel fuel " " "_" s = spaces_to_underscores s.
Proof.
  induction fuel as [|fuel IH]; intros s Hlen.
  - destruct s; [reflexivity|simpl in Hlen; lia].
  - destruct s as [|c s]; [reflexivity|].
    simpl in Hlen. cbn [Str.replace_fuel Str.startswith spaces_to_underscores].
    rewrite andb_true_r.
    destruct (Ascii.eqb " " c); cbn [String.length Str.drop append]; rewrite IH by lia;
      reflexivity.
Qed.

Lemma replace_space (s : string) : Str.replace " " "_" s = spaces_to_underscores s.
Proof. unfold Str.replace. now apply replace_space_fuel. Qed.

Lemma underscores_no_space (s : string) :
  ~ In " "%char (list_ascii_of_string (spaces_to_underscores s)).
Proof.
  induction s as [|c s IH]; cbn [spaces_to_underscores list_ascii_of_string]; [tauto|].
  intros [H|H]; [|tauto].
  destruct (Ascii.eqb " " c) eqn:E; [discriminate|].
  subst c. now rewrite Ascii.eqb_refl in E.
Qed.

Lemma underscores_fixed (s : string) :
  ~ In " "%char (list_ascii_of_string s) -> spaces_to_underscores s = s.
Proof.
  induction s as [|c s IH]; cbn [spaces_to_underscores list_ascii_of_string]; [reflexivity|].
  intros H. rewrite IH by (intros Hin; apply H; now right).
  destruct (Ascii.eqb " " c) eqn:E; [|reflexivity].
  apply Ascii.eqb_eq in E. subst c. exfalso. apply H. now left.
Qed.

Lemma chars_bytes (s : string) :
  (forall c, In c (list_ascii_of_string s) -> Utf8.is_cont c = false) ->
  Utf8.chars s = map (fun c => String c "") (list_ascii_of_string s).
Proof.
  induction s as [|c s IH]; intros H; [reflexivity|].
  cbn [Utf8.chars list_ascii_of_string map].
  rewrite IH by (intros d Hd; apply H; now right).
  destruct s as [|d s]; [reflexivity|]. cbn [list_ascii_of_string map Utf8.starts_with_cont].
  now rewrite (H d) by (right; now left).
Qed.

Lemma is_whitespace_byte (c : ascii) : Str.is_whitespace (String c "") = Str.is_space c.
Proof. destruct c as [[] [] [] [] [] [] [] []]; vm_compute; reflexivity. Qed.

(** A text of ASCII characters that are not whitespace is trimmed. *)
Lemma strip_fixed (s : string) :
  (forall c, In c (list_ascii_of_string s) ->
             Str.is_space c = false /\ Utf8.is_cont c = false) ->
  Str.strip s = s.
Proof.
  intros H. unfold Str.strip.
  assert (Hw : Forall (fun x => Str.is_whitespace x = false) (Utf8.chars s)).
  { rewrite chars_bytes by (intros c Hc; now apply H).
    apply Forall_forall. intros x Hx. apply in_map_iff in Hx as (c & <- & Hc).
    rewrite is_whitespace_byte. now apply H. }
  rewrite lstrip_lstripped.
  - rewrite rstrip_not_whitespace by exact Hw. apply join_chars.
  - destruct Hw as [|x l Hx _]; [reflexivity|]. cbn [lstripped]. now rewrite Hx.
Qed.

Lemma uint_digits (d : Decimal.uint) (c : ascii) :
  In c (list_ascii_of_string (NilEmpty.string_of_uint d)) -> Str.is_digit c = true.
Proof.
  induction d; cbn [NilEmpty.string_of_uint list_ascii_of_string]; intros H;
    [contradiction|..]; (destruct H as [H|H]; [subst c; reflexivity|auto]).
Qed.

Lemma digit_not_blank (c : ascii) :
  Str.is_digit c = true -> Str.is_space c = false /\ Utf8.is_cont c = false.
Proof. destruct c as [[] [] [] [] [] [] [] []]; try discriminate; now split. Qed.

(** The characters of a placeholder name: letters, the underscore, digits
    and the sign. *)
Lemma placeholder_chars (k : Z) (c : ascii) :
  In c (list_ascii_of_string ("column_" ++ str_of_int k)) ->
  Str.is_space c = false /\ Utf8.is_cont c = false.
Proof.
  cbn [append list_ascii_of_string].
  intros [H|[H|[H|[H|[H|[H|[H|H]]]]]]]; try (subst c; now split).
  unfold str_of_int in H. destruct (Z.to_int k) as [d|d];
    cbn [NilEmpty.string_of_int list_ascii_of_string] in H.
  - now apply digit_not_blank, (uint_digits d).
  - destruct H as [H|H]; [subst c; now split|].
    now apply digit_not_blank, (uint_digits d).
Qed.

Lemma normalize_name_clean (k : Z) (n : string) :
  normalize_name k n <> ""
  /\ ~ In " "%char (list_ascii_of_string (normalize_name k n)).
Proof.
  unfold normalize_name. rewrite replace_space.
  destruct (String.eqb (spaces_to_underscores (Str.strip n)) "") eqn:E.
  - split; [discriminate|]. intros H.
    apply placeholder_chars in H as [H _]. discriminate H.
  - split; [|apply underscores_no_space].
    intros H. rewrite H in E. discriminate.
Qed.

(** X18.  After the loop of [read] over the header columns, every column
    has a name that is not empty and holds no space; the types and the
    decimal separators of the columns, their number and their order are
    unchanged. *)
Theorem normalized_header_names (k : Z) (header : list HeaderColumn) :
  map type (normalize_columns k header) = map type header
  /\ map decimal_separator (normalize_columns k header) = map decimal_separator header
  /\ Forall (fun col => name col <> ""
                        /\ ~ In " "%char (list_ascii_of_string (name col)))
       (normalize_columns k header).
Proof.
  revert k. induction header as [|col header IH]; intros k; cbn [normalize_columns map].
  - repeat split. constructor.
  - destruct (IH (k + 1)) as (Ht & Hs & Hn). repeat split.
    + now rewrite Ht.
    + now rewrite Hs.
    + constructor; [apply normalize_name_clean|exact Hn].
Qed.

Lemma underscores_append (s t : string) :
  spaces_to_underscores (s ++ t) = spaces_to_underscores s ++ spaces_to_underscores t.
Proof.
  induction s as [|c s IH]; [reflexivity|].
  cbn [append spaces_to_underscores]. now rewrite IH.
Qed.

Lemma underscores_join (l : list string) :
  spaces_to_underscores (Utf8.join l) = Utf8.join (map spaces_to_underscores l).
Proof.
  induction l as [|ch l IH]; [reflexivity|].
  cbn [Utf8.join map]. now rewrite underscores_append, IH.
Qed.

Lemma underscores_starts_with_cont (s : string) :
  Utf8.starts_with_cont (spaces_to_underscores s) = Utf8.starts_with_cont s.
Proof.
  destruct s as [|c s]; [reflexivity|]. cbn [spaces_to_underscores Utf8.starts_with_cont].
  destruct (Ascii.eqb_spec " "%char c) as [<-|_]; reflexivity.
Qed.

(** The replacement changes one-byte characters only: the characters of
    the result are those of the text, each with its spaces replaced. *)
Lemma underscores_chars (s : string) :
  Utf8.chars (spaces_to_underscores s) = map spaces_to_underscores (Utf8.chars s).
Proof.
  induction s as [|c s IH]; [reflexivity|].
  cbn [spaces_to_underscores Utf8.chars]. rewrite IH.
  destruct (Utf8.chars s) as [|ch rest]; [reflexivity|]. cbn [map].
  rewrite underscores_starts_with_cont.
  now destruct (Utf8.starts_with_cont ch).
Qed.

Lemma underscores_eq (s : string) :
  forall t : string,
    spaces_to_underscores s = t ->
    forallb (fun c => negb (Ascii.eqb c "_")) (list_ascii_of_string t) = true ->
    s = t.
Proof.
  induction s as [|c s IH]; intros [|d t] E H; try discriminate; [reflexivity|].
  cbn [spaces_to_underscores] in E.
  assert (Ec : (if Ascii.eqb " " c then "_"%char else c) = d) by congruence.
  assert (Es : spaces_to_underscores s = t) by congruence.
  cbn [list_ascii_of_string forallb] in H. apply andb_prop in H as [Hd Ht].
  f_equal; [|now apply IH].
  destruct (Ascii.eqb " " c); [|exact Ec]. subst d. discriminate Hd.
Qed.

Lemma whitespace_encoding (ch : string) :
  Str.is_whitespace ch = true -> In ch (map Utf8.encode Unicode.whitespace).
Proof.
  unfold Str.is_whitespace, Utf8.decode.
  match goal with |- context [String.eqb (Utf8.encode ?n) ch] => set (k := n) end.
  destruct (String.eqb (Utf8.encode k) ch) eqn:Ek; [|discriminate].
  apply String.eqb_eq in Ek. intros H. apply existsb_exists in H as (m & Hm & E).
  apply N.eqb_eq in E. subst m. rewrite <- Ek. now apply in_map.
Qed.

Lemma whitespace_no_underscore :
  forallb (fun ch => forallb (fun c => negb (Ascii.eqb c "_")) (list_ascii_of_string ch))
    (map Utf8.encode Unicode.whitespace) = true.
Proof. vm_compute. reflexivity. Qed.

Lemma underscores_not_whitespace (ch : string) :
  Str.is_whitespace ch = false -> Str.is_whitespace (spaces_to_underscores ch) = false.
Proof.
  intros H. destruct (Str.is_whitespace (spaces_to_underscores ch)) eqn:E; [|reflexivity].
  pose proof (whitespace_encoding _ E) as Hin.
  pose proof (proj1 (forallb_forall _ _) whitespace_no_underscore _ Hin) as Hu.
  rewrite <- (underscores_eq ch _ eq_refl Hu) in E. congruence.
Qed.

Lemma underscores_lstripped (l : list string) :
  lstripped l = true -> lstripped (map spaces_to_underscores l) = true.
Proof.
  destruct l as [|ch l]; [reflexivity|]. cbn [map lstripped].
  destruct (Str.is_whitespace ch) eqn:E; [discriminate|].
  now rewrite underscores_not_whitespace.
Qed.

Lemma underscores_rstripped (l : list string) :
  Str.rstrip_chars l = l ->
  Str.rstrip_chars (map spaces_to_underscores l) = map spaces_to_underscores l.
Proof.
  induction l as [|ch l IH]; [reflexivity|]. intros H.
  apply rstrip_cons_fixed in H as [[-> Hw]|[Hne Hl]]; cbn [map Str.rstrip_chars].
  - now rewrite underscores_not_whitespace.
  - rewrite IH by exact Hl. destruct l; [congruence|reflexivity].
Qed.

(** X19.  The naming of a column is idempotent: a name that the loop of
    [read] produced is left as it is when the loop runs on it again at the
    same position. *)
Theorem normalize_name_idempotent (k : Z) (n : string) :
  normalize_name k (normalize_name k n) = normalize_name k n.
Proof.
  assert (Hfix : forall t, t <> "" -> Str.strip t = t ->
                           ~ In " "%char (list_ascii_of_string t) ->
                           normalize_name k t = t).
  { intros t Hne Hstrip Hsp. unfold normalize_name.
    rewrite Hstrip, replace_space, underscores_fixed by exact Hsp.
    destruct (String.eqb t "") eqn:E; [|reflexivity].
    apply String.eqb_eq in E. contradiction. }
  destruct (normalize_name_clean k n) as [Hne Hsp].
  apply Hfix; [exact Hne| |exact Hsp].
  unfold normalize_name in *. rewrite replace_space in *.
  destruct (String.eqb (spaces_to_underscores (Str.strip n)) "").
  - apply strip_fixed. apply placeholder_chars.
  - unfold Str.strip at 1. rewrite underscores_chars, chars_strip.
    rewrite lstrip_lstripped
      by apply underscores_lstripped, lstripped_rstrip, lstripped_lstrip.
    rewrite underscores_rstripped by apply rstrip_idem.
    now rewrite <- underscores_join.
Qed.

Example normalize_columns_sample :
  normalize_columns 0
    [ mk_column " Purchase date " "date" None; mk_column "   " "str" None;
      mk_column "Amount" "number" (Some ".") ]
  = [ mk_column "Purchase_date" "date" None; mk_column "column_2" "str" None;
      mk_column "Amount" "number" (Some ".") ].
Proof. reflexivity. Qed.

(** ** csv.py and xls.py: the extent of a source *)

Lemma max_row_loop_spec {A : Type} (has_data : A -> bool) (rows : list A) :
  forall i m : Z,
    (max_row_loop has_data i m rows = m
     /\ forall row, In row rows -> has_data row = false)
    \/ exists (j : nat) (row : A),
         nth_error rows j = Some row /\ has_data row = true
         /\ max_row_loop has_data i m rows = i + Z.of_nat j
         /\ forall j' row', (j < j')%nat -> nth_error rows j' = Some row' ->
                            has_data row' = false.
Proof.
  induction rows as [|row rows IH]; intros i m; cbn [max_row_loop].
  - left. split; [reflexivity|contradiction].
  - destruct (IH (i + 1) (if has_data row then i else m))
      as [[Hr Hnone]|(j & r & Hj & Hd & Hr & Hafter)].
    + destruct (has_data row) eqn:E.
      * right. exists 0%nat, row. repeat split; auto; [lia|].
        intros [|j'] row' Hlt Hj'; [lia|]. apply Hnone.
        cbn [nth_error] in Hj'. apply (nth_error_In _ _ Hj').
      * left. split; [exact Hr|]. intros r [<-|Hin]; auto.
    + right. exists (S j), r. repeat split; auto; [lia|].
      intros [|j'] row' Hlt Hj'; [lia|]. apply (Hafter j'); [lia|exact Hj'].
Qed.

(** X20.  [_get_max_row_with_data] of the delimited-text source returns
    the index of the last row that has a cell, where a cell that holds the
    empty string counts like any other, and 0 when no row has a cell: every
    row after it has no cell at all. *)
Theorem csv_max_row_with_data (reader : list RawRow) :
  let m := CsvContent._get_max_row_with_data reader in
  ((forall row, In row reader -> row = []) -> m = 0)
  /\ ((exists row, In row reader /\ row <> []) ->
      0 <= m < Z.of_nat (List.length reader)
      /\ exists row, nth_error reader (Z.to_nat m) = Some row /\ row <> [])
  /\ (forall j row, m < Z.of_nat j -> nth_error reader j = Some row -> row = []).
Proof.
  cbv zeta. unfold CsvContent._get_max_row_with_data.
  assert (Hd : forall row : list string, CsvContent.has_data row = false <-> row = []).
  { intros [|c row]; split; try reflexivity; discriminate. }
  destruct (max_row_loop_spec CsvContent.has_data reader 0 0)
    as [[-> Hnone]|(j & r & Hj & Hdr & -> & Hafter)].
  - split; [reflexivity|]. split.
    + intros (row & Hin & Hne). apply Hnone, Hd in Hin. contradiction.
    + intros j row _ Hjr. apply Hd, Hnone. apply (nth_error_In _ _ Hjr).
  - assert (Hr : r <> []) by (intros ->; discriminate).
    split; [|split].
    + intros Hall. exfalso. apply Hr, Hall. apply (nth_error_In _ _ Hj).
    + intros _. split.
      * pose proof (proj1 (nth_error_Some reader j)) as Hlt.
        rewrite Hj in Hlt. specialize (Hlt ltac:(discriminate)). lia.
      * exists r. replace (Z.to_nat (0 + Z.of_nat j)) with j by lia. now split.
    + intros j' row Hlt Hj'. apply Hd. apply (Hafter j'); [lia|exact Hj'].
Qed.

Lemma csv_max_row_with_data_witness :
  0 <= CsvContent._get_max_row_with_data [ ["Name"]; [""; ""]; []; [] ]
    < Z.of_nat (List.length [ ["Name"]; [""; ""]; []; [] ])
  /\ exists row,
       nth_error [ ["Name"]; [""; ""]; []; [] ]
         (Z.to_nat (CsvContent._get_max_row_with_data [ ["Name"]; [""; ""]; []; [] ]))
       = Some row
       /\ row <> [].
Proof.
  apply (proj1 (proj2 (csv_max_row_with_data [ ["Name"]; [""; ""]; []; [] ]))).
  exists ["Name"]. split; [simpl; auto|discriminate].
Defined.

(** X21.  [_get_max_row_with_data] of the workbook source returns the
    index of the last row that has a cell with a value, and 0 when no cell
    of the sheet has a value: every row after it holds only empty cells. *)
Theorem xls_max_row_with_data (ws : worksheet) :
  let m := XlsContent._get_max_row_with_data ws in
  ((forall row, In row ws -> Forall (fun cell => cell = None) row) -> m = 0)
  /\ ((exists row cell, In row ws /\ In (Some cell) row) ->
      0 <= m < Z.of_nat (List.length ws)
      /\ exists row cell, nth_error ws (Z.to_nat m) = Some row /\ In (Some cell) row)
  /\ (forall j row, m < Z.of_nat j -> nth_error ws j = Some row ->
                    Forall (fun cell => cell = None) row).
Proof.
  cbv zeta. unfold XlsContent._get_max_row_with_data.
  assert (Hd : forall row : list (option string),
             XlsContent.has_data row = false <-> Forall (fun cell => cell = None) row).
  { intros row. unfold XlsContent.has_data. induction row as [|[t|] row IH]; cbn [existsb].
    - split; [constructor|reflexivity].
    - split; [discriminate|]. intros H. inversion H. discriminate.
    - cbn [orb]. rewrite IH. split; [now constructor|]. intros H. now inversion H. }
  assert (Hs : forall row : list (option string),
             XlsContent.has_data row = true <-> exists cell, In (Some cell) row).
  { intros row. unfold XlsContent.has_data. rewrite existsb_exists. split.
    - intros ([t|] & Hin & H); [eauto|discriminate].
    - intros (t & Hin). exists (Some t). now split. }
  destruct (max_row_loop_spec XlsContent.has_data ws 0 0)
    as [[-> Hnone]|(j & r & Hj & Hdr & -> & Hafter)].
  - split; [reflexivity|]. split.
    + intros (row & cell & Hin & Hc). apply Hnone in Hin.
      assert (Ht : XlsContent.has_data row = true) by (apply Hs; eauto). congruence.
    + intros j row _ Hjr. apply Hd, Hnone. apply (nth_error_In _ _ Hjr).
  - apply Hs in Hdr as [cell Hcell]. split; [|split].
    + intros Hall. exfalso. specialize (Hall r (nth_error_In _ _ Hj)).
      rewrite Forall_forall in Hall. specialize (Hall _ Hcell). discriminate.
    + intros _. split.
      * pose proof (proj1 (nth_error_Some ws j)) as Hlt.
        rewrite Hj in Hlt. specialize (Hlt ltac:(discriminate)). lia.
      * exists r, cell. replace (Z.to_nat (0 + Z.of_nat j)) with j by lia. now split.
    + intros j' row Hlt Hj'. apply Hd. apply (Hafter j'); [lia|exact Hj'].
Qed.

Lemma xls_max_row_with_data_witness :
  0 <= XlsContent._get_max_row_with_data [ [Some "Name"]; [None; Some "a"]; [None; None]; [] ]
    < Z.of_nat (List.length [ [Some "Name"]; [None; Some "a"]; [None; None]; [] ])
  /\ exists row cell,
       nth_error [ [Some "Name"]; [None; Some "a"]; [None; None]; [] ]
         (Z.to_nat (XlsContent._get_max_row_with_data
                      [ [Some "Name"]; [None; Some "a"]; [None; None]; [] ]))
       = Some row
       /\ In (Some cell) row.
Proof.
  apply (proj1 (proj2 (xls_max_row_with_data
                         [ [Some "Name"]; [None; Some "a"]; [None; None]; [] ]))).
  exists [Some "Name"], "Name". split; simpl; auto.
Defined.

(** ** csv.py and xls.py: the preview of a long source *)

Lemma skipn_cons_nth {A : Type} (l : list A) :
  forall (n : nat) (a : A), nth_error l n = Some a -> skipn n l = a :: skipn (S n) l.
Proof.
  induction l as [|x l IH]; intros [|n] a H; try discriminate.
  - now injection H as <-.
  - cbn [nth_error] in H. cbn [skipn]. now apply IH.
Qed.

Lemma csv_full_rows (reader : list RawRow) :
  forall idx : Z,
    CsvContent.full_rows idx reader
    = map (fun p => CsvContent._get_row_str (fst p) (snd p)) (enumerate_from idx reader).
Proof.
  induction reader as [|row reader IH]; intros idx;
    cbn [CsvContent.full_rows enumerate_from map fst snd]; [reflexivity|].
  now rewrite IH.
Qed.

Lemma csv_preview_tail (rc : Z) (reader : list RawRow) :
  forall idx : Z,
    20 < idx -> rc - 20 <= idx ->
    CsvContent.preview_rows idx rc reader
    = map (fun p => CsvContent._get_row_str (fst p) (snd p)) (enumerate_from idx reader).
Proof.
  induction reader as [|row reader IH]; intros idx H1 H2;
    cbn [CsvContent.preview_rows enumerate_from map fst snd]; [reflexivity|].
  replace (idx <? 20) with false by lia. replace (idx =? 20) with false by lia.
  replace (rc - 20 <=? idx) with true by lia. now rewrite IH by lia.
Qed.

Lemma csv_preview_middle (rc : Z) (reader : list RawRow) :
  forall idx : Z,
    20 < idx -> idx <= rc - 20 ->
    CsvContent.preview_rows idx rc reader
    = map (fun p => CsvContent._get_row_str (fst p) (snd p))
        (enumerate_from (rc - 20) (skipn (Z.to_nat (rc - 20 - idx)) reader)).
Proof.
  induction reader as [|row reader IH]; intros idx H1 H2.
  - now rewrite skipn_nil.
  - destruct (Z.eq_dec idx (rc - 20)) as [->|Hne].
    + replace (Z.to_nat (rc - 20 - (rc - 20))) with 0%nat by lia.
      cbn [skipn]. apply csv_preview_tail; lia.
    + cbn [CsvContent.preview_rows].
      replace (idx <? 20) with false by lia. replace (idx =? 20) with false by lia.
      replace (rc - 20 <=? idx) with false by lia.
      rewrite IH by lia.
      replace (Z.to_nat (rc - 20 - idx)) with (S (Z.to_nat (rc - 20 - (idx + 1)))) by lia.
      reflexivity.
Qed.

Lemma csv_preview_head (rc : Z) (reader : list RawRow) :
  forall idx : Z,
    0 <= idx <= 20 ->
    CsvContent.preview_rows idx rc reader
    = (map (fun p => CsvContent._get_row_str (fst p) (snd p))
         (enumerate_from idx (firstn (Z.to_nat (20 - idx)) reader))
       ++ match skipn (Z.to_nat (20 - idx)) reader with
          | [] => []
          | _ :: rest => elision :: CsvContent.preview_rows 21 rc rest
          end)%list.
Proof.
  induction reader as [|row reader IH]; intros idx Hidx.
  - now rewrite firstn_nil, skipn_nil.
  - cbn [CsvContent.preview_rows].
    destruct (Z.eq_dec idx 20) as [->|Hne].
    + cbn. reflexivity.
    + replace (idx <? 20) with true by lia.
      rewrite IH by lia.
      replace (Z.to_nat (20 - idx)) with (S (Z.to_nat (20 - (idx + 1)))) by lia.
      reflexivity.
Qed.

(** X22.  For a file with more than 200 rows up to its last row with data
    (the two readings of the file giving the same rows), the content that
    [get_csv_content] builds is four heading lines, the first 20 rows, the
    elision line in place of row 20, and the rows from index
    [row_count - 20] on, every row under its own index; the rows 20 to
    [row_count - 21] are left out. *)
Theorem csv_preview_of_a_long_file (file_path : string) (rows : list RawRow) :
  200 < CsvContent._get_max_row_with_data rows + 1 ->
  let row_count := CsvContent._get_max_row_with_data rows + 1 in
  let line := fun p : Z * list string => CsvContent._get_row_str (fst p) (snd p) in
  CsvContent.content file_path rows rows
  = ([ ("CSV file: " ++ file_path)%string; ("Total rows: " ++ str_of_int row_count)%string;
       "CSV file preview (only first and last 20 rows):";
       "--------------------------------" ]
     ++ map line (enumerate_from 0 (firstn 20 rows))
     ++ [ elision ]
     ++ map line (enumerate_from (row_count - 20)
                    (skipn (Z.to_nat (row_count - 20)) rows)))%list.
Proof.
  intros Hlong. cbv zeta. unfold CsvContent.content.
  replace (200 <? CsvContent._get_max_row_with_data rows + 1) with true by lia.
  set (rc := CsvContent._get_max_row_with_data rows + 1) in *.
  cbn [app]. do 4 f_equal.
  assert (Hlen : (200 < List.length rows)%nat).
  { unfold rc, CsvContent._get_max_row_with_data in Hlong.
    destruct (max_row_loop_spec CsvContent.has_data rows 0 0)
      as [[Hr _]|(j & r & Hj & _ & Hr & _)]; rewrite Hr in Hlong; [lia|].
    pose proof (proj1 (nth_error_Some rows j)) as Hlt.
    rewrite Hj in Hlt. specialize (Hlt ltac:(discriminate)). lia. }
  rewrite (csv_preview_head rc rows 0) by lia.
  replace (Z.to_nat (20 - 0)) with 20%nat by lia. f_equal.
  destruct (nth_error rows 20) as [r20|] eqn:E; [|apply nth_error_None in E; lia].
  rewrite (skipn_cons_nth _ _ _ E). cbn [app]. f_equal.
  rewrite csv_preview_middle by lia.
  rewrite skipn_skipn. do 3 f_equal. lia.
Qed.

Lemma csv_preview_of_a_long_file_witness :
  let rows := numbered_file 205 in
  let row_count := CsvContent._get_max_row_with_data rows + 1 in
  let line := fun p : Z * list string => CsvContent._get_row_str (fst p) (snd p) in
  CsvContent.content "sales.csv" rows rows
  = ([ ("CSV file: " ++ "sales.csv")%string; ("Total rows: " ++ str_of_int row_count)%string;
       "CSV file preview (only first and last 20 rows):";
       "--------------------------------" ]
     ++ map line (enumerate_from 0 (firstn 20 rows))
     ++ [ elision ]
     ++ map line (enumerate_from (row_count - 20)
                    (skipn (Z.to_nat (row_count - 20)) rows)))%list.
Proof.
  apply (csv_preview_of_a_long_file "sales.csv" (numbered_file 205)).
  vm_compute. reflexivity.
Defined.

Lemma xls_row_lines_zrange (label : Z -> Z) (g : Z -> list (option string)) (n : nat) :
  forall lo hi k : Z,
    Z.to_nat (hi - lo + 1) = n ->
    XlsContent.row_lines label k (map g (zrange lo hi))
    = map (fun r => XlsContent._get_row_str (label (r - lo + k)) (g r)) (zrange lo hi).
Proof.
  induction n as [|n IH]; intros lo hi k Hn.
  - rewrite zrange_nil by lia. reflexivity.
  - rewrite zrange_cons by lia. cbn [map XlsContent.row_lines].
    f_equal; [f_equal; f_equal; lia|].
    rewrite (IH (lo + 1) hi (k + 1)) by lia.
    apply map_ext. intros r. f_equal. f_equal. lia.
Qed.

Lemma zrange_shift {B : Type} (F : Z -> B) (lo hi : Z) :
  map (fun r => F (r - 1)) (zrange lo hi) = map F (zrange (lo - 1) (hi - 1)).
Proof.
  unfold zrange. rewrite !map_map.
  replace (Z.to_nat (hi - 1 - (lo - 1) + 1)) with (Z.to_nat (hi - lo + 1)) by lia.
  apply map_ext. intros i. f_equal. lia.
Qed.

(** X23.  For a sheet with more than 200 rows up to its last row with
    data, the content that [get_sheet_content] builds is five heading
    lines, the first 20 rows, the elision line, and the last 21 rows up to
    the last row with data, every row under its own index counted from 0
    and padded to the last column of the sheet; the rows 20 to
    [row_count - 22] are left out. *)
Theorem xls_preview_of_a_long_sheet
    (file_path sheet_name : string) (ws : worksheet) (max_column : Z) :
  200 < XlsContent._get_max_row_with_data ws + 1 ->
  let row_count := XlsContent._get_max_row_with_data ws + 1 in
  let line := fun i : Z =>
    XlsContent._get_row_str i (map (cell_value ws (i + 1)) (zrange 1 max_column)) in
  XlsContent.content file_path sheet_name ws max_column
  = ([ ("Excel file: " ++ file_path)%string; ("Sheet: " ++ sheet_name)%string;
       ("Total rows: " ++ str_of_int row_count)%string;
       "Sheet preview (only first and last 20 rows):";
       "--------------------------------" ]
     ++ map line (zrange 0 19)
     ++ [ elision ]
     ++ map line (zrange (row_count - 21) (row_count - 1)))%list.
Proof.
  intros Hlong. cbv zeta. unfold XlsContent.content.
  replace (200 <? XlsContent._get_max_row_with_data ws + 1) with true by lia.
  assert (Hlen : XlsContent._get_max_row_with_data ws + 1 <= Z.of_nat (List.length ws)).
  { unfold XlsContent._get_max_row_with_data in *.
    destruct (max_row_loop_spec XlsContent.has_data ws 0 0)
      as [[Hr _]|(j & r & Hj & _ & Hr & _)]; rewrite Hr in *; [lia|].
    pose proof (proj1 (nth_error_Some ws j)) as Hlt.
    rewrite Hj in Hlt. specialize (Hlt ltac:(discriminate)). lia. }
  set (rc := XlsContent._get_max_row_with_data ws + 1) in *.
  cbn [app]. do 5 f_equal.
  unfold cells_by_row.
  rewrite (Z.min_l 20) by lia. rewrite (Z.min_l rc) by lia.
  rewrite (xls_row_lines_zrange _ _ _ 1 20 0 eq_refl).
  rewrite (xls_row_lines_zrange _ _ _ (rc - 20) rc 0 eq_refl).
  apply (f_equal2 (@app string)); [|apply (f_equal (cons elision))].
  - change (zrange 0 19) with (zrange (1 - 1) (20 - 1)).
    rewrite <- (zrange_shift
                  (fun i => XlsContent._get_row_str i
                              (map (cell_value ws (i + 1)) (zrange 1 max_column))) 1 20).
    apply map_ext. intros r. f_equal; [lia|]. f_equal. f_equal. lia.
  - replace (rc - 21) with (rc - 20 - 1) by lia.
    rewrite <- (zrange_shift
                  (fun i => XlsContent._get_row_str i
                              (map (cell_value ws (i + 1)) (zrange 1 max_column)))
                  (rc - 20) rc).
    apply map_ext. intros r. f_equal; [lia|]. f_equal. f_equal. lia.
Qed.

Lemma xls_preview_of_a_long_sheet_witness :
  let ws := map (map Some) (numbered_file 205) in
  let row_count := XlsContent._get_max_row_with_data ws + 1 in
  let line := fun i : Z =>
    XlsContent._get_row_str i (map (cell_value ws (i + 1)) (zrange 1 1)) in
  XlsContent.content "sales.xlsx" "sales" ws 1
  = ([ ("Excel file: " ++ "sales.xlsx")%string; ("Sheet: " ++ "sales")%string;
       ("Total rows: " ++ str_of_int row_count)%string;
       "Sheet preview (only first and last 20 rows):";
       "--------------------------------" ]
     ++ map line (zrange 0 19)
     ++ [ elision ]
     ++ map line (zrange (row_count - 21) (row_count - 1)))%list.
Proof.
  apply (xls_preview_of_a_long_sheet "sales.xlsx" "sales"
           (map (map Some) (numbered_file 205)) 1).
  vm_compute. reflexivity.
Defined.

(** The two previews of the same 205 rows: the delimited-text preview
    ends with the rows 185 to 204, the workbook preview with the rows 184
    to 204. *)
Example previews_of_205_rows :
  List.length (CsvContent.content "f" (numbered_file 205) (numbered_file 205)) = 45%nat
  /\ List.length (XlsContent.content "f" "s" (map (map Some) (numbered_file 205)) 1) = 47%nat
  /\ nth_error (CsvContent.content "f" (numbered_file 205) (numbered_file 205)) 25
     = Some "Row 185: 185"
  /\ nth_error (XlsContent.content "f" "s" (map (map Some) (numbered_file 205)) 1) 26
     = Some "Row 184: 184".
Proof. vm_compute. repeat split. Qed.
